(** * NutShell product server: request resolution and generation engine

    A shallow embedding of [nutshell.py] (class [ProductServer]): the request
    object, the process runner, the input lister, the generator runner and
    the request handler, over an explicit store (cache file system, class
    counter and a trace of the processes started), with Python exceptions as
    an outcome of their own.

    What is left out: logging, which changes nothing the engine reads back;
    directories, permissions and other failures of the operating system.
    A [str] is represented by its UTF-8 encoding: decoding captured output
    checks that the bytes are well-formed UTF-8 and raises
    [UnicodeDecodeError] when they are not. The methods of [str] that look
    at characters ([strip], [int]) have the character classes of ASCII;
    what is proved of parsed or written text is proved of ASCII text. The
    modules [nutproduct] and [nutils] and the external scripts are not part
    of [nutshell.py]: they are parameters of the engine (record [Host]). *)

From Stdlib Require Import ZArith String Ascii List Bool Lia.
From stdpp Require Import gmap strings list fin_maps.

Local Open Scope string_scope.
Local Open Scope Z_scope.

(** ** Python text operations used by the engine *)

Module PyStr.

(** Characters for which [str.isspace] holds, within ASCII: tab, line feed,
    vertical tab, form feed, carriage return, the four separators
    0x1c..0x1f and the blank. *)
Definition isspace (c : ascii) : bool :=
  let n := nat_of_ascii c in
  ((9 <=? n)%nat && (n <=? 13)%nat) || ((28 <=? n)%nat && (n <=? 32)%nat).

Definition isdigit (c : ascii) : bool :=
  let n := nat_of_ascii c in (48 <=? n)%nat && (n <=? 57)%nat.

Definition digit_value (c : ascii) : Z := Z.of_nat (nat_of_ascii c) - 48.

Fixpoint lstrip (s : string) : string :=
  match s with
  | String c r => if isspace c then lstrip r else s
  | EmptyString => EmptyString
  end.

(** [rstrip] drops the trailing white space: a character is kept when
    something other than white space follows it. *)
Fixpoint rstrip (s : string) : string :=
  match s with
  | EmptyString => EmptyString
  | String c r =>
      match rstrip r with
      | EmptyString => if isspace c then EmptyString else String c EmptyString
      | r' => String c r'
      end
  end.

(** [s.strip()] *)
Definition strip (s : string) : string := rstrip (lstrip s).

(** [s.split(sep)] for a one character separator: never the empty list. *)
Fixpoint split (sep : ascii) (s : string) : list string :=
  match s with
  | EmptyString => [EmptyString]
  | String c r =>
      if Ascii.eqb c sep then EmptyString :: split sep r
      else match split sep r with
           | w :: ws => String c w :: ws
           | [] => [String c EmptyString]
           end
  end.

(** [s.replace(a, b)] for single characters. *)
Fixpoint replace (a b : ascii) (s : string) : string :=
  match s with
  | EmptyString => EmptyString
  | String c r => String (if Ascii.eqb c a then b else c) (replace a b r)
  end.

(** [sep.join(l)] *)
Fixpoint join (sep : string) (l : list string) : string :=
  match l with
  | [] => EmptyString
  | [x] => x
  | x :: r => x ++ sep ++ join sep r
  end.

(** Digits of a decimal literal, most significant first, with the single
    underscores Python allows between two digits. [acc] is the value read
    so far, [after_digit] tells whether the previous character was a
    digit. *)
Fixpoint digits (after_digit : bool) (acc : Z) (s : string) : option Z :=
  match s with
  | EmptyString => if after_digit then Some acc else None
  | String c r =>
      if isdigit c then digits true (10 * acc + digit_value c) r
      else if Ascii.eqb c "_" then
             (if after_digit then
                match r with
                | String d _ => if isdigit d then digits false acc r else None
                | EmptyString => None
                end
              else None)
      else None
  end.

(** [int(s)] in base ten; [None] stands for [ValueError]. *)
Definition int (s : string) : option Z :=
  match strip s with
  | String "+" r => digits false 0 r
  | String "-" r => option_map Z.opp (digits false 0 r)
  | r => digits false 0 r
  end.

(** [lines.pop()] after [split]: the last element. *)
Definition last_line (s : string) : string :=
  List.last (split "010" (strip s)) EmptyString.

(** [s.split(' ')[0]] *)
Definition first_token (s : string) : string :=
  List.hd EmptyString (split " " s).

End PyStr.

(** ** Bytes and text *)

Module Utf8.

(** Every byte is below 0x80. *)
Fixpoint is_ascii (b : string) : bool :=
  match b with
  | EmptyString => true
  | String c r => (nat_of_ascii c <? 128)%nat && is_ascii r
  end.

Definition between (lo hi : nat) (c : ascii) : bool :=
  (lo <=? nat_of_ascii c)%nat && (nat_of_ascii c <=? hi)%nat.

(** Well-formed UTF-8 (the Unicode standard, table 3-7), which is what
    [bytes.decode(encoding='UTF-8')] accepts: no overlong form, no
    surrogate, nothing above U+10FFFF, no sequence cut short. *)
Fixpoint valid (b : string) : bool :=
  match b with
  | EmptyString => true
  | String c0 r0 =>
      if between 0 127 c0 then valid r0
      else
        match r0 with
        | EmptyString => false
        | String c1 r1 =>
            if between 194 223 c0 then between 128 191 c1 && valid r1
            else
              match r1 with
              | EmptyString => false
              | String c2 r2 =>
                  if between 224 239 c0 then
                    (if between 224 224 c0 then between 160 191 c1
                     else if between 237 237 c0 then between 128 159 c1
                     else between 128 191 c1)
                    && between 128 191 c2 && valid r2
                  else
                    match r2 with
                    | EmptyString => false
                    | String c3 r3 =>
                        if between 240 244 c0 then
                          (if between 240 240 c0 then between 144 191 c1
                           else if between 244 244 c0 then between 128 143 c1
                           else between 128 191 c1)
                          && between 128 191 c2 && between 128 191 c3 && valid r3
                        else false
                    end
              end
        end
  end.

End Utf8.

(** ** Paths, after [pathlib] *)

Module Path.

Definition is_absolute (p : string) : bool :=
  match p with String "/" _ => true | _ => false end.

(** [Path(a, b)]: an empty segment is dropped, an absolute one restarts. *)
Definition join2 (a b : string) : string :=
  if String.eqb b "" then a
  else if is_absolute b then b
  else if String.eqb a "" then b
  else a ++ "/" ++ b.

(** [Path(s1, ..., sn)] *)
Definition join (segs : list string) : string := fold_left join2 segs "".

(** [p.absolute()], [cwd] being the working directory of the server. *)
Definition absolute (cwd p : string) : string :=
  if is_absolute p then p else join2 cwd p.

(** [p.name]: the last component. *)
Definition name (p : string) : string :=
  List.last (PyStr.split "/" p) EmptyString.

(** [p.parent]: all but the last component. *)
Definition parent (p : string) : string :=
  PyStr.join "/" (List.removelast (PyStr.split "/" p)).

End Path.

(** ** Status codes: the members of [http.HTTPStatus] the engine names *)

Module HTTPStatus.
Definition OK : Z := 200.
Definition ACCEPTED : Z := 202.
Definition NO_CONTENT : Z := 204.
Definition NOT_FOUND : Z := 404.
Definition CONFLICT : Z := 409.
Definition NOT_IMPLEMENTED : Z := 501.
End HTTPStatus.

(** ** Data model *)

(** The cache file system: a path has a regular file with its text, or
    nothing. Directories are not represented: [os.makedirs] with
    [exist_ok] is the identity on this store. *)
Abbreviation FS := (gmap string string).

(** A process environment ([params], [env]). *)
Abbreviation Env := (gmap string string).

(** A Python [dict] from [str] to [str] whose order of insertion matters
    ([','.join(pr.inputs.keys())]): keys in insertion order, no key twice. *)
Definition Dict := list (string * string).

Fixpoint dict_set (k v : string) (d : Dict) : Dict :=
  match d with
  | [] => [(k, v)]
  | (k', v') :: r => if String.eqb k' k then (k', v) :: r else (k', v') :: dict_set k v r
  end.

Fixpoint dict_get (k : string) (d : Dict) : option string :=
  match d with
  | [] => None
  | (k', v') :: r => if String.eqb k' k then Some v' else dict_get k r
  end.

Definition dict_keys (d : Dict) : list string := map fst d.

(** The assignments [d[k] = v] of [l] made to [d], in order. *)
Definition dict_assign (l : list (string * string)) (d : Dict) : Dict :=
  fold_left (fun d kv => dict_set (fst kv) (snd kv) d) l d.

(** [params.update(d)] *)
Definition env_update (d : Dict) (params : Env) : Env :=
  fold_left (fun e kv => <[fst kv := snd kv]> e) d params.

(** ['X' in l] for a list of strings. *)
Definition has (x : string) (l : list string) : bool := existsb (String.eqb x) l.

(** What an attribute holding captured output can be: [None], a [bytes]
    object or a decoded [str]. *)
Inductive PyText :=
| PyNone
| PyBytes (b : string)
| PyStr (s : string).

Definition truthy (t : PyText) : bool :=
  match t with
  | PyNone => false
  | PyBytes b => negb (String.eqb b "")
  | PyStr s => negb (String.eqb s "")
  end.

(** [pr.product]: [None], the path of the artifact, or [''] (busy). *)
Inductive Product :=
| NoProduct
| ProductPath (p : string)
| ProductEmpty.

(** The exceptions the engine can let escape. *)
Inductive Exn :=
| AttributeError (attr : string)
| TypeError
| FileNotFoundError (p : string)
| RecursionError
| UnicodeDecodeError.

(** [nutproduct.ProductInfo] is not part of [nutshell.py]: a product
    descriptor is represented by the fields the engine reads and by the
    values its methods [filename()], [filename_latest()] and
    [get_param_env()] return. *)
Record ProductInfo := {
  ID : string;
  TIMESTAMP : string;
  filename : string;
  filename_latest : string;
  get_param_env : Env
}.

(** How [subprocess.Popen] is told to treat the standard error. *)
Inductive Redirect := PIPE | STDOUT | INHERIT.

(** The arguments of a [subprocess.Popen(..., shell=True)] call. *)
Record Cmd := {
  cmd_line : string;
  cmd_cwd : string;
  cmd_env : Env;
  cmd_stderr : Redirect
}.

(** What a finished child process leaves: exit code, bytes written to its
    standard output (with the standard error merged in under [STDOUT]) and
    bytes written to its standard error. *)
Record Exit := {
  exit_code : Z;
  exit_out : string;
  exit_err : string
}.

(** Everything outside [nutshell.py] the engine relies on. External
    executables are arbitrary programs: [shell] gives, for a command and
    the store it starts in, what the child leaves and the store it leaves
    behind. The other fields stand for library code that is not in this
    file: membership of [http.HTTPStatus], the constructor
    [nutproduct.ProductInfo(str)], the assignments made by
    [nutils.read_conf_text], [nutils.symlink] (the store it leaves and
    whether it returned rather than raised),
    [nutproduct.parse_timestamp] (year, month, day) and the working
    directory. *)
Record Host := {
  shell : Cmd -> FS -> Exit * FS;
  HTTPStatus_member : Z -> bool;
  ProductInfo_parse : string -> ProductInfo;
  read_conf_text : list string -> list (string * string);
  symlink : string -> string -> option bool -> FS -> FS * bool;
  parse_timestamp : string -> string * string * string;
  cwd : string
}.

(** The configuration attributes of a [ProductServer] instance. *)
Record ProductServer := {
  PRODUCT_ROOT : string;
  CACHE_ROOT : string;
  SHELL_GENERATOR_SCRIPT : string;
  SHELL_INPUT_SCRIPT : string;
  server_stderr : Redirect
}.

(** Events worth observing: a request object was built with this [sid], a
    child process was started with this command. *)
Inductive Event :=
| EvRequest (sid : Z)
| EvPopen (c : Cmd).

(** The mutable world: the store, the class attribute
    [ProductServer.counter] and the events so far, oldest first. *)
Record State := {
  fs : FS;
  counter : Z;
  trace : list Event
}.

(** ** Request and input-listing objects *)

Module ProductRequest.

(** [pr.path] is a [pathlib.Path], which is always true in a condition,
    until line 557 replaces it by the empty [str]: [Some p] is the
    [Path], [None] the empty [str]. [error_info] is [None] while the
    attribute does not exist. *)
Record t := mk {
  sid : Z;
  product_info : ProductInfo;
  actions : list string;
  directives : list string;
  generator_path : string;
  product : Product;
  inputs : Dict;
  path_relative : string;
  path : option string;
  path_tmp : string;
  path_static : string;
  path_latest : string;
  status : Z;
  returncode : Z;
  stdout : PyText;
  stderr : PyText;
  error_info : option string
}.

Definition with_product (v : Product) (r : t) : t :=
  mk (sid r) (product_info r) (actions r) (directives r) (generator_path r)
     v (inputs r) (path_relative r) (path r) (path_tmp r)
     (path_static r) (path_latest r) (status r) (returncode r) (stdout r)
     (stderr r) (error_info r).

Definition with_inputs (v : Dict) (r : t) : t :=
  mk (sid r) (product_info r) (actions r) (directives r) (generator_path r)
     (product r) v (path_relative r) (path r) (path_tmp r)
     (path_static r) (path_latest r) (status r) (returncode r) (stdout r)
     (stderr r) (error_info r).

Definition with_path (v : option string) (r : t) : t :=
  mk (sid r) (product_info r) (actions r) (directives r) (generator_path r)
     (product r) (inputs r) (path_relative r) v (path_tmp r)
     (path_static r) (path_latest r) (status r) (returncode r) (stdout r)
     (stderr r) (error_info r).

(** [pr.set_status(status)]: logs, then assigns. *)
Definition set_status (v : Z) (r : t) : t :=
  mk (sid r) (product_info r) (actions r) (directives r) (generator_path r)
     (product r) (inputs r) (path_relative r) (path r) (path_tmp r)
     (path_static r) (path_latest r) v (returncode r) (stdout r)
     (stderr r) (error_info r).

Definition with_returncode (v : Z) (r : t) : t :=
  mk (sid r) (product_info r) (actions r) (directives r) (generator_path r)
     (product r) (inputs r) (path_relative r) (path r) (path_tmp r)
     (path_static r) (path_latest r) (status r) v (stdout r)
     (stderr r) (error_info r).

Definition with_stdout (v : PyText) (r : t) : t :=
  mk (sid r) (product_info r) (actions r) (directives r) (generator_path r)
     (product r) (inputs r) (path_relative r) (path r) (path_tmp r)
     (path_static r) (path_latest r) (status r) (returncode r) v
     (stderr r) (error_info r).

Definition with_stderr (v : PyText) (r : t) : t :=
  mk (sid r) (product_info r) (actions r) (directives r) (generator_path r)
     (product r) (inputs r) (path_relative r) (path r) (path_tmp r)
     (path_static r) (path_latest r) (status r) (returncode r) (stdout r)
     v (error_info r).

Definition with_error_info (v : string) (r : t) : t :=
  mk (sid r) (product_info r) (actions r) (directives r) (generator_path r)
     (product r) (inputs r) (path_relative r) (path r) (path_tmp r)
     (path_static r) (path_latest r) (status r) (returncode r) (stdout r)
     (stderr r) (Some v).

End ProductRequest.

Module InputInfo.

(** An instance of [_InputInfo] as [ProductServer.InputInfo] sets it up.
    The class declares [inputs], [stdout], [stderr], [log] and
    [returncode] only: [status] and [error_info] do not exist ([None])
    until something assigns them. *)
Record t := mk {
  script : string;
  inputs : Dict;
  returncode : Z;
  stdout : PyText;
  stderr : PyText;
  status : option Z;
  error_info : option string
}.

Definition with_inputs (v : Dict) (r : t) : t :=
  mk (script r) v (returncode r) (stdout r) (stderr r) (status r) (error_info r).
Definition with_returncode (v : Z) (r : t) : t :=
  mk (script r) (inputs r) v (stdout r) (stderr r) (status r) (error_info r).
Definition with_stdout (v : PyText) (r : t) : t :=
  mk (script r) (inputs r) (returncode r) v (stderr r) (status r) (error_info r).
Definition with_stderr (v : PyText) (r : t) : t :=
  mk (script r) (inputs r) (returncode r) (stdout r) v (status r) (error_info r).
Definition with_status (v : Z) (r : t) : t :=
  mk (script r) (inputs r) (returncode r) (stdout r) (stderr r) (Some v) (error_info r).
Definition with_error_info (v : string) (r : t) : t :=
  mk (script r) (inputs r) (returncode r) (stdout r) (stderr r) (status r) (Some v).

End InputInfo.

(** [run_process] is handed either object and only touches the attributes
    both can carry: the interface of a task. [task_status] reads the
    attribute, [None] when the object has none. *)
Class Task (T : Type) := {
  task_set_returncode : Z -> T -> T;
  task_set_status : Z -> T -> T;
  task_status : T -> option Z;
  task_set_error_info : string -> T -> T;
  task_set_stdout : PyText -> T -> T;
  task_set_stderr : PyText -> T -> T
}.

#[export] Instance ProductRequest_Task : Task ProductRequest.t := {
  task_set_returncode := ProductRequest.with_returncode;
  task_set_status := ProductRequest.set_status;
  task_status := fun r => Some (ProductRequest.status r);
  task_set_error_info := ProductRequest.with_error_info;
  task_set_stdout := ProductRequest.with_stdout;
  task_set_stderr := ProductRequest.with_stderr
}.

#[export] Instance InputInfo_Task : Task InputInfo.t := {
  task_set_returncode := InputInfo.with_returncode;
  task_set_status := InputInfo.with_status;
  task_status := InputInfo.status;
  task_set_error_info := InputInfo.with_error_info;
  task_set_stdout := InputInfo.with_stdout;
  task_set_stderr := InputInfo.with_stderr
}.

(** ** Computations: a store and an exception *)

Inductive Outcome (A : Type) :=
| Returned (a : A)
| Raised (e : Exn).
Arguments Returned {A} a.
Arguments Raised {A} e.

(** A computation runs from a state and either returns or raises; the state
    it leaves is known in both cases. *)
Definition M (A : Type) : Type := State -> Outcome A * State.

Definition ret {A} (a : A) : M A := fun s => (Returned a, s).

Definition raise {A} (e : Exn) : M A := fun s => (Raised e, s).

Definition bind {A B} (m : M A) (k : A -> M B) : M B :=
  fun s =>
    match m s with
    | (Returned a, s') => k a s'
    | (Raised e, s') => (Raised e, s')
    end.

Declare Scope engine_scope.
Delimit Scope engine_scope with engine.
Notation "'let!' x ':=' m 'in' k" := (bind m (fun x => k))
  (at level 10, x name, m at level 100, k at level 200) : engine_scope.
Notation "'do!' m 'in' k" := (bind m (fun _ => k))
  (at level 10, m at level 100, k at level 200) : engine_scope.
Local Open Scope engine_scope.

Definition get_fs : M FS := fun s => (Returned (fs s), s).

Definition put_fs (f : FS) : M unit :=
  fun s => (Returned tt, {| fs := f; counter := counter s; trace := trace s |}).

Definition emit (e : Event) : M unit :=
  fun s => (Returned tt, {| fs := fs s; counter := counter s; trace := trace s ++ [e] |}).

Definition get_counter : M Z := fun s => (Returned (counter s), s).

(** [b.decode(encoding='UTF-8')] *)
Definition decode (b : string) : M string :=
  if Utf8.valid b then ret b else raise UnicodeDecodeError.

(** *** File operations of [pathlib.Path] *)

(** [p.exists()] *)
Definition Path_exists (p : string) : M bool :=
  let! f := get_fs in ret (bool_decide (is_Some (f !! p))).

(** [p.stat().st_size] *)
Definition Path_st_size (p : string) : M Z :=
  let! f := get_fs in
  match f !! p with
  | Some text => ret (Z.of_nat (String.length text))
  | None => raise (FileNotFoundError p)
  end.

(** [p.unlink()] *)
Definition Path_unlink (p : string) : M unit :=
  let! f := get_fs in
  match f !! p with
  | Some _ => put_fs (delete p f)
  | None => raise (FileNotFoundError p)
  end.

(** [p.touch()]: creates an empty file unless one is there. *)
Definition Path_touch (p : string) : M unit :=
  let! f := get_fs in
  match f !! p with
  | Some _ => ret tt
  | None => put_fs (<[p := ""]> f)
  end.

(** [p.write_text(text)] *)
Definition Path_write_text (p text : string) : M unit :=
  let! f := get_fs in put_fs (<[p := text]> f).

(** [src.replace(dst)]: renames, replacing [dst]. *)
Definition Path_replace (src dst : string) : M unit :=
  let! f := get_fs in
  match f !! src with
  | Some text => put_fs (<[dst := text]> (delete src f))
  | None => raise (FileNotFoundError src)
  end.

(** *** Child processes *)

(** A finished [subprocess.Popen] object: [returncode] and what
    [communicate()] hands back. The standard output is always piped; the
    standard error is handed back only when it was piped too. *)
Record Popen := {
  p_returncode : Z;
  p_stdout : string;
  p_stderr : option string
}.

(** The object a child started with [c] and ended as [e] is. *)
Definition finished (c : Cmd) (e : Exit) : Popen :=
  {| p_returncode := exit_code e;
     p_stdout := exit_out e;
     p_stderr := match cmd_stderr c with
                 | PIPE => Some (exit_err e)
                 | _ => None
                 end |}.

(** The state once a child started with [c] has exited, leaving store [f]. *)
Definition after_child (c : Cmd) (f : FS) (s : State) : State :=
  {| fs := f; counter := counter s; trace := trace s ++ [EvPopen c] |}.

(** ** The engine *)

Section Engine.

Variable host : Host.
Variable self : ProductServer.

(** [subprocess.Popen(...)] and the run of the child until it exits. *)
Definition subprocess_Popen (c : Cmd) : M Popen :=
  do! emit (EvPopen c) in
  let! f := get_fs in
  let '(e, f') := shell host c f in
  do! put_fs f' in
  ret (finished c e).

Definition get_product_dir (product_info : ProductInfo) : string :=
  PyStr.replace "." "/" (ID product_info).

(** [TIME_DIR_SYNTAX] is ['{YEAR}/{MONTH}/{DAY}']. *)
Definition get_time_dir (product_info : ProductInfo) : string :=
  let timestamp := TIMESTAMP product_info in
  if String.eqb timestamp "" then ""
  else if String.eqb timestamp "LATEST" then ""
  else let '(year, month, day) := parse_timestamp host timestamp in
       year ++ "/" ++ month ++ "/" ++ day.

Definition get_generator_dir (product_info : ProductInfo) : string :=
  Path.absolute (cwd host)
    (Path.join (PRODUCT_ROOT self :: PyStr.split "." (ID product_info))).

Definition ensure_output_dir (outdir : string) : M string := ret outdir.

(** Python has no increment operator: [++x] is [+(+x)]. *)
Definition unary_plus (x : Z) : Z := x.

(** [ProductRequest.__init__] *)
Definition ProductRequest_init (product_info : ProductInfo)
    (actions directives : list string) : M ProductRequest.t :=
  let! c := get_counter in
  let sid := unary_plus (unary_plus c) in
  do! emit (EvRequest sid) in
  let generator_path :=
    Path.join [get_generator_dir product_info; SHELL_GENERATOR_SCRIPT self] in
  let filename := filename product_info in
  let filename_latest := filename_latest product_info in
  let cache_root := Path.absolute (cwd host) (CACHE_ROOT self) in
  let time_dir := get_time_dir product_info in
  let prod_dir := get_product_dir product_info in
  ret {| ProductRequest.sid := sid;
         ProductRequest.product_info := product_info;
         ProductRequest.actions := actions;
         ProductRequest.directives := directives;
         ProductRequest.generator_path := generator_path;
         ProductRequest.product := NoProduct;
         ProductRequest.inputs := [];
         ProductRequest.path_relative := Path.join [time_dir; prod_dir; filename];
         ProductRequest.path := Some (Path.join [cache_root; time_dir; prod_dir; filename]);
         ProductRequest.path_tmp := Path.join [cache_root; time_dir; prod_dir; "tmp"; filename];
         ProductRequest.path_static := Path.join [cache_root; prod_dir; filename];
         ProductRequest.path_latest := Path.join [cache_root; prod_dir; filename_latest];
         ProductRequest.status := HTTPStatus.NO_CONTENT;
         ProductRequest.returncode := -1;
         ProductRequest.stdout := PyNone;
         ProductRequest.stderr := PyNone;
         ProductRequest.error_info := None |}.

(** [ProductServer.InputInfo] *)
Definition InputInfo_new (product_info : ProductInfo) : InputInfo.t :=
  {| InputInfo.script :=
       Path.join [get_generator_dir product_info; SHELL_INPUT_SCRIPT self];
     InputInfo.inputs := [];
     InputInfo.returncode := 0;
     InputInfo.stdout := PyNone;
     InputInfo.stderr := PyNone;
     InputInfo.status := None;
     InputInfo.error_info := None |}.

(** The handler of [ValueError] in [run_process]: the warning formats
    [task.status] before the assignment. *)
Definition not_http_code {T} `{Task T} (task : T) : M T :=
  match task_status task with
  | Some _ => ret (task_set_status HTTPStatus.CONFLICT task)
  | None => raise (AttributeError "status")
  end.

(** The [try] block of [run_process]: [int] of the first token, then
    [HTTPStatus] of it; either may raise [ValueError]. *)
Definition status_from_error_info {T} `{Task T} (error_info : string) (task : T) : M T :=
  match PyStr.int (PyStr.first_token error_info) with
  | Some status =>
      if HTTPStatus_member host status then ret (task_set_status status task)
      else not_http_code task
  | None => not_http_code task
  end.

(** Lines 433-434: [if (stderr): stderr = stderr.decode(encoding='UTF-8')].
    What was not captured is [None]. *)
Definition decode_if_any (captured : option string) : M PyText :=
  match captured with
  | Some b =>
      if negb (String.eqb b "") then
        let! text := decode b in ret (PyStr text)
      else ret (PyBytes b)
  | None => ret PyNone
  end.

(** [run_process]: lines 422 and 434 decode what was captured, outside the
    [try]. *)
Definition run_process {T} `{Task T} (p : option Popen) (task : T) : M T :=
  match p with
  | None =>
      ret (task_set_status HTTPStatus.NOT_FOUND (task_set_returncode (-1) task))
  | Some p =>
      let task := task_set_returncode (p_returncode p) task in
      let! task_stdout :=
        (if negb (String.eqb (p_stdout p) "") then
           let! stdout := decode (p_stdout p) in
           if negb (p_returncode p =? 0) then
             let error_info := PyStr.last_line stdout in
             let! task := status_from_error_info error_info
                            (task_set_error_info error_info task) in
             ret (task, PyStr stdout)
           else ret (task, PyStr stdout)
         else ret (task, PyBytes (p_stdout p))) in
      let '(task, stdout) := task_stdout in
      let! stderr := decode_if_any (p_stderr p) in
      ret (task_set_stderr stderr (task_set_stdout stdout task))
  end.

Definition get_input_list (product_info : ProductInfo) (directives : list string)
    : M InputInfo.t :=
  let input_info := InputInfo_new product_info in
  let! found := Path_exists (InputInfo.script input_info) in
  if negb found then ret input_info
  else
    let env := get_param_env product_info in
    let! p := subprocess_Popen
                {| cmd_line := InputInfo.script input_info;
                   cmd_cwd := Path.parent (InputInfo.script input_info);
                   cmd_env := env;
                   cmd_stderr := server_stderr self |} in
    let! input_info := run_process (Some p) input_info in
    if InputInfo.returncode input_info =? 0 then
      match InputInfo.stdout input_info with
      | PyStr text =>
          ret (InputInfo.with_inputs
                 (dict_assign (read_conf_text host (PyStr.split "010" text))
                              (InputInfo.inputs input_info))
                 input_info)
      | PyBytes _ => raise TypeError
      | PyNone => raise (AttributeError "split")
      end
    else
      match InputInfo.error_info input_info with
      | Some _ => ret input_info
      | None => raise (AttributeError "error_info")
      end.

(** [if (text): log_file.write_text(text)]; [write_text] refuses what is
    not a [str]. *)
Definition write_log_if_any (log_file : string) (text : PyText) : M unit :=
  if truthy text then
    match text with
    | PyStr t => Path_write_text log_file t
    | _ => raise TypeError
    end
  else ret tt.

(** The [Popen] call of [run_generator]: the standard error goes where the
    standard output goes. *)
Definition generator_cmd (product_request : ProductRequest.t) (params : Env) : Cmd :=
  {| cmd_line := ProductRequest.generator_path product_request;
     cmd_cwd := Path.parent (ProductRequest.generator_path product_request);
     cmd_env := params;
     cmd_stderr := STDOUT |}.

(** [run_generator]: the request is updated in place and the exit code
    returned; here both come back. [path] is [str(product_request.path)]. *)
Definition run_generator (product_request : ProductRequest.t) (path : string)
    (params : Env) : M (ProductRequest.t * Z) :=
  let! p := subprocess_Popen (generator_cmd product_request params) in
  let! product_request := run_process (Some p) product_request in
  if negb (p_returncode p =? 0) then
    do! write_log_if_any (path ++ ".stdout.log") (ProductRequest.stdout product_request) in
    do! write_log_if_any (path ++ ".stderr.log") (ProductRequest.stderr product_request) in
    ret (product_request, p_returncode p)
  else ret (product_request, p_returncode p).

(** *** [handle_request]

    The body of [handle_request] is a sequence of blocks, some of which
    end in [return pr]. A block either returns from the function or falls
    through to the next one with what it has computed. *)

Inductive Flow (A : Type) :=
| Return (pr : ProductRequest.t)
| Next (a : A).
Arguments Return {A} pr.
Arguments Next {A} a.

Definition and_then {A B} (m : M (Flow A)) (k : A -> M (Flow B)) : M (Flow B) :=
  let! flow := m in
  match flow with
  | Return pr => ret (Return pr)
  | Next a => k a
  end.

Notation "'next!' x ':=' m 'in' k" := (and_then m (fun x => k))
  (at level 10, x name, m at level 100, k at level 200) : engine_scope.

Section Handler.

(** The way requests for the inputs are made: [self.make_request]. *)
Variable make_request_rec :
  ProductInfo -> list string -> list string -> M ProductRequest.t.

(** Lines 531-548: the look at the cache. A request whose [path] was
    replaced by [''] has no [exists] to call. Falls through with the
    request and [pr.path]. *)
Definition check_cache (pr : ProductRequest.t)
    : M (Flow (ProductRequest.t * string)) :=
  match ProductRequest.path pr with
  | None => raise (AttributeError "exists")
  | Some path =>
      let! found := Path_exists path in
      if found then
        if has "DELETE" (ProductRequest.actions pr) then
          do! Path_unlink path in
          ret (Next (ProductRequest.set_status HTTPStatus.ACCEPTED pr, path))
        else if has "MAKE" (ProductRequest.actions pr) then
          let! size := Path_st_size path in
          if 0 <? size then
            ret (Return (ProductRequest.set_status HTTPStatus.OK
                           (ProductRequest.with_product (ProductPath path) pr)))
          else
            ret (Return (ProductRequest.set_status HTTPStatus.ACCEPTED
                           (ProductRequest.with_product ProductEmpty pr)))
        else ret (Next (pr, path))
      else ret (Next (pr, path))
  end.

(** Lines 552-559. *)
Definition check_generator (pr : ProductRequest.t) : M (Flow ProductRequest.t) :=
  let! found := Path_exists (ProductRequest.generator_path pr) in
  if found then ret (Next pr)
  else ret (Return (ProductRequest.set_status HTTPStatus.NOT_IMPLEMENTED
                      (ProductRequest.with_path None pr))).

(** Lines 563-574: the environment of the generator and the placeholder. *)
Definition prepare (pr : ProductRequest.t) (path : string) : M Env :=
  if has "MAKE" (ProductRequest.actions pr) then
    let! _ := ensure_output_dir (Path.parent (ProductRequest.path_tmp pr)) in
    let! _ := ensure_output_dir (Path.parent path) in
    let params := get_param_env (ProductRequest.product_info pr) in
    let params := <["OUTDIR" := Path.parent (ProductRequest.path_tmp pr)]> params in
    let params := <["OUTFILE" := Path.name path]> params in
    do! Path_touch path in
    ret params
  else ret ∅.

(** Lines 577-586: runs [input.sh]. *)
Definition list_inputs (pr : ProductRequest.t) (path : string)
    : M (Flow ProductRequest.t) :=
  if has "MAKE" (ProductRequest.actions pr) || has "INPUTS" (ProductRequest.actions pr) then
    let! input_info := get_input_list (ProductRequest.product_info pr)
                         (ProductRequest.directives pr) in
    if InputInfo.returncode input_info =? 0 then
      ret (Next (ProductRequest.with_inputs (InputInfo.inputs input_info) pr))
    else
      let pr := ProductRequest.set_status HTTPStatus.CONFLICT pr in
      do! Path_unlink path in
      ret (Return pr)
  else ret (Next pr).

(** Lines 591-601: the loop over [pr.inputs], filling [inputs]. *)
Fixpoint retrieve_inputs (items : Dict) (inputs : Dict) : M Dict :=
  match items with
  | [] => ret inputs
  | (i, input) :: rest =>
      let input_prod_info := ProductInfo_parse host input in
      let! r := make_request_rec input_prod_info ["MAKE"] [] in
      match ProductRequest.path r with
      | Some r_path => retrieve_inputs rest (dict_set i r_path inputs)
      | None => retrieve_inputs rest inputs
      end
  end.

(** Lines 588-606. *)
Definition retrieve (pr : ProductRequest.t) (params : Env)
    : M (ProductRequest.t * Env) :=
  if has "MAKE" (ProductRequest.actions pr) then
    let! inputs := retrieve_inputs (ProductRequest.inputs pr) [] in
    let pr := ProductRequest.with_inputs inputs pr in
    let params := <["INPUTKEYS" := PyStr.join "," (dict_keys (ProductRequest.inputs pr))]> params in
    let params := env_update (ProductRequest.inputs pr) params in
    ret (pr, params)
  else ret (pr, params).

(** [nutils.symlink(link, target, ...)]; tells whether it returned. *)
Definition call_symlink (link target : string) (overwrite : option bool) : M bool :=
  let! f := get_fs in
  let '(f', returned) := symlink host link target overwrite f in
  do! put_fs f' in
  ret returned.

(** Lines 625-636: one [try] around both links. *)
Definition apply_links (pr : ProductRequest.t) (path : string) : M unit :=
  let! linked :=
    (if has "LINK" (ProductRequest.directives pr) then
       let! _ := ensure_output_dir (Path.parent (ProductRequest.path_static pr)) in
       call_symlink (ProductRequest.path_static pr) path None
     else ret true) in
  if linked then
    if has "LATEST" (ProductRequest.directives pr) then
      let! _ := ensure_output_dir (Path.parent (ProductRequest.path_latest pr)) in
      let! _ := call_symlink (ProductRequest.path_latest pr) path (Some true) in
      ret tt
    else ret tt
  else ret tt.

(** Lines 638-644: [write_text] raises on what is not a [str], which the
    bare [except] swallows. *)
Definition save_log (pr : ProductRequest.t) (path : string) : M unit :=
  if has "DEBUG" (ProductRequest.directives pr) || has "LOG" (ProductRequest.directives pr) then
    match ProductRequest.stdout pr with
    | PyStr text => Path_write_text (path ++ ".log") text
    | _ => ret tt
    end
  else ret tt.

(** Lines 609-646: the generation and what follows it. *)
Definition generate (pr : ProductRequest.t) (path : string) (params : Env)
    : M ProductRequest.t :=
  if has "MAKE" (ProductRequest.actions pr) then
    let! done := run_generator pr path params in
    let pr := fst done in
    if negb (ProductRequest.returncode pr =? 0) then ret pr
    else
      let! size := Path_st_size (ProductRequest.path_tmp pr) in
      if size =? 0 then ret pr
      else
        do! Path_replace (ProductRequest.path_tmp pr) path in
        let pr := ProductRequest.set_status HTTPStatus.OK pr in
        do! apply_links pr path in
        do! save_log pr path in
        ret pr
  else ret pr.

(** Lines 531-586: up to the listing of the inputs. Falls through with
    the request, [pr.path] and [params]. *)
Definition listed (pr : ProductRequest.t)
    : M (Flow (ProductRequest.t * string * Env)) :=
  next! checked := check_cache pr in
  let path := snd checked in
  next! pr := check_generator (fst checked) in
  let! params := prepare pr path in
  next! pr := list_inputs pr path in
  ret (Next (pr, path, params)).

(** Lines 531-606: everything before the generation. *)
Definition resolve (pr : ProductRequest.t)
    : M (Flow (ProductRequest.t * string * Env)) :=
  next! found := listed pr in
  let! retrieved := retrieve (fst (fst found)) (snd found) in
  ret (Next (fst retrieved, snd (fst found), snd retrieved)).

(** Lines 531-646. *)
Definition handle_request_body (pr : ProductRequest.t) : M ProductRequest.t :=
  let! flow := resolve pr in
  match flow with
  | Return pr => ret pr
  | Next (pr, path, params) => generate pr path params
  end.

End Handler.

(** [handle_request] calls [make_request] for each input, which calls
    [handle_request]: [fuel] is the number of nested calls the interpreter
    still allows before it raises [RecursionError]. *)
Fixpoint handle_request (fuel : nat) (pr : ProductRequest.t) : M ProductRequest.t :=
  handle_request_body
    (fun product_info actions directives =>
       match fuel with
       | O => raise RecursionError
       | S fuel' =>
           let! product_request := ProductRequest_init product_info actions directives in
           handle_request fuel' product_request
       end)
    pr.

Definition make_request (fuel : nat) (product_info : ProductInfo)
    (actions directives : list string) : M ProductRequest.t :=
  let! product_request := ProductRequest_init product_info actions directives in
  handle_request fuel product_request.

(** One [ProductRequest(...)] after the other, for each descriptor with its
    actions and directives. *)
Fixpoint construct_all (todo : list (ProductInfo * list string * list string))
    : M (list ProductRequest.t) :=
  match todo with
  | [] => ret []
  | (product_info, actions, directives) :: rest =>
      let! product_request := ProductRequest_init product_info actions directives in
      let! others := construct_all rest in
      ret (product_request :: others)
  end.

(** [self.make_request] as seen from inside [handle_request] with [fuel]
    nested calls left. *)
Definition make_input_request (fuel : nat) (product_info : ProductInfo)
    (actions directives : list string) : M ProductRequest.t :=
  match fuel with
  | O => raise RecursionError
  | S fuel' => make_request fuel' product_info actions directives
  end.

End Engine.

Arguments Return {A} pr.
Arguments Next {A} a.

(** ** A concrete installation

    A host with a handful of product types, used to run the engine on
    explicit inputs. The scripts are told apart by their path. *)

Module Demo.

Definition nl : string := String "010" "".

(** Members of [http.HTTPStatus] (Python 3.7). *)
Definition http_codes : list Z :=
  [100; 101; 102; 200; 201; 202; 203; 204; 205; 206; 207; 208; 226;
   300; 301; 302; 303; 304; 305; 307; 308;
   400; 401; 402; 403; 404; 405; 406; 407; 408; 409; 410; 411; 412; 413;
   414; 415; 416; 417; 421; 422; 423; 424; 426; 428; 429; 431; 451;
   500; 501; 502; 503; 504; 505; 506; 507; 508; 510; 511].

(** A descriptor string is taken as the product identifier itself. *)
Definition info (id : string) : ProductInfo :=
  {| ID := id;
     TIMESTAMP := "";
     filename := id ++ ".txt";
     filename_latest := "LATEST_" ++ id ++ ".txt";
     get_param_env := ∅ |}.

(** One assignment for each line of the form [name=value]. *)
Definition conf_lines (lines : list string) : list (string * string) :=
  flat_map (fun line =>
              match PyStr.split "=" line with
              | name :: value :: more => [(name, PyStr.join "=" (value :: more))]
              | _ => []
              end) lines.

Definition out_file (c : Cmd) : string :=
  Path.join2 (default "" (cmd_env c !! "OUTDIR")) (default "" (cmd_env c !! "OUTFILE")).

Definition exits (code : Z) (out : string) : Exit :=
  {| exit_code := code; exit_out := out; exit_err := "" |}.

Definition scripts (c : Cmd) (f : FS) : Exit * FS :=
  let line := cmd_line c in
  if String.eqb line "/srv/products/test/gen/generate.sh" then
    (exits 0 "", <[out_file c := "hello"]> f)
  else if String.eqb line "/srv/products/test/bad/generate.sh" then
    (exits 1 ("working" ++ nl ++ "409 bad input" ++ nl), f)
  else if String.eqb line "/srv/products/test/quiet/generate.sh" then
    (exits 1 "", f)
  else if String.eqb line "/srv/products/test/idle/generate.sh" then
    (exits 0 "", f)
  else if String.eqb line "/srv/products/test/void/generate.sh" then
    (exits 0 "nothing to do", <[out_file c := ""]> f)
  else if String.eqb line "/srv/products/test/mix/input.sh" then
    (exits 0 ("a=test.gen" ++ nl ++ "b=test.none" ++ nl), f)
  else if String.eqb line "/srv/products/test/mix/generate.sh" then
    (exits 0 "", <[out_file c := default "" (cmd_env c !! "INPUTKEYS")]> f)
  else if String.eqb line "/srv/products/test/half/input.sh" then
    (exits 0 ("a=test.gen" ++ nl ++ "b=test.bad" ++ nl), f)
  else if String.eqb line "/srv/products/test/half/generate.sh" then
    (exits 0 "", <[out_file c := default "" (cmd_env c !! "INPUTKEYS")]> f)
  else if String.eqb line "/srv/products/test/dep/input.sh" then
    (exits 1 "", f)
  else if String.eqb line "/srv/products/test/why/input.sh" then
    (exits 1 ("no upstream data" ++ nl), f)
  else if String.eqb line "/srv/products/test/gone/input.sh" then
    (exits 1 ("404 no upstream data" ++ nl), f)
  else (exits 127 "", f).

Definition host : Host :=
  {| shell := scripts;
     HTTPStatus_member := fun n => bool_decide (n ∈ http_codes);
     ProductInfo_parse := info;
     read_conf_text := conf_lines;
     symlink := fun link target _ f => (<[link := target]> f, true);
     parse_timestamp := fun t =>
       (String.substring 0 4 t, String.substring 4 2 t, String.substring 6 2 t);
     cwd := "/srv" |}.

Definition server : ProductServer :=
  {| PRODUCT_ROOT := "products";
     CACHE_ROOT := "cache";
     SHELL_GENERATOR_SCRIPT := "generate.sh";
     SHELL_INPUT_SCRIPT := "input.sh";
     server_stderr := PIPE |}.

(** The installed scripts. *)
Definition installed : FS :=
  list_to_map
    (map (fun p => (p, "#!/bin/sh"))
       ["/srv/products/test/gen/generate.sh";
        "/srv/products/test/bad/generate.sh";
        "/srv/products/test/quiet/generate.sh";
        "/srv/products/test/idle/generate.sh";
        "/srv/products/test/void/generate.sh";
        "/srv/products/test/mix/input.sh";
        "/srv/products/test/mix/generate.sh";
        "/srv/products/test/half/input.sh";
      "/srv/products/test/half/generate.sh";
      "/srv/products/test/dep/input.sh";
        "/srv/products/test/dep/generate.sh";
        "/srv/products/test/why/input.sh";
        "/srv/products/test/why/generate.sh";
        "/srv/products/test/gone/input.sh";
        "/srv/products/test/gone/generate.sh"]).

(** A freshly started interpreter: [counter = 0], nothing has happened. *)
Definition start (f : FS) : State := {| fs := f; counter := 0; trace := [] |}.

Definition run (id : string) (actions : list string) (f : FS)
    : Outcome ProductRequest.t * State :=
  make_request host server 100 (info id) actions [] (start f).

(** The request [ProductRequest_init] builds for [id] in a fresh
    interpreter. *)
Definition request (id : string) (actions : list string) : ProductRequest.t :=
  match ProductRequest_init host server (info id) actions [] (start ∅) with
  | (Returned r, _) => r
  | (Raised _, _) =>
      ProductRequest.mk 0 (info id) [] [] "" NoProduct [] "" None "" "" "" 0 0
        PyNone PyNone None
  end.

Definition gen_artifact : string := "/srv/cache/test/gen/test.gen.txt".

(** The cache holds an artifact of [test.gen]. *)
Definition stale_state : State := start (<[gen_artifact := "stale"]> installed).

Definition delete_request : ProductRequest.t :=
  Eval vm_compute in request "test.gen" ["DELETE"].

Definition gen_request : ProductRequest.t :=
  Eval vm_compute in request "test.gen" ["MAKE"].

(** Somebody is making [test.gen]: its placeholder is in the cache. *)
Definition busy_state : State := start (<[gen_artifact := ""]> installed).

Definition bad_request : ProductRequest.t :=
  Eval vm_compute in request "test.bad" ["MAKE"].

Definition bad_artifact : string := "/srv/cache/test/bad/test.bad.txt".

Definition bad_output : string :=
  Eval vm_compute in "working" ++ nl ++ "409 bad input" ++ nl.




Definition mix_request : ProductRequest.t :=
  Eval vm_compute in request "test.mix" ["MAKE"].

(** Where a request stands when [listed] falls through. *)
Definition listing (pr : ProductRequest.t) (s : State)
    : ProductRequest.t * string * Env * State :=
  match listed host server pr s with
  | (Returned (Next (pr0, path, params)), s0) => (pr0, path, params, s0)
  | _ => (pr, "", ∅, s)
  end.

Definition mix_listing : ProductRequest.t * string * Env * State :=
  Eval vm_compute in listing mix_request (start installed).

(** The request a computation returned, [pr] if it raised. *)
Definition returned (pr : ProductRequest.t) (x : Outcome ProductRequest.t * State)
    : ProductRequest.t :=
  match fst x with
  | Returned r => r
  | Raised _ => pr
  end.

(** The requests for the two inputs of [test.mix], one after the other. *)
Definition mix_input_a : Outcome ProductRequest.t * State :=
  Eval vm_compute in
    make_input_request host server 100 (info "test.gen") ["MAKE"] [] (snd mix_listing).

Definition mix_input_b : Outcome ProductRequest.t * State :=
  Eval vm_compute in
    make_input_request host server 100 (info "test.none") ["MAKE"] [] (snd mix_input_a).

Definition mix_outs : list (string * option string) :=
  Eval vm_compute in
    [("a", ProductRequest.path (returned mix_request mix_input_a));
     ("b", ProductRequest.path (returned mix_request mix_input_b))].

End Demo.

(** ** The rest of the module *)

(** *** [parse_timestamp2] *)

Module PyRe.

(** Characters [\w] matches, within ASCII: letters, digits and the
    underscore. *)
Definition isword (c : ascii) : bool :=
  let n := nat_of_ascii c in
  ((48 <=? n)%nat && (n <=? 57)%nat) || ((65 <=? n)%nat && (n <=? 90)%nat)
  || ((97 <=? n)%nat && (n <=? 122)%nat) || (n =? 95)%nat.

(** [re.sub("\W", "", s)] *)
Fixpoint sub_nonword (s : string) : string :=
  match s with
  | EmptyString => EmptyString
  | String c r => if isword c then String c (sub_nonword r) else sub_nonword r
  end.

End PyRe.

(** [t[a:b]] for [0 <= a <= b]: shorter when [t] ends before [b]. *)
Definition slice (a b : nat) (t : string) : string := String.substring a (b - a) t.

(** The body of [parse_timestamp2], on the dictionary [result] names. *)
Definition parse_timestamp2_on (timestamp : string) (result : Dict) : Dict :=
  if negb (String.eqb timestamp "") then
    let t := PyRe.sub_nonword timestamp in
    let result := dict_set "TIMESTAMP" (slice 0 12 t) result in
    let result := dict_set "YEAR" (slice 0 4 t) result in
    let result := dict_set "MONTH" (slice 4 6 t) result in
    let result := dict_set "DAY" (slice 6 8 t) result in
    let result := dict_set "HOUR" (slice 8 10 t) result in
    let result := dict_set "MINUTE" (slice 10 12 t) result in
    result
  else result.

(** [parse_timestamp2(timestamp, result = {})]. The default value of
    [result] is one dictionary, made when the function is defined and used by
    every call that passes no [result]: it is the state here. A call returns
    the dictionary it was working on and leaves the default as it then is. *)
Definition parse_timestamp2 (timestamp : string) (result : option Dict)
    (default : Dict) : Dict * Dict :=
  match result with
  | Some given => (parse_timestamp2_on timestamp given, default)
  | None =>
      let shared := parse_timestamp2_on timestamp default in (shared, shared)
  end.

(** *** The command line (lines 703-716) *)

(** The options the request is assembled from. *)
Record Options := {
  opt_INPUTS : bool;
  opt_REQUEST : string;
  opt_DELETE : bool;
  opt_MAKE : bool
}.

(** An element of the list [request]: a string, or the list that
    [request.append(options.REQUEST.split(','))] appends as one element. *)
Inductive PyItem :=
| ItemStr (s : string)
| ItemList (l : list string).

(** Lines 703-716. *)
Definition main_request (options : Options) : list PyItem :=
  let request := [] in
  let request := if opt_INPUTS options then (request ++ [ItemStr "INPUTS"])%list
                 else request in
  let request := if negb (String.eqb (opt_REQUEST options) "")
                 then (request ++ [ItemList (PyStr.split "," (opt_REQUEST options))])%list
                 else request in
  let request := if opt_DELETE options then (request ++ [ItemStr "DELETE"])%list
                 else request in
  let request := if opt_MAKE options || match request with [] => true | _ => false end
                 then (request ++ [ItemStr "MAKE"])%list
                 else request in
  request.

(** ['X' in request]: a string is equal to no list. *)
Definition item_in (x : string) (request : list PyItem) : bool :=
  existsb (fun item => match item with
                       | ItemStr s => String.eqb x s
                       | ItemList _ => false
                       end) request.

(** ** A second installation

    The scripts of [Demo] and a few more; [no_links] is the same host on a
    file system that refuses symbolic links. *)

Module Demo2.

Definition scripts (c : Cmd) (f : FS) : Exit * FS :=
  let line := cmd_line c in
  if String.eqb line "/srv/products/test/mute/input.sh" then
    (Demo.exits 0 "", f)
  else if String.eqb line "/srv/products/test/loop/input.sh" then
    (Demo.exits 0 ("me=test.loop" ++ Demo.nl), f)
  else if String.eqb line "/srv/products/test/loop/generate.sh" then
    (Demo.exits 0 "", <[Demo.out_file c := default "" (cmd_env c !! "me")]> f)
  else if String.eqb line "/srv/products/test/liar/generate.sh" then
    (Demo.exits 1 ("200 all good" ++ Demo.nl), f)
  else if String.eqb line "/srv/products/test/raw/generate.sh" then
    (Demo.exits 0 (String "255" ""), <[Demo.out_file c := "data"]> f)
  else if String.eqb line "/srv/products/test/stop/input.sh" then
    (Demo.exits 0 ("a=test.gen" ++ Demo.nl ++ "b=test.dep" ++ Demo.nl), f)
  else if String.eqb line "/srv/products/test/stop/generate.sh" then
    (Demo.exits 0 "", <[Demo.out_file c := default "" (cmd_env c !! "INPUTKEYS")]> f)
  else Demo.scripts c f.

Definition host : Host :=
  {| shell := scripts;
     HTTPStatus_member := HTTPStatus_member Demo.host;
     ProductInfo_parse := Demo.info;
     read_conf_text := Demo.conf_lines;
     symlink := symlink Demo.host;
     parse_timestamp := parse_timestamp Demo.host;
     cwd := "/srv" |}.

Definition no_links : Host :=
  {| shell := scripts;
     HTTPStatus_member := HTTPStatus_member Demo.host;
     ProductInfo_parse := Demo.info;
     read_conf_text := Demo.conf_lines;
     symlink := fun link target overwrite f => (f, false);
     parse_timestamp := parse_timestamp Demo.host;
     cwd := "/srv" |}.

Definition installed : FS :=
  Eval vm_compute in
    <["/srv/products/test/mute/input.sh" := "#!/bin/sh"]>
      (<["/srv/products/test/mute/generate.sh" := "#!/bin/sh"]>
         (<["/srv/products/test/loop/input.sh" := "#!/bin/sh"]>
            (<["/srv/products/test/loop/generate.sh" := "#!/bin/sh"]>
               (<["/srv/products/test/liar/generate.sh" := "#!/bin/sh"]>
                  (<["/srv/products/test/raw/generate.sh" := "#!/bin/sh"]>
                  (<["/srv/products/test/stop/input.sh" := "#!/bin/sh"]>
                     (<["/srv/products/test/stop/generate.sh" := "#!/bin/sh"]>
                        Demo.installed))))))).

(** The request [ProductRequest_init] builds for [id] in a fresh
    interpreter, with directives. *)
Definition request (id : string) (actions directives : list string)
    : ProductRequest.t :=
  match ProductRequest_init host Demo.server (Demo.info id) actions directives
          (Demo.start ∅) with
  | (Returned r, _) => r
  | (Raised _, _) => Demo.gen_request
  end.

(** What [get_input_list] returns for [id], a fresh listing if it raises. *)
Definition listed_info (h : Host) (id : string) (s : State) : InputInfo.t :=
  match get_input_list h Demo.server (Demo.info id) [] s with
  | (Returned input_info, _) => input_info
  | (Raised _, _) => InputInfo_new h Demo.server (Demo.info id)
  end.

Definition listed_state (h : Host) (id : string) (s : State) : State :=
  snd (get_input_list h Demo.server (Demo.info id) [] s).

Definition mix_inputs_request : ProductRequest.t :=
  Eval vm_compute in Demo.request "test.mix" ["INPUTS"].

Definition mix_info : InputInfo.t :=
  Eval vm_compute in listed_info Demo.host "test.mix" (Demo.start Demo.installed).

Definition mix_listed : State :=
  Eval vm_compute in listed_state Demo.host "test.mix" (Demo.start Demo.installed).

Definition gone_artifact : string := "/srv/cache/test/gone/test.gone.txt".

Definition gone_inputs_request : ProductRequest.t :=
  Eval vm_compute in Demo.request "test.gone" ["INPUTS"].

(** The cache holds an artifact of [test.gone]. *)
Definition gone_state : State :=
  Eval vm_compute in Demo.start (<[gone_artifact := "old"]> Demo.installed).

Definition gone_info : InputInfo.t :=
  Eval vm_compute in listed_info Demo.host "test.gone" gone_state.

Definition gone_listed : State :=
  Eval vm_compute in listed_state Demo.host "test.gone" gone_state.

(** A MAKE request for [test.gen] with every directive. *)
Definition linked_request : ProductRequest.t :=
  Eval vm_compute in request "test.gen" ["MAKE"] ["LINK"; "LATEST"; "LOG"].

(** The environment of its generator, the store with its placeholder and
    the store its generator leaves. *)
Definition gen_env : Env :=
  Eval vm_compute in
    <["INPUTKEYS" := ""]>
      (<["OUTFILE" := "test.gen.txt"]> (<["OUTDIR" := "/srv/cache/test/gen/tmp"]> ∅)).

Definition gen_placed : State :=
  Eval vm_compute in Demo.start (<[Demo.gen_artifact := ""]> installed).

Definition gen_written : FS :=
  Eval vm_compute in
    snd (scripts (generator_cmd linked_request gen_env) (fs gen_placed)).

Definition gen_published : FS :=
  Eval vm_compute in
    <[Demo.gen_artifact := "hello"]> (delete "/srv/cache/test/gen/tmp/test.gen.txt" gen_written).


(** A MAKE request for [test.raw], whose generator writes its file and the
    single byte 0xff to its output. *)
Definition raw_request : ProductRequest.t :=
  Eval vm_compute in request "test.raw" ["MAKE"] [].

Definition raw_artifact : string := "/srv/cache/test/raw/test.raw.txt".

Definition raw_env : Env :=
  Eval vm_compute in
    <["INPUTKEYS" := ""]>
      (<["OUTFILE" := "test.raw.txt"]> (<["OUTDIR" := "/srv/cache/test/raw/tmp"]> ∅)).

Definition raw_placed : State :=
  Eval vm_compute in Demo.start (<[raw_artifact := ""]> installed).

Definition raw_written : FS :=
  Eval vm_compute in
    snd (scripts (generator_cmd raw_request raw_env) (fs raw_placed)).

(** The INPUTS request for [test.mix], handled. *)
Definition mix_done : Outcome ProductRequest.t * State :=
  Eval vm_compute in
    handle_request Demo.host Demo.server 100 mix_inputs_request
      (Demo.start Demo.installed).

Definition loop_artifact : string := "/srv/cache/test/loop/test.loop.txt".

(** [test.loop] is being made: its placeholder is in the cache. *)
Definition loop_placed : State :=
  Eval vm_compute in Demo.start (<[loop_artifact := ""]> installed).

End Demo2.

(** ** Vocabulary of the properties *)

(** The state once the file at [path] is deleted. *)
Definition without_file (path : string) (s : State) : State :=
  {| fs := delete path (fs s); counter := counter s; trace := trace s |}.

(** Two request objects that differ in their outcome fields only. *)
Definition same_setup (a b : ProductRequest.t) : Prop :=
  ProductRequest.actions a = ProductRequest.actions b /\
  ProductRequest.directives a = ProductRequest.directives b /\
  ProductRequest.generator_path a = ProductRequest.generator_path b /\
  ProductRequest.path_tmp a = ProductRequest.path_tmp b /\
  ProductRequest.product_info a = ProductRequest.product_info b.

(** A computation that preserves [P], however it ends. *)
Definition preserves {A} (P : State -> Prop) (m : M A) : Prop :=
  forall s o s', P s -> m s = (o, s') -> P s'.

(** The state with another store. *)
Definition with_fs (f : FS) (s : State) : State :=
  {| fs := f; counter := counter s; trace := trace s |}.

(** The state with one more event. *)
Definition with_event (e : Event) (s : State) : State :=
  {| fs := fs s; counter := counter s; trace := trace s ++ [e] |}.

(** The [sid]s handed out so far. *)
Definition sids (events : list Event) : list Z :=
  flat_map (fun e => match e with EvRequest sid => [sid] | EvPopen _ => [] end) events.

(** The counter is [c] and every request built so far got [c] as its [sid]. *)
Definition counter_stuck (c : Z) (s : State) : Prop :=
  counter s = c /\ Forall (fun sid => sid = c) (sids (trace s)).

(** The requests for the listed inputs, made one after the other in the
    order of the listing, each from the state its predecessor left and each
    returning: [outs] pairs every name with the [path] of the request made
    for it, [None] when that was cleared. *)
Inductive made_in_order (host : Host)
    (mk : ProductInfo -> list string -> list string -> M ProductRequest.t)
  : Dict -> State -> list (string * option string) -> State -> Prop :=
| made_none (s : State) : made_in_order host mk [] s [] s
| made_next (i input : string) (rest : Dict) (s s1 s2 : State)
    (r : ProductRequest.t) (outs : list (string * option string)) :
    mk (ProductInfo_parse host input) ["MAKE"] [] s = (Returned r, s1) ->
    made_in_order host mk rest s1 outs s2 ->
    made_in_order host mk ((i, input) :: rest) s
      ((i, ProductRequest.path r) :: outs) s2.

(** The names that came back with a path, with that path, in order. *)
Definition resolved_inputs (outs : list (string * option string)) : Dict :=
  flat_map (fun out => match snd out with
                       | Some p => [(fst out, p)]
                       | None => []
                       end) outs.

(** What [communicate()] handed back decodes. *)
Definition decodes (p : Popen) : Prop :=
  Utf8.valid (p_stdout p) = true /\
  match p_stderr p with
  | Some b => Utf8.valid b = true
  | None => True
  end.

(** The command lines of the processes started, oldest first. *)
Definition started (events : list Event) : list string :=
  flat_map (fun e => match e with
                     | EvPopen c => [cmd_line c]
                     | EvRequest _ => []
                     end) events.

(** No [/] in [s]: a single path component. *)
Fixpoint slash_free (s : string) : bool :=
  match s with
  | EmptyString => true
  | String c r => negb (Ascii.eqb c "/") && slash_free r
  end.

(** The path [__init__] gives the artifact of a descriptor. *)
Definition final_path (host : Host) (self : ProductServer) (product_info : ProductInfo)
    : string :=
  Path.join [Path.absolute (cwd host) (CACHE_ROOT self);
             get_time_dir host product_info;
             get_product_dir product_info;
             filename product_info].

(** The [Popen] call of [get_input_list]. *)
Definition listing_cmd (host : Host) (self : ProductServer) (product_info : ProductInfo)
    : Cmd :=
  {| cmd_line := InputInfo.script (InputInfo_new host self product_info);
     cmd_cwd := Path.parent (InputInfo.script (InputInfo_new host self product_info));
     cmd_env := get_param_env product_info;
     cmd_stderr := server_stderr self |}.

(** The environment a MAKE request without inputs hands to its generator. *)
Definition bare_env (pr : ProductRequest.t) (path : string) : Env :=
  <["INPUTKEYS" := ""]>
    (<["OUTFILE" := Path.name path]>
       (<["OUTDIR" := Path.parent (ProductRequest.path_tmp pr)]>
          (get_param_env (ProductRequest.product_info pr)))).

(** The store once the temporary file has replaced the file at [path]. *)
Definition published (path tmp text : string) (f : FS) : FS :=
  <[path := text]> (delete tmp f).

(** The request as a generator that exited with 0 leaves it, before the
    handler sets the status. *)
Definition generated (host : Host) (pr : ProductRequest.t) (params : Env) (e : Exit)
    : ProductRequest.t :=
  ProductRequest.with_stderr PyNone
    (ProductRequest.with_stdout
       (if negb (String.eqb (exit_out e) "") then PyStr (exit_out e)
        else PyBytes (exit_out e))
       (ProductRequest.with_returncode 0 pr)).

(** * Properties *)

(** ** Python text *)

Example int_409 : PyStr.int "409" = Some 409. Proof. reflexivity. Qed.
Example int_plus : PyStr.int "+4_09" = Some 409. Proof. reflexivity. Qed.
Example int_bad : PyStr.int "409:" = None. Proof. reflexivity. Qed.
Example int_empty : PyStr.int "" = None. Proof. reflexivity. Qed.
Example last_line_ex :
  PyStr.last_line ("working" ++ String "010" "409 bad input" ++ String "010" "")
  = "409 bad input".
Proof. reflexivity. Qed.
Example first_token_ex : PyStr.first_token "409 bad input" = "409".
Proof. reflexivity. Qed.

(** ** How computations run *)

(** Closes an equation between closed terms by evaluating both sides. *)
Ltac vm_refl :=
  match goal with
  | |- ?a = ?b => vm_cast_no_check (@eq_refl _ b)
  end.

Lemma bind_returned {A B} (m : M A) (k : A -> M B) (s s' : State) (a : A) :
  m s = (Returned a, s') -> bind m k s = k a s'.
Proof. intros Hm. unfold bind. rewrite Hm. reflexivity. Qed.

Lemma Path_exists_run (p : string) (s : State) :
  Path_exists p s = (Returned (bool_decide (is_Some (fs s !! p))), s).
Proof. reflexivity. Qed.

Lemma Path_exists_some (p text : string) (s : State) :
  fs s !! p = Some text -> Path_exists p s = (Returned true, s).
Proof.
  intros Hp. rewrite Path_exists_run, Hp.
  rewrite bool_decide_eq_true_2; [reflexivity | eauto].
Qed.

Lemma Path_st_size_some (p text : string) (s : State) :
  fs s !! p = Some text ->
  Path_st_size p s = (Returned (Z.of_nat (String.length text)), s).
Proof. intros Hp. unfold Path_st_size, bind, get_fs. rewrite Hp. reflexivity. Qed.

Lemma size_positive (text : string) :
  text <> "" -> (0 <? Z.of_nat (String.length text)) = true.
Proof.
  intros Hne. apply Z.ltb_lt.
  destruct text as [| c r]; [congruence | simpl; lia].
Qed.

Lemma handle_request_unfold (host : Host) (self : ProductServer) (fuel : nat)
    (pr : ProductRequest.t) :
  handle_request host self fuel pr
  = handle_request_body host self (make_input_request host self fuel) pr.
Proof. destruct fuel; reflexivity. Qed.

(** ** The cache *)

(** A request with MAKE and without DELETE that finds a file at its path
    stops at the cache. *)
Lemma check_cache_found (pr : ProductRequest.t) (s : State) (path text : string) :
  ProductRequest.path pr = Some path ->
  fs s !! path = Some text ->
  has "MAKE" (ProductRequest.actions pr) = true ->
  has "DELETE" (ProductRequest.actions pr) = false ->
  check_cache pr s =
    (Returned (Return
       (if 0 <? Z.of_nat (String.length text)
        then ProductRequest.set_status HTTPStatus.OK
               (ProductRequest.with_product (ProductPath path) pr)
        else ProductRequest.set_status HTTPStatus.ACCEPTED
               (ProductRequest.with_product ProductEmpty pr))), s).
Proof.
  intros Hpath Hfile Hmake Hdelete.
  unfold check_cache. rewrite Hpath.
  rewrite (bind_returned _ _ _ _ _ (Path_exists_some _ _ _ Hfile)).
  rewrite Hdelete, Hmake.
  rewrite (bind_returned _ _ _ _ _ (Path_st_size_some _ _ _ Hfile)).
  destruct (0 <? Z.of_nat (String.length text)); reflexivity.
Qed.

Lemma handle_request_stops_at_cache (host : Host) (self : ProductServer)
    (fuel : nat) (pr r : ProductRequest.t) (s s' : State) :
  check_cache pr s = (Returned (Return r), s') ->
  handle_request host self fuel pr s = (Returned r, s').
Proof.
  intros Hc. rewrite handle_request_unfold.
  unfold handle_request_body, resolve, listed, and_then, bind.
  rewrite Hc. reflexivity.
Qed.

(** C1. Cache hit: a MAKE request whose artifact exists and is not empty
    returns at once with the artifact as its product and status OK; the
    state it leaves is the state it found, so no process was started and
    no file touched; made twice in a row, it returns the same both times. *)
Theorem cache_hit_idempotent (host : Host) (self : ProductServer) (fuel : nat)
    (pr : ProductRequest.t) (s : State) (path text : string) :
  ProductRequest.path pr = Some path ->
  fs s !! path = Some text ->
  text <> "" ->
  has "MAKE" (ProductRequest.actions pr) = true ->
  has "DELETE" (ProductRequest.actions pr) = false ->
  exists r,
    handle_request host self fuel pr s = (Returned r, s) /\
    ProductRequest.product r = ProductPath path /\
    ProductRequest.path r = Some path /\
    ProductRequest.status r = HTTPStatus.OK /\
    (let! first := handle_request host self fuel pr in
     let! second := handle_request host self fuel pr in
     ret (first, second)) s = (Returned (r, r), s) /\
    handle_request host self fuel r s = (Returned r, s).
Proof.
  intros Hpath Hfile Hne Hmake Hdelete.
  pose proof (check_cache_found pr s path text Hpath Hfile Hmake Hdelete) as Hc.
  rewrite (size_positive _ Hne) in Hc.
  apply (handle_request_stops_at_cache host self fuel) in Hc.
  eexists. split; [exact Hc |].
  split; [reflexivity |]. split; [exact Hpath |]. split; [reflexivity |].
  split.
  - rewrite (bind_returned _ _ _ _ _ Hc).
    rewrite (bind_returned _ _ _ _ _ Hc). reflexivity.
  - set (r := ProductRequest.set_status _ _).
    assert (Hr : check_cache r s = (Returned (Return r), s)).
    { rewrite (check_cache_found r s path text); auto.
      rewrite (size_positive _ Hne). reflexivity. }
    apply (handle_request_stops_at_cache host self fuel) in Hr. exact Hr.
Qed.

Lemma cache_hit_idempotent_witness :
  exists r,
    handle_request Demo.host Demo.server 100 Demo.gen_request Demo.stale_state
    = (Returned r, Demo.stale_state) /\
    ProductRequest.product r = ProductPath Demo.gen_artifact /\
    ProductRequest.status r = 200.
Proof.
  destruct (cache_hit_idempotent Demo.host Demo.server 100 Demo.gen_request
              Demo.stale_state Demo.gen_artifact "stale")
    as [r [Hrun [Hproduct [_ [Hstatus _]]]]];
    [reflexivity | vm_compute; reflexivity | discriminate
    | reflexivity | reflexivity |].
  exists r. auto.
Defined.

(** C2. Busy: a MAKE request whose path holds an empty file returns at once
    with an empty product and status Accepted (202); the state is left as
    found, the placeholder still there and still empty. *)
Theorem busy_leaves_placeholder (host : Host) (self : ProductServer) (fuel : nat)
    (pr : ProductRequest.t) (s : State) (path : string) :
  ProductRequest.path pr = Some path ->
  fs s !! path = Some "" ->
  has "MAKE" (ProductRequest.actions pr) = true ->
  has "DELETE" (ProductRequest.actions pr) = false ->
  exists r s',
    handle_request host self fuel pr s = (Returned r, s') /\
    ProductRequest.product r = ProductEmpty /\
    ProductRequest.status r = 202 /\
    fs s' !! path = Some "" /\
    s' = s.
Proof.
  intros Hpath Hfile Hmake Hdelete.
  pose proof (check_cache_found pr s path "" Hpath Hfile Hmake Hdelete) as Hc.
  simpl in Hc.
  apply (handle_request_stops_at_cache host self fuel) in Hc.
  do 2 eexists. split; [exact Hc |]. repeat split; auto.
Qed.

Lemma busy_leaves_placeholder_witness :
  exists r s',
    handle_request Demo.host Demo.server 100 Demo.gen_request Demo.busy_state
    = (Returned r, s') /\
    ProductRequest.product r = ProductEmpty /\
    ProductRequest.status r = 202 /\
    fs s' !! Demo.gen_artifact = Some "".
Proof.
  destruct (busy_leaves_placeholder Demo.host Demo.server 100 Demo.gen_request
              Demo.busy_state Demo.gen_artifact)
    as [r [s' [Hrun [Hproduct [Hstatus [Hfile _]]]]]];
    [reflexivity | vm_compute; reflexivity | reflexivity | reflexivity |].
  exists r, s'. auto.
Defined.

(** ** DELETE *)

Lemma Path_unlink_some (p text : string) (s : State) :
  fs s !! p = Some text -> Path_unlink p s = (Returned tt, without_file p s).
Proof. intros Hp. unfold Path_unlink, bind, get_fs. rewrite Hp. reflexivity. Qed.

Lemma check_cache_delete (pr : ProductRequest.t) (s : State) (path text : string) :
  ProductRequest.path pr = Some path ->
  fs s !! path = Some text ->
  has "DELETE" (ProductRequest.actions pr) = true ->
  check_cache pr s
  = (Returned (Next (ProductRequest.set_status HTTPStatus.ACCEPTED pr, path)),
     without_file path s).
Proof.
  intros Hpath Hfile Hdelete.
  unfold check_cache. rewrite Hpath.
  rewrite (bind_returned _ _ _ _ _ (Path_exists_some _ _ _ Hfile)).
  rewrite Hdelete.
  rewrite (bind_returned _ _ _ _ _ (Path_unlink_some _ _ _ Hfile)).
  reflexivity.
Qed.

(** What DELETE together with MAKE does to an artifact in the cache whose
    generator works: the file is deleted, made again, and the status is OK. *)
Lemma delete_with_make_regenerates :
  let artifact := "/srv/cache/test/gen/test.gen.txt" in
  let f := <[artifact := "stale"]> Demo.installed in
  match Demo.run "test.gen" ["DELETE"; "MAKE"] f with
  | (Returned r, s') =>
      has "DELETE" (ProductRequest.actions r) = true /\
      f !! artifact = Some "stale" /\
      ProductRequest.status r = HTTPStatus.OK /\
      ProductRequest.status r <> HTTPStatus.ACCEPTED /\
      fs s' !! artifact = Some "hello"
  | (Raised _, _) => False
  end.
Proof. vm_compute. repeat split; congruence. Qed.

(** DELETE alone on an artifact whose product type has no generator: the
    file is deleted, and the status is Not Implemented. *)
Lemma delete_without_generator :
  let artifact := "/srv/cache/test/none/test.none.txt" in
  let f := <[artifact := "copied"]> Demo.installed in
  match Demo.run "test.none" ["DELETE"] f with
  | (Returned r, s') =>
      ProductRequest.status r = HTTPStatus.NOT_IMPLEMENTED /\
      ProductRequest.path r = None /\
      fs s' !! artifact = None
  | (Raised _, _) => False
  end.
Proof. vm_compute. repeat split. Qed.

(** C3, amended. A request with DELETE that finds a file at its path deletes
    it and sets status Accepted (202), then goes on with the check for the
    generator instead of returning; with neither MAKE nor INPUTS among its
    actions and a generator script in place, it returns with status
    Accepted, the file deleted and nothing else changed. *)
Theorem delete_then_continue (host : Host) (self : ProductServer) (fuel : nat)
    (pr : ProductRequest.t) (s : State) (path text : string) :
  ProductRequest.path pr = Some path ->
  fs s !! path = Some text ->
  has "DELETE" (ProductRequest.actions pr) = true ->
  check_cache pr s
  = (Returned (Next (ProductRequest.set_status HTTPStatus.ACCEPTED pr, path)),
     without_file path s) /\
  (has "MAKE" (ProductRequest.actions pr) = false ->
   has "INPUTS" (ProductRequest.actions pr) = false ->
   is_Some (fs (without_file path s) !! ProductRequest.generator_path pr) ->
   handle_request host self fuel pr s
   = (Returned (ProductRequest.set_status HTTPStatus.ACCEPTED pr),
      without_file path s) /\
   fs (without_file path s) !! path = None).
Proof.
  intros Hpath Hfile Hdelete.
  pose proof (check_cache_delete pr s path text Hpath Hfile Hdelete) as Hc.
  split; [exact Hc |].
  intros Hmake Hinputs [script Hgen]. split.
  - rewrite handle_request_unfold.
    unfold handle_request_body, resolve, listed, and_then, bind.
    rewrite Hc. cbn [fst snd].
    unfold check_generator, bind. cbn [ProductRequest.generator_path ProductRequest.set_status].
    rewrite (Path_exists_some _ _ _ Hgen).
    unfold prepare, list_inputs, retrieve, generate, ret.
    cbn [ProductRequest.actions ProductRequest.set_status fst snd].
    rewrite Hmake, Hinputs. cbv beta iota delta [fst snd orb].
    cbn [ProductRequest.actions ProductRequest.set_status].
    rewrite Hmake. cbv beta iota delta [fst snd].
    cbn [ProductRequest.actions ProductRequest.set_status].
    rewrite Hmake. reflexivity.
  - cbn. apply lookup_delete_eq.
Qed.

Lemma delete_then_continue_witness :
  exists r s',
    handle_request Demo.host Demo.server 100 Demo.delete_request Demo.stale_state
    = (Returned r, s') /\
    ProductRequest.status r = HTTPStatus.ACCEPTED /\
    fs s' !! Demo.gen_artifact = None.
Proof.
  destruct (delete_then_continue Demo.host Demo.server 100
              Demo.delete_request Demo.stale_state Demo.gen_artifact "stale")
    as [_ H]; [reflexivity | vm_compute; reflexivity | reflexivity |].
  destruct H as [Hrun Hgone]; [reflexivity | reflexivity | vm_compute; eauto |].
  do 2 eexists. split; [exact Hrun |]. split; [reflexivity | exact Hgone].
Defined.

(** ** Child processes *)

Lemma subprocess_Popen_run (host : Host) (c : Cmd) (s : State) (e : Exit) (f : FS) :
  shell host c (fs s) = (e, f) ->
  subprocess_Popen host c s = (Returned (finished c e), after_child c f s).
Proof.
  intros Hsh. unfold subprocess_Popen, bind, emit, get_fs. cbn [fs].
  rewrite Hsh. reflexivity.
Qed.

(** ASCII text is well-formed UTF-8. *)
Lemma is_ascii_valid (b : string) : Utf8.is_ascii b = true -> Utf8.valid b = true.
Proof.
  induction b as [| c b IH]; [reflexivity |].
  cbn [Utf8.is_ascii]. intros H. apply andb_true_iff in H as [Hc Hb].
  cbn [Utf8.valid]. unfold Utf8.between.
  apply Nat.ltb_lt in Hc.
  assert (H0 : (0 <=? nat_of_ascii c)%nat = true) by (apply Nat.leb_le; lia).
  assert (H1 : (nat_of_ascii c <=? 127)%nat = true) by (apply Nat.leb_le; lia).
  rewrite H0, H1. cbn [andb]. apply IH. exact Hb.
Qed.

Lemma decode_valid (b : string) (s : State) :
  Utf8.valid b = true -> decode b s = (Returned b, s).
Proof. intros Hb. unfold decode. rewrite Hb. reflexivity. Qed.

Lemma decode_invalid (b : string) (s : State) :
  Utf8.valid b = false -> decode b s = (Raised UnicodeDecodeError, s).
Proof. intros Hb. unfold decode. rewrite Hb. reflexivity. Qed.

Lemma decode_if_any_valid (captured : option string) (s : State) :
  match captured with
  | Some b => Utf8.valid b = true
  | None => True
  end ->
  decode_if_any captured s
  = (Returned match captured with
              | Some b => if negb (String.eqb b "") then PyStr b else PyBytes b
              | None => PyNone
              end, s).
Proof.
  destruct captured as [b |]; [| reflexivity]. intros Hb.
  unfold decode_if_any. destruct (negb (String.eqb b "")); [| reflexivity].
  rewrite (bind_returned _ _ _ _ _ (decode_valid b s Hb)). reflexivity.
Qed.

(** The child of a generator: its standard error goes to its standard
    output, so there is one stream to decode. *)
Lemma generator_decodes (pr : ProductRequest.t) (params : Env) (e : Exit) :
  Utf8.valid (exit_out e) = true -> decodes (finished (generator_cmd pr params) e).
Proof. intros Hout. split; [exact Hout | exact I]. Qed.

(** [run_process] on a request whose child wrote text that decodes does
    not raise and leaves the state alone. *)
Lemma run_process_request (host : Host) (p : Popen) (pr : ProductRequest.t) :
  decodes p ->
  exists r,
    (forall s, run_process host (Some p) pr s = (Returned r, s)) /\
    ProductRequest.returncode r = p_returncode p /\
    ProductRequest.actions r = ProductRequest.actions pr /\
    ProductRequest.directives r = ProductRequest.directives pr /\
    ProductRequest.path_tmp r = ProductRequest.path_tmp pr /\
    ProductRequest.inputs r = ProductRequest.inputs pr /\
    ProductRequest.stdout r
    = (if String.eqb (p_stdout p) "" then PyBytes (p_stdout p) else PyStr (p_stdout p)) /\
    ProductRequest.stderr r
    = match p_stderr p with
      | Some b => if negb (String.eqb b "") then PyStr b else PyBytes b
      | None => PyNone
      end.
Proof.
  intros [Hout Herr].
  pose proof (fun s => decode_if_any_valid (p_stderr p) s Herr) as Hstderr.
  unfold run_process, decode, status_from_error_info, not_http_code, bind, ret.
  cbn [task_status task_set_status task_set_returncode task_set_error_info
       task_set_stdout task_set_stderr ProductRequest_Task].
  rewrite Hout.
  destruct (String.eqb (p_stdout p) ""); cbn [negb].
  - eexists. split; [intros s; rewrite Hstderr; reflexivity |]. repeat split.
  - destruct (p_returncode p =? 0); cbn [negb].
    + eexists. split; [intros s; rewrite Hstderr; reflexivity |]. repeat split.
    + destruct (PyStr.int _) as [n |]; [destruct (HTTPStatus_member host n) |];
        (eexists; split; [intros s; rewrite Hstderr; reflexivity |]; repeat split).
Qed.




(** ** Log files of a failed generation *)

Lemma append_inj_l (p a b : string) : p ++ a = p ++ b -> a = b.
Proof.
  induction p as [| c p IH]; cbn; [auto |].
  intros H. injection H as H. auto.
Qed.

Lemma length_append (p a : string) :
  String.length (p ++ a) = (String.length p + String.length a)%nat.
Proof.
  induction p as [| c p IH]; [reflexivity |].
  change (String c p ++ a) with (String c (p ++ a)).
  cbn [String.length Nat.add]. f_equal. exact IH.
Qed.


Lemma write_log_str (log_file text : string) (s : State) :
  text <> "" ->
  write_log_if_any log_file (PyStr text) s
  = (Returned tt, {| fs := <[log_file := text]> (fs s);
                     counter := counter s; trace := trace s |}).
Proof.
  intros Hne. unfold write_log_if_any, truthy.
  apply String.eqb_neq in Hne. rewrite Hne. reflexivity.
Qed.

Lemma write_log_nothing (log_file : string) (text : PyText) (s : State) :
  truthy text = false -> write_log_if_any log_file text s = (Returned tt, s).
Proof. intros Hf. unfold write_log_if_any. rewrite Hf. reflexivity. Qed.

(** What [run_generator] does when the generator fails, in full. *)
Lemma run_generator_failed (host : Host) (pr : ProductRequest.t) (path : string)
    (params : Env) (s : State) (e : Exit) (f2 : FS) :
  shell host (generator_cmd pr params) (fs s) = (e, f2) ->
  exit_code e <> 0 ->
  Utf8.valid (exit_out e) = true ->
  exists r,
    (forall s', run_process host (Some (finished (generator_cmd pr params) e)) pr s'
                = (Returned r, s')) /\
    ProductRequest.returncode r = exit_code e /\
    ProductRequest.stderr r = PyNone /\
    run_generator host pr path params s
    = (Returned (r, exit_code e),
       {| fs := if String.eqb (exit_out e) "" then f2
                else <[path ++ ".stdout.log" := exit_out e]> f2;
          counter := counter s;
          trace := trace s ++ [EvPopen (generator_cmd pr params)] |}).
Proof.
  intros Hsh Hcode Hvalid.
  destruct (run_process_request host (finished (generator_cmd pr params) e) pr
              (generator_decodes pr params e Hvalid))
    as [r [Hrun [Hrc [_ [_ [_ [_ [Hout Herr]]]]]]]].
  exists r. split; [exact Hrun |]. split; [exact Hrc |].
  cbn in Herr. cbn [finished p_stdout] in Hout. split; [exact Herr |].
  unfold run_generator.
  rewrite (bind_returned _ _ _ _ _ (subprocess_Popen_run _ _ _ _ _ Hsh)).
  rewrite (bind_returned _ _ _ _ _ (Hrun _)).
  cbn [finished p_returncode].
  apply Z.eqb_neq in Hcode. rewrite Hcode. cbn [negb].
  rewrite Hout, Herr. cbn [finished p_stdout].
  destruct (String.eqb (exit_out e) "") eqn:Hempty.
  - assert (Hfalse : truthy (PyBytes (exit_out e)) = false)
      by (cbn; rewrite Hempty; reflexivity).
    rewrite (bind_returned _ _ _ _ _ (write_log_nothing _ _ _ Hfalse)).
    rewrite (bind_returned _ _ _ _ _ (write_log_nothing _ PyNone _ eq_refl)).
    reflexivity.
  - apply String.eqb_neq in Hempty.
    rewrite (bind_returned _ _ _ _ _ (write_log_str _ _ _ Hempty)).
    rewrite (bind_returned _ _ _ _ _ (write_log_nothing _ PyNone _ eq_refl)).
    reflexivity.
Qed.

(** After the generator of [test.bad] has failed with [409 bad input] as
    its last line, there is a [.stdout.log] beside the artifact path and no
    [.stderr.log]. *)
Lemma no_stderr_log_after_failure :
  match Demo.run "test.bad" ["MAKE"] Demo.installed with
  | (Returned r, s') =>
      ProductRequest.returncode r = 1 /\
      ProductRequest.status r = 409 /\
      ProductRequest.path r = Some "/srv/cache/test/bad/test.bad.txt" /\
      is_Some (fs s' !! "/srv/cache/test/bad/test.bad.txt.stdout.log") /\
      fs s' !! "/srv/cache/test/bad/test.bad.txt.stderr.log" = None
  | (Raised _, _) => False
  end.
Proof. vm_compute. repeat split. eauto. Qed.

(** C8, amended. When the generator exits with a code other than zero, the
    engine writes what the generator wrote to its standard output (ASCII
    text), which has the standard error merged in, to <path>.stdout.log,
    provided it is not empty; it captures no standard error of its own and
    writes no <path>.stderr.log: that path holds what the generator process
    left there. *)
Theorem failed_generation_logs (host : Host) (pr : ProductRequest.t) (path : string)
    (params : Env) (s : State) (e : Exit) (f2 : FS) :
  shell host (generator_cmd pr params) (fs s) = (e, f2) ->
  exit_code e <> 0 ->
  Utf8.is_ascii (exit_out e) = true ->
  exists r s2,
    run_generator host pr path params s = (Returned (r, exit_code e), s2) /\
    ProductRequest.stderr r = PyNone /\
    fs s2 !! (path ++ ".stderr.log") = f2 !! (path ++ ".stderr.log") /\
    (exit_out e <> "" -> fs s2 !! (path ++ ".stdout.log") = Some (exit_out e)) /\
    (exit_out e = "" -> fs s2 = f2).
Proof.
  intros Hsh Hcode Hascii.
  destruct (run_generator_failed host pr path params s e f2 Hsh Hcode
              (is_ascii_valid _ Hascii))
    as [r [_ [_ [Herr Hrun]]]].
  do 2 eexists. split; [exact Hrun |]. split; [exact Herr |]. cbn [fs].
  destruct (String.eqb (exit_out e) "") eqn:Hempty.
  - apply String.eqb_eq in Hempty. repeat split; congruence.
  - apply String.eqb_neq in Hempty. split; [| split].
    + apply lookup_insert_ne. intros H. apply append_inj_l in H. discriminate.
    + intros _. apply lookup_insert_eq.
    + congruence.
Qed.

Lemma failed_generation_logs_witness :
  exists r s2,
    run_generator Demo.host Demo.bad_request Demo.bad_artifact ∅
      (Demo.start Demo.installed)
    = (Returned (r, 1), s2) /\
    fs s2 !! (Demo.bad_artifact ++ ".stderr.log") = None /\
    fs s2 !! (Demo.bad_artifact ++ ".stdout.log") = Some Demo.bad_output.
Proof.
  assert (Hsh : shell Demo.host (generator_cmd Demo.bad_request ∅)
                  (fs (Demo.start Demo.installed))
                = (Demo.exits 1 Demo.bad_output, Demo.installed))
    by vm_refl.
  destruct (failed_generation_logs Demo.host Demo.bad_request Demo.bad_artifact ∅
              (Demo.start Demo.installed) _ _ Hsh)
    as [r [s2 [Hrun [_ [Herr [Hout _]]]]]]; [discriminate | reflexivity |].
  exists r, s2. split; [exact Hrun |]. split.
  - rewrite Herr. vm_compute. reflexivity.
  - apply Hout. discriminate.
Defined.

(** ** What the blocks before the generation keep *)

Lemma bind_inv {A B} (m : M A) (k : A -> M B) (s s2 : State) (b : B) :
  bind m k s = (Returned b, s2) ->
  exists a s1, m s = (Returned a, s1) /\ k a s1 = (Returned b, s2).
Proof.
  unfold bind. destruct (m s) as [[a | e] s1]; [eauto | discriminate].
Qed.

Lemma and_then_inv {A B} (m : M (Flow A)) (k : A -> M (Flow B)) (s s2 : State) (b : B) :
  and_then m k s = (Returned (Next b), s2) ->
  exists a s1, m s = (Returned (Next a), s1) /\ k a s1 = (Returned (Next b), s2).
Proof.
  unfold and_then. intros H. apply bind_inv in H as [[pr | a] [s1 [Hm Hk]]].
  - discriminate.
  - eauto.
Qed.

Lemma same_setup_refl (a : ProductRequest.t) : same_setup a a.
Proof. repeat split. Qed.

Lemma same_setup_trans (a b c : ProductRequest.t) :
  same_setup a b -> same_setup b c -> same_setup a c.
Proof. unfold same_setup. intuition congruence. Qed.

Lemma check_cache_next (pr pr' : ProductRequest.t) (path : string) (s s' : State) :
  check_cache pr s = (Returned (Next (pr', path)), s') ->
  ProductRequest.path pr = Some path /\ same_setup pr pr'.
Proof.
  unfold check_cache. destruct (ProductRequest.path pr) as [p |]; [| discriminate].
  intros H. apply bind_inv in H as [found [s1 [_ H]]].
  destruct found.
  - destruct (has "DELETE" _).
    + apply bind_inv in H as [[] [s2 [_ H]]]. injection H as <- <- <-.
      split; [reflexivity | repeat split].
    + destruct (has "MAKE" _).
      * apply bind_inv in H as [size [s2 [_ H]]].
        destruct (0 <? size); discriminate.
      * injection H as <- <- <-. split; [reflexivity | apply same_setup_refl].
  - injection H as <- <- <-. split; [reflexivity | apply same_setup_refl].
Qed.

Lemma check_generator_next (pr pr' : ProductRequest.t) (s s' : State) :
  check_generator pr s = (Returned (Next pr'), s') -> pr' = pr /\ s' = s.
Proof.
  unfold check_generator. intros H.
  apply bind_inv in H as [found [s1 [Hex H]]].
  rewrite Path_exists_run in Hex. injection Hex as <- <-.
  destruct (bool_decide _); [| discriminate].
  injection H as <- <-. auto.
Qed.

Lemma list_inputs_next (host : Host) (self : ProductServer)
    (pr pr' : ProductRequest.t) (path : string) (s s' : State) :
  list_inputs host self pr path s = (Returned (Next pr'), s') -> same_setup pr pr'.
Proof.
  unfold list_inputs.
  destruct (has "MAKE" _ || has "INPUTS" _).
  - intros H. apply bind_inv in H as [input_info [s1 [_ H]]].
    destruct (InputInfo.returncode input_info =? 0).
    + injection H as <- <-. repeat split.
    + apply bind_inv in H as [[] [s2 [_ H]]]. discriminate.
  - intros H. injection H as <- <-. apply same_setup_refl.
Qed.


Lemma listed_next (host : Host) (self : ProductServer)
    (pr pr0 : ProductRequest.t) (path : string) (params : Env) (s s0 : State) :
  listed host self pr s = (Returned (Next (pr0, path, params)), s0) ->
  ProductRequest.path pr = Some path /\ same_setup pr pr0.
Proof.
  unfold listed. intros H.
  apply and_then_inv in H as [[pra path'] [s1 [Hcache H]]].
  apply check_cache_next in Hcache as [Hpath Hsame1]. cbn [fst snd] in H.
  apply and_then_inv in H as [prb [s2 [Hgen H]]].
  apply check_generator_next in Hgen as [-> ->].
  apply bind_inv in H as [params' [s3 [_ H]]].
  apply and_then_inv in H as [prc [s4 [Hlist H]]].
  apply list_inputs_next in Hlist.
  injection H as <- <- <- <-.
  split; [exact Hpath | eapply same_setup_trans; eassumption].
Qed.


Lemma handle_request_generates (host : Host) (self : ProductServer) (fuel : nat)
    (pr pr1 : ProductRequest.t) (path : string) (params : Env) (s s1 : State) :
  resolve host self (make_input_request host self fuel) pr s
  = (Returned (Next (pr1, path, params)), s1) ->
  handle_request host self fuel pr s = generate host pr1 path params s1.
Proof.
  intros Hres. rewrite handle_request_unfold. unfold handle_request_body.
  rewrite (bind_returned _ _ _ _ _ Hres). reflexivity.
Qed.

(** ** A generation that fails *)




(** ** Properties of the state that every step preserves *)

Create HintDb preserves.

Section Preserves.

(** [P] does not look at the store, survives the start of a child process
    and the construction of a request. *)
Variable P : State -> Prop.
Hypothesis P_fs : forall f s, P s -> P (with_fs f s).
Hypothesis P_popen : forall cmd s, P s -> P (with_event (EvPopen cmd) s).
Hypothesis P_request :
  forall s, P s -> P (with_event (EvRequest (unary_plus (unary_plus (counter s)))) s).

Lemma preserves_ret {A} (a : A) : preserves P (ret a).
Proof. intros s o s' Hs H. injection H as <- <-. exact Hs. Qed.

Lemma preserves_raise {A} (e : Exn) : preserves P (@raise A e).
Proof. intros s o s' Hs H. injection H as <- <-. exact Hs. Qed.

Lemma preserves_bind {A B} (m : M A) (k : A -> M B) :
  preserves P m -> (forall a, preserves P (k a)) -> preserves P (bind m k).
Proof.
  intros Hm Hk s o s' Hs H. unfold bind in H.
  destruct (m s) as [[a | e] s1] eqn:Hms.
  - eapply Hk; [eapply Hm; eassumption | eassumption].
  - injection H as <- <-. eapply Hm; eassumption.
Qed.

Lemma preserves_get_fs : preserves P get_fs.
Proof. intros s o s' Hs H. injection H as <- <-. exact Hs. Qed.

Lemma preserves_put_fs (f : FS) : preserves P (put_fs f).
Proof. intros s o s' Hs H. injection H as <- <-. apply (P_fs f s Hs). Qed.

Lemma preserves_get_counter : preserves P get_counter.
Proof. intros s o s' Hs H. injection H as <- <-. exact Hs. Qed.

Lemma preserves_emit_popen (cmd : Cmd) : preserves P (emit (EvPopen cmd)).
Proof. intros s o s' Hs H. injection H as <- <-. apply (P_popen cmd s Hs). Qed.

Hint Resolve preserves_ret preserves_raise preserves_get_fs preserves_put_fs
  preserves_get_counter preserves_emit_popen : preserves.

(** Takes a computation apart along its binds and branches. *)
Ltac preserves_auto :=
  repeat (intros;
          match goal with
          | |- preserves _ (bind _ _) => apply preserves_bind
          | |- preserves _ (and_then _ _) => unfold and_then
          | |- preserves _ (if ?b then _ else _) => destruct b
          | |- preserves _ (match ?x with _ => _ end) => destruct x
          | |- preserves _ _ => solve [eauto with preserves]
          end).

Lemma preserves_Path_exists (p : string) : preserves P (Path_exists p).
Proof. unfold Path_exists. preserves_auto. Qed.

Lemma preserves_Path_st_size (p : string) : preserves P (Path_st_size p).
Proof. unfold Path_st_size. preserves_auto. Qed.

Lemma preserves_Path_unlink (p : string) : preserves P (Path_unlink p).
Proof. unfold Path_unlink. preserves_auto. Qed.

Lemma preserves_Path_touch (p : string) : preserves P (Path_touch p).
Proof. unfold Path_touch. preserves_auto. Qed.

Lemma preserves_Path_write_text (p text : string) : preserves P (Path_write_text p text).
Proof. unfold Path_write_text. preserves_auto. Qed.

Lemma preserves_Path_replace (src dst : string) : preserves P (Path_replace src dst).
Proof. unfold Path_replace. preserves_auto. Qed.

Lemma preserves_ensure_output_dir (outdir : string) : preserves P (ensure_output_dir outdir).
Proof. unfold ensure_output_dir. preserves_auto. Qed.

Hint Resolve preserves_Path_exists preserves_Path_st_size preserves_Path_unlink
  preserves_Path_touch preserves_Path_write_text preserves_Path_replace
  preserves_ensure_output_dir : preserves.

Lemma preserves_decode (b : string) : preserves P (decode b).
Proof. unfold decode. preserves_auto. Qed.

Hint Resolve preserves_decode : preserves.

Lemma preserves_decode_if_any (captured : option string) :
  preserves P (decode_if_any captured).
Proof. unfold decode_if_any. preserves_auto. Qed.

Hint Resolve preserves_decode_if_any : preserves.

Variable host : Host.
Variable self : ProductServer.

Lemma preserves_subprocess_Popen (cmd : Cmd) : preserves P (subprocess_Popen host cmd).
Proof. unfold subprocess_Popen. preserves_auto. Qed.

Lemma preserves_run_process {T} `{Task T} (p : option Popen) (task : T) :
  preserves P (run_process host p task).
Proof.
  unfold run_process, status_from_error_info, not_http_code. preserves_auto.
Qed.

Hint Resolve preserves_subprocess_Popen preserves_run_process : preserves.

Lemma preserves_get_input_list (product_info : ProductInfo) (directives : list string) :
  preserves P (get_input_list host self product_info directives).
Proof. unfold get_input_list. preserves_auto. Qed.

Lemma preserves_write_log_if_any (log_file : string) (text : PyText) :
  preserves P (write_log_if_any log_file text).
Proof. unfold write_log_if_any. preserves_auto. Qed.

Hint Resolve preserves_get_input_list preserves_write_log_if_any : preserves.

Lemma preserves_run_generator (pr : ProductRequest.t) (path : string) (params : Env) :
  preserves P (run_generator host pr path params).
Proof. unfold run_generator. preserves_auto. Qed.

Lemma preserves_ProductRequest_init (product_info : ProductInfo)
    (actions directives : list string) :
  preserves P (ProductRequest_init host self product_info actions directives).
Proof.
  intros s o s' Hs H.
  unfold ProductRequest_init, bind, get_counter, emit, ret in H.
  cbv zeta in H. injection H as <- <-. apply (P_request s Hs).
Qed.

Lemma preserves_check_cache (pr : ProductRequest.t) : preserves P (check_cache pr).
Proof. unfold check_cache. preserves_auto. Qed.

Lemma preserves_check_generator (pr : ProductRequest.t) : preserves P (check_generator pr).
Proof. unfold check_generator. preserves_auto. Qed.

Lemma preserves_prepare (pr : ProductRequest.t) (path : string) : preserves P (prepare pr path).
Proof. unfold prepare. preserves_auto. Qed.

Lemma preserves_list_inputs (pr : ProductRequest.t) (path : string) :
  preserves P (list_inputs host self pr path).
Proof. unfold list_inputs. preserves_auto. Qed.

Lemma preserves_call_symlink (link target : string) (overwrite : option bool) :
  preserves P (call_symlink host link target overwrite).
Proof. unfold call_symlink. preserves_auto. Qed.

Hint Resolve preserves_run_generator preserves_ProductRequest_init
  preserves_check_cache preserves_check_generator preserves_prepare
  preserves_list_inputs preserves_call_symlink : preserves.

Lemma preserves_apply_links (pr : ProductRequest.t) (path : string) :
  preserves P (apply_links host pr path).
Proof. unfold apply_links. preserves_auto. Qed.

Lemma preserves_save_log (pr : ProductRequest.t) (path : string) :
  preserves P (save_log pr path).
Proof. unfold save_log. preserves_auto. Qed.

Hint Resolve preserves_apply_links preserves_save_log : preserves.

Lemma preserves_generate (pr : ProductRequest.t) (path : string) (params : Env) :
  preserves P (generate host pr path params).
Proof. unfold generate. preserves_auto. Qed.

Lemma preserves_listed (pr : ProductRequest.t) : preserves P (listed host self pr).
Proof. unfold listed. preserves_auto. Qed.

Hint Resolve preserves_generate preserves_listed : preserves.

Section WithInputs.

Variable mk : ProductInfo -> list string -> list string -> M ProductRequest.t.
Hypothesis preserves_mk :
  forall product_info actions directives,
    preserves P (mk product_info actions directives).

Lemma preserves_retrieve_inputs (items inputs : Dict) :
  preserves P (retrieve_inputs host mk items inputs).
Proof.
  revert inputs. induction items as [| [i input] rest IH]; intros inputs; cbn.
  - preserves_auto.
  - apply preserves_bind; [apply preserves_mk |]. intros r.
    destruct (ProductRequest.path r); apply IH.
Qed.

Hint Resolve preserves_retrieve_inputs : preserves.

Lemma preserves_retrieve (pr : ProductRequest.t) (params : Env) :
  preserves P (retrieve host mk pr params).
Proof. unfold retrieve. preserves_auto. Qed.

Hint Resolve preserves_retrieve : preserves.

Lemma preserves_resolve (pr : ProductRequest.t) : preserves P (resolve host self mk pr).
Proof. unfold resolve. preserves_auto. Qed.

Hint Resolve preserves_resolve : preserves.

Lemma preserves_handle_request_body (pr : ProductRequest.t) :
  preserves P (handle_request_body host self mk pr).
Proof. unfold handle_request_body. preserves_auto. Qed.

End WithInputs.

Lemma preserves_handle_request (fuel : nat) :
  forall pr, preserves P (handle_request host self fuel pr).
Proof.
  induction fuel as [| fuel IH]; intros pr; rewrite handle_request_unfold;
    apply preserves_handle_request_body; intros product_info actions directives; cbn.
  - apply preserves_raise.
  - unfold make_request.
    apply preserves_bind; [apply preserves_ProductRequest_init | exact IH].
Qed.

Lemma preserves_make_request (fuel : nat) (product_info : ProductInfo)
    (actions directives : list string) :
  preserves P (make_request host self fuel product_info actions directives).
Proof.
  unfold make_request.
  apply preserves_bind; [apply preserves_ProductRequest_init | apply preserves_handle_request].
Qed.

Lemma preserves_construct_all (todo : list (ProductInfo * list string * list string)) :
  preserves P (construct_all host self todo).
Proof.
  induction todo as [| [[product_info actions] directives] rest IH]; cbn.
  - apply preserves_ret.
  - apply preserves_bind; [apply preserves_ProductRequest_init |]. intros r.
    apply preserves_bind; [exact IH |]. intros rs. apply preserves_ret.
Qed.

End Preserves.

(** What comes after [m] preserves what [m] establishes. *)
Lemma bind_establishes {A B} (P : State -> Prop) (m : M A) (k : A -> M B) :
  (forall s o s', m s = (o, s') -> P s') ->
  (forall a, preserves P (k a)) ->
  forall s o s', bind m k s = (o, s') -> P s'.
Proof.
  intros Hm Hk s o s' H. unfold bind in H.
  destruct (m s) as [[a | e] s1] eqn:Hms.
  - eapply Hk; [eapply Hm; eassumption | eassumption].
  - injection H as <- <-. eapply Hm; eassumption.
Qed.

(** ** The request counter *)

Lemma sids_app (a b : list Event) : sids (a ++ b)%list = (sids a ++ sids b)%list.
Proof. unfold sids. apply flat_map_app. Qed.

Lemma counter_stuck_fs (c : Z) (f : FS) (s : State) :
  counter_stuck c s -> counter_stuck c (with_fs f s).
Proof. intros H. exact H. Qed.

Lemma counter_stuck_popen (c : Z) (cmd : Cmd) (s : State) :
  counter_stuck c s -> counter_stuck c (with_event (EvPopen cmd) s).
Proof.
  intros [Hc Hsids]. split; [exact Hc |].
  cbn [trace with_event]. rewrite sids_app. cbn. rewrite app_nil_r. exact Hsids.
Qed.

Lemma counter_stuck_request (c : Z) (s : State) :
  counter_stuck c s ->
  counter_stuck c (with_event (EvRequest (unary_plus (unary_plus (counter s)))) s).
Proof.
  intros [Hc Hsids]. split; [exact Hc |].
  cbn [trace with_event]. rewrite sids_app. apply Forall_app. split; [exact Hsids |].
  cbn. constructor; [exact Hc | constructor].
Qed.

(** [__init__] hands out the counter as it is and leaves it as it is. *)
Lemma ProductRequest_init_run (host : Host) (self : ProductServer)
    (product_info : ProductInfo) (actions directives : list string) (s : State) :
  exists r,
    ProductRequest_init host self product_info actions directives s
    = (Returned r, with_event (EvRequest (counter s)) s) /\
    ProductRequest.sid r = counter s.
Proof.
  unfold ProductRequest_init, bind, get_counter, emit, ret, unary_plus.
  cbv zeta. eexists. split; reflexivity.
Qed.

(** C10. [ProductServer.counter] is never incremented: [++counter] is the
    counter itself. From a state where the counter is 0 and every request
    built so far has [sid] 0, as when the interpreter has just started,
    every construction returns a request with [sid] 0 and leaves the counter
    at 0; so does every sequence of constructions; and after any
    [make_request], whatever it made for its inputs and however it ended,
    the counter is still 0 and every [sid] handed out is 0. *)
Theorem counter_never_incremented (host : Host) (self : ProductServer) (s : State) :
  counter_stuck 0 s ->
  (forall x, unary_plus (unary_plus x) = x) /\
  (forall product_info actions directives,
     exists r s',
       ProductRequest_init host self product_info actions directives s
       = (Returned r, s') /\
       ProductRequest.sid r = 0 /\ counter s' = 0) /\
  (forall todo,
     exists rs s',
       construct_all host self todo s = (Returned rs, s') /\
       Forall (fun r => ProductRequest.sid r = 0) rs /\
       counter_stuck 0 s') /\
  (forall fuel product_info actions directives,
     counter_stuck 0
       (snd (make_request host self fuel product_info actions directives s))).
Proof.
  intros Hs. split; [reflexivity |]. split; [| split].
  - intros product_info actions directives.
    destruct (ProductRequest_init_run host self product_info actions directives s)
      as [r [Hrun Hsid]].
    exists r. eexists. split; [exact Hrun |]. destruct Hs as [Hc _].
    split; [congruence | exact Hc].
  - intros todo. revert s Hs.
    induction todo as [| [[product_info actions] directives] rest IH]; intros s Hs.
    + exists []. exists s. split; [reflexivity |]. split; [constructor | exact Hs].
    + destruct (ProductRequest_init_run host self product_info actions directives s)
        as [r [Hrun Hsid]].
      assert (Hs1 : counter_stuck 0 (with_event (EvRequest (counter s)) s))
        by (apply (counter_stuck_request 0 s Hs)).
      destruct (IH _ Hs1) as [rs [s' [Hrest [Hall Hs']]]].
      exists (r :: rs), s'. split.
      * cbn [construct_all].
        rewrite (bind_returned _ _ _ _ _ Hrun).
        rewrite (bind_returned _ _ _ _ _ Hrest). reflexivity.
      * split; [| exact Hs']. constructor; [| exact Hall].
        destruct Hs as [Hc _]. congruence.
  - intros fuel product_info actions directives.
    destruct (make_request host self fuel product_info actions directives s)
      as [o s'] eqn:Hrun.
    exact (preserves_make_request (counter_stuck 0)
             (counter_stuck_fs 0) (counter_stuck_popen 0) (counter_stuck_request 0)
             host self fuel product_info actions directives s o s' Hs Hrun).
Qed.

Lemma counter_never_incremented_witness :
  counter_stuck 0
    (snd (make_request Demo.host Demo.server 100 (Demo.info "test.mix") ["MAKE"] []
            (Demo.start Demo.installed))) /\
  exists rs s',
    construct_all Demo.host Demo.server
      [(Demo.info "test.gen", ["MAKE"], []); (Demo.info "test.bad", ["DELETE"], [])]
      (Demo.start Demo.installed) = (Returned rs, s') /\
    Forall (fun r => ProductRequest.sid r = 0) rs.
Proof.
  assert (Hstart : counter_stuck 0 (Demo.start Demo.installed))
    by (split; [reflexivity | constructor]).
  destruct (counter_never_incremented Demo.host Demo.server
              (Demo.start Demo.installed) Hstart) as [_ [_ [Hall Hmake]]].
  split; [apply Hmake |].
  destruct (Hall [(Demo.info "test.gen", ["MAKE"], []);
                  (Demo.info "test.bad", ["DELETE"], [])])
    as [rs [s' [Hrun [Hsids _]]]].
  exists rs, s'. auto.
Defined.

(** The [sid]s handed out while [test.mix] is made with its two inputs. *)
Example sids_of_nested_requests :
  sids (trace (snd (Demo.run "test.mix" ["MAKE"] Demo.installed))) = [0; 0; 0].
Proof. vm_compute. reflexivity. Qed.

(** ** Exceptions that escape *)

(** C5, where the code departs from it. The claim: when the listing script
    exits with a code other than zero, the request gets status Conflict, its
    placeholder is removed and it is returned. The listing script of
    [test.why] writes [no upstream data] and exits with 1: [run_process]
    raises on the [status] the listing object does not have. The request is
    not returned, its status is not set, the placeholder stays. *)
Theorem listing_failure_raises :
  match Demo.run "test.why" ["MAKE"] Demo.installed with
  | (Raised e, s') =>
      e = AttributeError "status" /\
      fs s' !! "/srv/cache/test/why/test.why.txt" = Some "" /\
      Demo.installed !! "/srv/products/test/why/input.sh" = Some "#!/bin/sh" /\
      fst (Demo.scripts
             {| cmd_line := "/srv/products/test/why/input.sh";
                cmd_cwd := "/srv/products/test/why";
                cmd_env := ∅; cmd_stderr := PIPE |} Demo.installed)
      = Demo.exits 1 ("no upstream data" ++ Demo.nl)
  | (Returned _, _) => False
  end.
Proof. vm_compute. repeat split. Qed.

(** What the handler does when the listing is reported as failed: status
    Conflict, the file at the path removed, return. *)
Lemma list_inputs_failed (host : Host) (self : ProductServer) (pr : ProductRequest.t)
    (path text : string) (s s1 : State) (input_info : InputInfo.t) :
  has "MAKE" (ProductRequest.actions pr) || has "INPUTS" (ProductRequest.actions pr)
  = true ->
  get_input_list host self (ProductRequest.product_info pr)
    (ProductRequest.directives pr) s = (Returned input_info, s1) ->
  InputInfo.returncode input_info <> 0 ->
  fs s1 !! path = Some text ->
  list_inputs host self pr path s
  = (Returned (Return (ProductRequest.set_status HTTPStatus.CONFLICT pr)),
     without_file path s1).
Proof.
  intros Hact Hlist Hcode Hfile. unfold list_inputs. rewrite Hact.
  rewrite (bind_returned _ _ _ _ _ Hlist).
  apply Z.eqb_neq in Hcode. rewrite Hcode.
  rewrite (bind_returned _ _ _ _ _ (Path_unlink_some _ _ _ Hfile)). reflexivity.
Qed.

(** Made with a listing script that fails with a status code in its last
    line, [test.gone] ends as the handler means it to: Conflict, no
    placeholder, no generation. *)
Example listing_failure_reported :
  match Demo.run "test.gone" ["MAKE"] Demo.installed with
  | (Returned r, s') =>
      ProductRequest.status r = HTTPStatus.CONFLICT /\
      fs s' !! "/srv/cache/test/gone/test.gone.txt" = None /\
      length (trace s') = 2%nat
  | (Raised _, _) => False
  end.
Proof. vm_compute. repeat split. Qed.

(** C9, where the code departs from it. The claim: no request ends in an
    exception. Three requests that do: the listing script of [test.dep]
    exits with 1 and has written nothing, and [get_input_list] reads the
    [error_info] nobody has set; the generator of [test.idle] exits with 0
    and has written no file, and the size of the missing temporary file is
    asked for; the listing script of [test.gone] fails on a request for
    INPUTS alone, and the placeholder that was never made is unlinked. *)
Theorem exceptions_escape :
  fst (Demo.run "test.dep" ["MAKE"] Demo.installed)
  = Raised (AttributeError "error_info") /\
  fst (Demo.run "test.idle" ["MAKE"] Demo.installed)
  = Raised (FileNotFoundError "/srv/cache/test/idle/tmp/test.idle.txt") /\
  fst (Demo.run "test.gone" ["INPUTS"] Demo.installed)
  = Raised (FileNotFoundError "/srv/cache/test/gone/test.gone.txt").
Proof. vm_compute. repeat split. Qed.

(** ** Inputs *)

Lemma dict_set_fresh (k v : string) (d : Dict) :
  ~ In k (dict_keys d) -> dict_set k v d = (d ++ [(k, v)])%list.
Proof.
  induction d as [| [k' v'] d IH]; intros Hfresh; cbn; [reflexivity |].
  cbn in Hfresh. destruct (String.eqb k' k) eqn:Heq.
  - apply String.eqb_eq in Heq. tauto.
  - rewrite IH; [reflexivity | tauto].
Qed.

Lemma dict_keys_set (k v : string) (d : Dict) :
  dict_keys (dict_set k v d) = dict_keys d \/
  (~ In k (dict_keys d) /\ dict_keys (dict_set k v d) = (dict_keys d ++ [k])%list).
Proof.
  induction d as [| [k' v'] d IH]; cbn.
  - right. split; [tauto | reflexivity].
  - destruct (String.eqb k' k) eqn:Heq; cbn.
    + left. reflexivity.
    + apply String.eqb_neq in Heq.
      destruct IH as [IH | [Hfresh IH]].
      * left. unfold dict_keys in IH. rewrite IH. reflexivity.
      * right. split; [tauto |]. unfold dict_keys in IH. rewrite IH. reflexivity.
Qed.

Lemma dict_set_nodup (k v : string) (d : Dict) :
  List.NoDup (dict_keys d) -> List.NoDup (dict_keys (dict_set k v d)).
Proof.
  intros Hnd. destruct (dict_keys_set k v d) as [-> | [Hfresh ->]]; [exact Hnd |].
  apply List.NoDup_app. repeat split.
  - exact Hnd.
  - constructor; [intros [] | constructor].
  - intros x Hx [<- | []]. tauto.
Qed.

Lemma dict_assign_nodup (l : list (string * string)) (d : Dict) :
  List.NoDup (dict_keys d) -> List.NoDup (dict_keys (dict_assign l d)).
Proof.
  revert d. induction l as [| [k v] l IH]; intros d Hnd; cbn; [exact Hnd |].
  apply IH. apply dict_set_nodup. exact Hnd.
Qed.

Lemma resolved_inputs_keys_in (outs : list (string * option string)) (k : string) :
  In k (dict_keys (resolved_inputs outs)) -> In k (map fst outs).
Proof.
  induction outs as [| [i [p |]] outs IH]; cbn; [tauto | | ].
  - intros [H | H]; [left; exact H | right; apply IH; exact H].
  - intros H. right. apply IH. exact H.
Qed.

Lemma made_in_order_names (host : Host)
    (mk : ProductInfo -> list string -> list string -> M ProductRequest.t)
    (items : Dict) (s s' : State) (outs : list (string * option string)) :
  made_in_order host mk items s outs s' -> map fst outs = dict_keys items.
Proof.
  induction 1 as [| i input rest s s1 s2 r outs Hmk Hrest IH]; cbn;
    [reflexivity | f_equal; exact IH].
Qed.

(** The loop, on names that are all different, keeps exactly the inputs
    that came back with a path. *)
Lemma retrieve_inputs_made (host : Host)
    (mk : ProductInfo -> list string -> list string -> M ProductRequest.t)
    (items : Dict) (s s' : State) (outs : list (string * option string)) :
  made_in_order host mk items s outs s' ->
  forall inputs,
    List.NoDup (dict_keys items) ->
    (forall k, In k (dict_keys inputs) -> ~ In k (dict_keys items)) ->
    retrieve_inputs host mk items inputs s
    = (Returned (inputs ++ resolved_inputs outs)%list, s').
Proof.
  induction 1 as [| i input rest s s1 s2 r outs Hmk Hrest IH];
    intros inputs Hnd Hfresh.
  - cbn. rewrite app_nil_r. reflexivity.
  - cbn [retrieve_inputs]. rewrite (bind_returned _ _ _ _ _ Hmk).
    cbn in Hnd. apply List.NoDup_cons_iff in Hnd as [Hi Hnd].
    destruct (ProductRequest.path r) as [r_path |] eqn:Hpath.
    + rewrite dict_set_fresh.
      * rewrite IH; [| exact Hnd |].
        -- cbn. rewrite <- app_assoc. reflexivity.
        -- intros k Hk. unfold dict_keys in Hk. rewrite map_app in Hk.
           apply in_app_or in Hk as [Hk | [<- | []]]; [| exact Hi].
           intros Hin. apply (Hfresh k Hk). cbn. right. exact Hin.
      * intros Hin. apply (Hfresh i Hin). cbn. left. reflexivity.
    + rewrite IH; [reflexivity | exact Hnd |].
      intros k Hk Hin. apply (Hfresh k Hk). cbn. right. exact Hin.
Qed.

Lemma run_process_listing_inputs (host : Host) (p : Popen) (info info' : InputInfo.t)
    (s s' : State) :
  run_process host (Some p) info s = (Returned info', s') ->
  InputInfo.inputs info' = InputInfo.inputs info.
Proof.
  unfold run_process. intros H.
  apply bind_inv in H as [[task stdout] [s1 [Hout H]]].
  apply bind_inv in H as [stderr [s2 [_ H]]].
  unfold ret in H. injection H as <- <-.
  cbn [task_set_stdout task_set_stderr InputInfo_Task
       InputInfo.inputs InputInfo.with_stdout InputInfo.with_stderr].
  revert Hout. cbn [task_set_returncode InputInfo_Task].
  destruct (negb (String.eqb (p_stdout p) ""));
    [| intros Hout; injection Hout as <- _ _; reflexivity].
  intros Hout. apply bind_inv in Hout as [text [s3 [_ Hout]]].
  destruct (negb (p_returncode p =? 0));
    [| injection Hout as <- _ _; reflexivity].
  apply bind_inv in Hout as [task' [s4 [Hstatus Hout]]].
  injection Hout as <- _ _.
  revert Hstatus. unfold status_from_error_info, not_http_code, ret.
  cbn [task_status task_set_status task_set_error_info InputInfo_Task
       InputInfo.status InputInfo.with_error_info InputInfo.with_returncode].
  destruct (PyStr.int _) as [n |]; [destruct (HTTPStatus_member host n) |];
    destruct (InputInfo.status info);
    intros H; try discriminate; injection H as <- _; reflexivity.
Qed.

Lemma get_input_list_nodup (host : Host) (self : ProductServer)
    (product_info : ProductInfo) (directives : list string) (s s' : State)
    (input_info : InputInfo.t) :
  get_input_list host self product_info directives s = (Returned input_info, s') ->
  List.NoDup (dict_keys (InputInfo.inputs input_info)).
Proof.
  unfold get_input_list. intros H.
  apply bind_inv in H as [found [s1 [_ H]]].
  destruct found; cbn [negb] in H.
  - apply bind_inv in H as [p [s2 [_ H]]].
    apply bind_inv in H as [info' [s3 [Hrun H]]].
    apply run_process_listing_inputs in Hrun. cbn in Hrun.
    destruct (InputInfo.returncode info' =? 0).
    + destruct (InputInfo.stdout info'); try discriminate.
      injection H as <- <-. cbn. rewrite Hrun.
      apply dict_assign_nodup. constructor.
    + destruct (InputInfo.error_info info'); [| discriminate].
      injection H as <- <-. rewrite Hrun. constructor.
  - injection H as <- <-. constructor.
Qed.

Lemma listed_inputs_nodup (host : Host) (self : ProductServer)
    (pr pr0 : ProductRequest.t) (path : string) (params : Env) (s s0 : State) :
  has "MAKE" (ProductRequest.actions pr) = true ->
  listed host self pr s = (Returned (Next (pr0, path, params)), s0) ->
  List.NoDup (dict_keys (ProductRequest.inputs pr0)).
Proof.
  intros Hmake H. unfold listed in H.
  apply and_then_inv in H as [[pra path'] [s1 [Hcache H]]].
  apply check_cache_next in Hcache as [_ [Hact _]]. cbn [fst snd] in H.
  apply and_then_inv in H as [prb [s2 [Hgen H]]].
  apply check_generator_next in Hgen as [-> ->].
  apply bind_inv in H as [params' [s3 [_ H]]].
  apply and_then_inv in H as [prc [s4 [Hlist H]]].
  injection H as <- <- <- <-.
  unfold list_inputs in Hlist. rewrite <- Hact, Hmake in Hlist. cbn [orb] in Hlist.
  apply bind_inv in Hlist as [input_info [s5 [Hget Hlist]]].
  apply get_input_list_nodup in Hget.
  destruct (InputInfo.returncode input_info =? 0).
  - injection Hlist as <- <-. exact Hget.
  - apply bind_inv in Hlist as [[] [s6 [_ Hlist]]]. discriminate.
Qed.

(** ** The generator is started *)

Lemma subprocess_Popen_emits (host : Host) (cmd : Cmd) (s s' : State)
    (o : Outcome Popen) :
  subprocess_Popen host cmd s = (o, s') -> In (EvPopen cmd) (trace s').
Proof.
  unfold subprocess_Popen, bind, emit, get_fs, put_fs, ret. cbn [fs trace counter].
  destruct (shell host cmd (fs s)) as [e f]. intros H. injection H as <- <-.
  cbn [trace]. apply in_or_app. right. left. reflexivity.
Qed.

Lemma started_fs (ev : Event) (f : FS) (s : State) :
  In ev (trace s) -> In ev (trace (with_fs f s)).
Proof. intros H. exact H. Qed.

Lemma started_event (ev e : Event) (s : State) :
  In ev (trace s) -> In ev (trace (with_event e s)).
Proof. intros H. cbn. apply in_or_app. left. exact H. Qed.

Lemma run_generator_starts_generator (host : Host) (pr : ProductRequest.t)
    (path : string) (params : Env) (s s' : State) (o : Outcome (ProductRequest.t * Z)) :
  run_generator host pr path params s = (o, s') ->
  In (EvPopen (generator_cmd pr params)) (trace s').
Proof.
  pose (P := fun st : State => In (EvPopen (generator_cmd pr params)) (trace st)).
  assert (Hfs : forall f st, P st -> P (with_fs f st)) by (intros; apply started_fs; auto).
  assert (Hpopen : forall cmd st, P st -> P (with_event (EvPopen cmd) st))
    by (intros; apply started_event; auto).
  unfold run_generator. intros H.
  refine (bind_establishes P _ _ _ _ s o s' H).
  - intros st ost st' Hst. eapply subprocess_Popen_emits. exact Hst.
  - intros p. apply preserves_bind; [apply preserves_run_process; assumption |].
    intros r. destruct (negb _).
    + apply preserves_bind; [apply preserves_write_log_if_any; assumption |].
      intros _. apply preserves_bind; [apply preserves_write_log_if_any; assumption |].
      intros _. apply preserves_ret.
    + apply preserves_ret.
Qed.

Lemma generate_starts_generator (host : Host) (pr : ProductRequest.t)
    (path : string) (params : Env) (s s' : State) (o : Outcome ProductRequest.t) :
  has "MAKE" (ProductRequest.actions pr) = true ->
  generate host pr path params s = (o, s') ->
  In (EvPopen (generator_cmd pr params)) (trace s').
Proof.
  intros Hmake. unfold generate. rewrite Hmake.
  pose (P := fun st : State => In (EvPopen (generator_cmd pr params)) (trace st)).
  assert (Hfs : forall f st, P st -> P (with_fs f st)) by (intros; apply started_fs; auto).
  assert (Hpopen : forall cmd st, P st -> P (with_event (EvPopen cmd) st))
    by (intros; apply started_event; auto).
  intros H. refine (bind_establishes P _ _ _ _ s o s' H).
  - intros st ost st' Hst. eapply run_generator_starts_generator. exact Hst.
  - intros done. destruct (negb _); [apply preserves_ret |].
    apply preserves_bind; [apply preserves_Path_st_size; assumption |].
    intros size. destruct (size =? 0); [apply preserves_ret |].
    apply preserves_bind; [apply preserves_Path_replace; assumption |]. intros _.
    apply preserves_bind; [apply preserves_apply_links; assumption |]. intros _.
    apply preserves_bind; [apply preserves_save_log; assumption |]. intros _.
    apply preserves_ret.
Qed.

Lemma run_process_request_inputs (host : Host) (p : Popen) (pr r : ProductRequest.t)
    (s s' : State) :
  run_process host (Some p) pr s = (Returned r, s') ->
  ProductRequest.inputs r = ProductRequest.inputs pr.
Proof.
  unfold run_process. intros H.
  apply bind_inv in H as [[task stdout] [s1 [Hout H]]].
  apply bind_inv in H as [stderr [s2 [_ H]]].
  unfold ret in H. injection H as <- <-.
  cbn [task_set_stdout task_set_stderr ProductRequest_Task
       ProductRequest.inputs ProductRequest.with_stdout ProductRequest.with_stderr].
  revert Hout. cbn [task_set_returncode ProductRequest_Task].
  destruct (negb (String.eqb (p_stdout p) ""));
    [| intros Hout; injection Hout as <- _ _; reflexivity].
  intros Hout. apply bind_inv in Hout as [text [s3 [_ Hout]]].
  destruct (negb (p_returncode p =? 0));
    [| injection Hout as <- _ _; reflexivity].
  apply bind_inv in Hout as [task' [s4 [Hstatus Hout]]].
  injection Hout as <- _ _.
  revert Hstatus. unfold status_from_error_info, not_http_code, ret.
  cbn [task_status task_set_status task_set_error_info ProductRequest_Task].
  destruct (PyStr.int _) as [n |]; [destruct (HTTPStatus_member host n) |];
    intros H; injection H as <- _; reflexivity.
Qed.

Lemma generate_inputs (host : Host) (pr r : ProductRequest.t) (path : string)
    (params : Env) (s s' : State) :
  generate host pr path params s = (Returned r, s') ->
  ProductRequest.inputs r = ProductRequest.inputs pr.
Proof.
  unfold generate. destruct (has "MAKE" _).
  - intros H. apply bind_inv in H as [[r0 code] [s1 [Hgen H]]].
    assert (Hr0 : ProductRequest.inputs r0 = ProductRequest.inputs pr).
    { unfold run_generator in Hgen.
      apply bind_inv in Hgen as [p [s2 [_ Hgen]]].
      apply bind_inv in Hgen as [r1 [s3 [Hproc Hgen]]].
      pose proof (run_process_request_inputs _ _ _ _ _ _ Hproc) as Hin.
      destruct (negb _).
      - apply bind_inv in Hgen as [[] [s4 [_ Hgen]]].
        apply bind_inv in Hgen as [[] [s5 [_ Hgen]]].
        injection Hgen as <- <- <-. exact Hin.
      - injection Hgen as <- <- <-. exact Hin. }
    cbn [fst] in H. destruct (negb _).
    + injection H as <- <-. exact Hr0.
    + apply bind_inv in H as [size [s2 [_ H]]].
      destruct (size =? 0).
      * injection H as <- <-. exact Hr0.
      * apply bind_inv in H as [[] [s3 [_ H]]].
        apply bind_inv in H as [[] [s4 [_ H]]].
        apply bind_inv in H as [[] [s5 [_ H]]].
        injection H as <- <-. exact Hr0.
  - intros H. injection H as <- <-. reflexivity.
Qed.

Lemma resolved_inputs_in (outs : list (string * option string)) (i p : string) :
  In (i, p) (resolved_inputs outs) <-> In (i, Some p) outs.
Proof.
  induction outs as [| [k [q |]] outs IH]; cbn; [tauto | | ].
  - rewrite IH. split.
    + intros [H | H]; [left; congruence | right; exact H].
    + intros [H | H]; [left; congruence | right; exact H].
  - rewrite IH. split; [intros H; right; exact H |].
    intros [H | H]; [discriminate | exact H].
Qed.

Lemma env_update_lookup_notin (d : Dict) (e : Env) (i : string) :
  ~ In i (dict_keys d) -> env_update d e !! i = e !! i.
Proof.
  revert e. induction d as [| [k v] d IH]; intros e Hi; cbn; [reflexivity |].
  cbn in Hi. unfold env_update in IH. rewrite IH; [| tauto].
  apply lookup_insert_ne. cbn. tauto.
Qed.

Lemma env_update_lookup_in (d : Dict) (e : Env) (i p : string) :
  List.NoDup (dict_keys d) -> In (i, p) d -> env_update d e !! i = Some p.
Proof.
  revert e. induction d as [| [k v] d IH]; intros e Hnd Hin; [destruct Hin |].
  cbn in Hnd. apply List.NoDup_cons_iff in Hnd as [Hk Hnd].
  destruct Hin as [Hin | Hin].
  - injection Hin as -> ->. cbn.
    pose proof (env_update_lookup_notin d (<[i := p]> e) i Hk) as Hlook.
    unfold env_update in Hlook. rewrite Hlook. apply lookup_insert_eq.
  - cbn. apply IH; assumption.
Qed.

Lemma resolved_inputs_nodup (outs : list (string * option string)) :
  List.NoDup (map fst outs) -> List.NoDup (dict_keys (resolved_inputs outs)).
Proof.
  induction outs as [| [i [p |]] outs IH]; cbn; intros Hnd.
  - constructor.
  - apply List.NoDup_cons_iff in Hnd as [Hi Hnd]. constructor; [| apply IH; exact Hnd].
    intros Hin. apply Hi. apply resolved_inputs_keys_in. exact Hin.
  - apply List.NoDup_cons_iff in Hnd as [_ Hnd]. apply IH. exact Hnd.
Qed.

(** X21. A MAKE request whose listing has come back: when the requests for
    the listed inputs, made one after the other in the order of the listing,
    each return, the input map of the request holds exactly the inputs whose
    request kept a path, as name and path, in that order; an input whose
    request came back without a path is in neither the map nor INPUTKEYS;
    INPUTKEYS is set to the names of the map joined by commas before the map
    is merged into the environment; and the generator is started with that
    environment, whether or not some input was left out. *)
Theorem inputs_best_effort (host : Host) (self : ProductServer) (fuel : nat)
    (pr pr0 : ProductRequest.t) (path : string) (params : Env) (s s0 s1 : State)
    (outs : list (string * option string)) :
  has "MAKE" (ProductRequest.actions pr) = true ->
  listed host self pr s = (Returned (Next (pr0, path, params)), s0) ->
  made_in_order host (make_input_request host self fuel)
    (ProductRequest.inputs pr0) s0 outs s1 ->
  let inputs := resolved_inputs outs in
  let pr1 := ProductRequest.with_inputs inputs pr0 in
  let env := env_update inputs
               (<["INPUTKEYS" := PyStr.join "," (dict_keys inputs)]> params) in
  map fst outs = dict_keys (ProductRequest.inputs pr0) /\
  (forall i p, In (i, p) inputs <-> In (i, Some p) outs) /\
  (forall i, In (i, None) outs -> ~ In i (dict_keys inputs)) /\
  (forall i p, In (i, Some p) outs -> env !! i = Some p) /\
  (~ In "INPUTKEYS" (dict_keys inputs) ->
   env !! "INPUTKEYS" = Some (PyStr.join "," (dict_keys inputs))) /\
  retrieve host (make_input_request host self fuel) pr0 params s0
  = (Returned (pr1, env), s1) /\
  handle_request host self fuel pr s = generate host pr1 path env s1 /\
  exists o s2,
    handle_request host self fuel pr s = (o, s2) /\
    In (EvPopen (generator_cmd pr1 env)) (trace s2) /\
    (forall r, o = Returned r -> ProductRequest.inputs r = inputs).
Proof.
  intros Hmake Hlisted Hmade inputs pr1 env.
  pose proof (listed_inputs_nodup _ _ _ _ _ _ _ _ Hmake Hlisted) as Hnd.
  pose proof (made_in_order_names _ _ _ _ _ _ Hmade) as Hnames.
  destruct (listed_next _ _ _ _ _ _ _ _ Hlisted) as [_ [Hact _]].
  assert (Hmake0 : has "MAKE" (ProductRequest.actions pr0) = true) by congruence.
  assert (Hretrieve : retrieve host (make_input_request host self fuel) pr0 params s0
                      = (Returned (pr1, env), s1)).
  { unfold retrieve. rewrite Hmake0.
    rewrite (bind_returned _ _ _ _ _
               (retrieve_inputs_made _ _ _ _ _ _ Hmade [] Hnd (fun k H => match H with end))).
    reflexivity. }
  assert (Hhandle : handle_request host self fuel pr s = generate host pr1 path env s1).
  { apply handle_request_generates. unfold resolve, and_then.
    rewrite (bind_returned _ _ _ _ _ Hlisted). cbn [fst snd].
    rewrite (bind_returned _ _ _ _ _ Hretrieve). reflexivity. }
  split; [exact Hnames |].
  split; [intros i p; apply resolved_inputs_in |].
  split.
  { intros i Hnone Hin.
    apply in_map_iff in Hin as [[k p] [Hk Hin]]. cbn in Hk. subst k.
    apply resolved_inputs_in in Hin.
    rewrite <- Hnames in Hnd. clear - Hnd Hnone Hin.
    induction outs as [| [k q] outs IH]; [destruct Hin |].
    cbn in Hnd. apply List.NoDup_cons_iff in Hnd as [Hk Hnd].
    destruct Hnone as [Hnone | Hnone], Hin as [Hin | Hin].
    - congruence.
    - injection Hnone as -> ->. apply Hk. apply (in_map fst) in Hin. exact Hin.
    - injection Hin as -> ->. apply Hk. apply (in_map fst) in Hnone. exact Hnone.
    - apply IH; assumption. }
  split.
  { intros i p Hin. apply env_update_lookup_in.
    - apply resolved_inputs_nodup. rewrite Hnames. exact Hnd.
    - apply resolved_inputs_in. exact Hin. }
  split.
  { intros Hkeys. unfold env. rewrite env_update_lookup_notin; [| exact Hkeys].
    apply lookup_insert_eq. }
  split; [exact Hretrieve |]. split; [exact Hhandle |].
  destruct (generate host pr1 path env s1) as [o s2] eqn:Hgen.
  exists o, s2. split; [exact Hhandle |]. split.
  - eapply generate_starts_generator; [| exact Hgen]. exact Hmake0.
  - intros r ->. apply generate_inputs in Hgen. exact Hgen.
Qed.

Lemma inputs_best_effort_witness :
  exists o s2 cmd,
    handle_request Demo.host Demo.server 100 Demo.mix_request
      (Demo.start Demo.installed) = (o, s2) /\
    In (EvPopen cmd) (trace s2) /\
    cmd_line cmd = "/srv/products/test/mix/generate.sh" /\
    cmd_env cmd !! "INPUTKEYS" = Some "a" /\
    cmd_env cmd !! "a" = Some Demo.gen_artifact /\
    cmd_env cmd !! "b" = None.
Proof.
  pose (pr0 := fst (fst (fst Demo.mix_listing))).
  pose (path := snd (fst (fst Demo.mix_listing))).
  pose (params := snd (fst Demo.mix_listing)).
  pose (s0 := snd Demo.mix_listing).
  pose (mk := make_input_request Demo.host Demo.server 100).
  assert (Hlisted : listed Demo.host Demo.server Demo.mix_request
                      (Demo.start Demo.installed)
                    = (Returned (Next (pr0, path, params)), s0)) by vm_refl.
  assert (Hmade : made_in_order Demo.host mk (ProductRequest.inputs pr0) s0
                    Demo.mix_outs (snd Demo.mix_input_b)).
  { change (ProductRequest.inputs pr0) with [("a", "test.gen"); ("b", "test.none")].
    apply (made_next Demo.host mk "a" "test.gen" _ s0 (snd Demo.mix_input_a) _
             (Demo.returned Demo.mix_request Demo.mix_input_a)); [vm_refl |].
    apply (made_next Demo.host mk "b" "test.none" _ _ (snd Demo.mix_input_b) _
             (Demo.returned Demo.mix_request Demo.mix_input_b)); [vm_refl |].
    apply made_none. }
  destruct (inputs_best_effort Demo.host Demo.server 100 Demo.mix_request pr0 path
              params (Demo.start Demo.installed) s0 (snd Demo.mix_input_b)
              Demo.mix_outs eq_refl Hlisted Hmade)
    as [_ [_ [_ [_ [_ [_ [_ [o [s2 [Hrun [Hstarted _]]]]]]]]]]].
  exists o, s2. eexists. split; [exact Hrun |]. split; [exact Hstarted |].
  repeat split; vm_compute; reflexivity.
Defined.

(** C6, where the code departs from it. The claim: an input whose request
    fails to yield an artifact is left out of the input map and of
    INPUTKEYS, and the parent is generated with the inputs that resolved.
    [test.half] lists [a=test.gen] and [b=test.bad]. The generator of
    [test.bad] exits with 1: its request comes back with status 409 and no
    artifact, but with its path still set, which was to be cleared when
    generation fails (line 286) and never is. So [b] is kept, with the path
    of an empty placeholder, and the generator of [test.half] is handed
    INPUTKEYS [a,b], which it writes into its artifact. [test.stop] lists
    [a=test.gen] and [b=test.dep]: the request for [test.dep] raises, the
    exception passes through the loop, and the generator of [test.stop] is
    never started. *)
Theorem failed_input_is_not_skipped :
  match Demo.run "test.bad" ["MAKE"] Demo.installed with
  | (Returned r, s') =>
      ProductRequest.returncode r = 1 /\
      ProductRequest.status r = 409 /\
      ProductRequest.path r = Some Demo.bad_artifact /\
      fs s' !! Demo.bad_artifact = Some ""
  | (Raised _, _) => False
  end /\
  match Demo.run "test.half" ["MAKE"] Demo.installed with
  | (Returned r, s') =>
      ProductRequest.inputs r
      = [("a", Demo.gen_artifact); ("b", Demo.bad_artifact)] /\
      fs s' !! Demo.bad_artifact = Some "" /\
      fs s' !! "/srv/cache/test/half/test.half.txt" = Some "a,b"
  | (Raised _, _) => False
  end /\
  match make_request Demo2.host Demo.server 100 (Demo.info "test.stop") ["MAKE"] []
          (Demo.start Demo2.installed) with
  | (Raised e, s') =>
      e = AttributeError "error_info" /\
      started (trace s')
      = ["/srv/products/test/stop/input.sh";
         "/srv/products/test/gen/generate.sh";
         "/srv/products/test/dep/input.sh"]
  | (Returned _, _) => False
  end.
Proof. vm_compute. repeat split. Qed.

(** * More of the module *)

(** ** [parse_timestamp2] *)

Lemma dict_get_set_eq (k v : string) (d : Dict) : dict_get k (dict_set k v d) = Some v.
Proof.
  induction d as [| [k' v'] d IH]; cbn.
  - rewrite String.eqb_refl. reflexivity.
  - destruct (String.eqb k' k) eqn:Heq; cbn; rewrite Heq; [reflexivity | exact IH].
Qed.

Lemma dict_get_set_ne (k k' v : string) (d : Dict) :
  k <> k' -> dict_get k (dict_set k' v d) = dict_get k d.
Proof.
  intros Hne. induction d as [| [k0 v0] d IH]; cbn.
  - destruct (String.eqb k' k) eqn:Heq; [| reflexivity].
    apply String.eqb_eq in Heq. congruence.
  - destruct (String.eqb k0 k') eqn:Heq; cbn.
    + apply String.eqb_eq in Heq. subst k0.
      destruct (String.eqb k' k) eqn:Hk; [| reflexivity].
      apply String.eqb_eq in Hk. congruence.
    + destruct (String.eqb k0 k); [reflexivity | exact IH].
Qed.

Lemma dict_set_same (k v : string) (d : Dict) :
  dict_get k d = Some v -> dict_set k v d = d.
Proof.
  induction d as [| [k' v'] d IH]; cbn; [discriminate |].
  destruct (String.eqb k' k); intros H.
  - injection H as ->. reflexivity.
  - rewrite IH; [reflexivity | exact H].
Qed.

Lemma substring_append (a b : nat) (t : string) :
  String.substring 0 a t ++ String.substring a b t = String.substring 0 (a + b) t.
Proof.
  revert t. induction a as [| a IH]; intros t.
  - destruct t; destruct b; reflexivity.
  - destruct t as [| c t]; [reflexivity |].
    cbn [String.substring Nat.add].
    change (String c (String.substring 0 a t) ++ String.substring a b t)
      with (String c (String.substring 0 a t ++ String.substring a b t)).
    rewrite IH. reflexivity.
Qed.

Lemma substring_append_more (a b : nat) (t rest : string) :
  String.substring 0 a t ++ String.substring a b t ++ rest
  = String.substring 0 (a + b) t ++ rest.
Proof.
  rewrite <- substring_append.
  induction (String.substring 0 a t) as [| c x IH]; [reflexivity |].
  change (String c x ++ String.substring a b t ++ rest)
    with (String c (x ++ String.substring a b t ++ rest)).
  rewrite IH. reflexivity.
Qed.

Lemma substring_length_le (a m : nat) (t : string) :
  (String.length (String.substring a m t) <= m)%nat.
Proof.
  revert a m. induction t as [| c t IH]; intros a m.
  - destruct a, m; cbn; lia.
  - destruct a as [| a].
    + destruct m as [| m]; cbn; [lia |]. specialize (IH 0%nat m). lia.
    + cbn. apply IH.
Qed.

Lemma substring_of_prefix (a m n : nat) (t : string) :
  (a + m <= n)%nat ->
  String.substring a m (String.substring 0 n t) = String.substring a m t.
Proof.
  revert a m n. induction t as [| c t IH]; intros a m n Hle.
  - destruct n; reflexivity.
  - destruct n as [| n].
    + assert (a = 0%nat) by lia. assert (m = 0%nat) by lia. subst. reflexivity.
    + cbn [String.substring]. destruct a as [| a].
      * destruct m as [| m]; [reflexivity |].
        cbn [String.substring]. f_equal. apply IH. lia.
      * cbn [String.substring]. apply IH. lia.
Qed.

Lemma sub_nonword_idempotent (s : string) :
  PyRe.sub_nonword (PyRe.sub_nonword s) = PyRe.sub_nonword s.
Proof.
  induction s as [| c s IH]; [reflexivity |]. cbn.
  destruct (PyRe.isword c) eqn:Hc; [| exact IH].
  cbn. rewrite Hc, IH. reflexivity.
Qed.

Lemma sub_nonword_substring (a m : nat) (s : string) :
  PyRe.sub_nonword s = s ->
  PyRe.sub_nonword (String.substring a m s) = String.substring a m s.
Proof.
  revert a m. induction s as [| c s IH]; intros a m Hs.
  - destruct a, m; reflexivity.
  - cbn in Hs. destruct (PyRe.isword c) eqn:Hc.
    + injection Hs as Hs. destruct a as [| a].
      * destruct m as [| m]; [reflexivity |].
        cbn. rewrite Hc. f_equal. apply IH. exact Hs.
      * cbn. apply IH. exact Hs.
    + exfalso.
      assert (Hlen : forall x, (String.length (PyRe.sub_nonword x) <= String.length x)%nat).
      { clear. induction x as [| d x IHx]; cbn; [lia |].
        destruct (PyRe.isword d); cbn; lia. }
      specialize (Hlen s). rewrite Hs in Hlen. cbn in Hlen. lia.
Qed.

(** The six fields as the body leaves them. *)
Lemma parse_timestamp2_on_get (timestamp : string) (result : Dict) :
  timestamp <> "" ->
  let t := PyRe.sub_nonword timestamp in
  let d := parse_timestamp2_on timestamp result in
  dict_get "TIMESTAMP" d = Some (slice 0 12 t) /\
  dict_get "YEAR" d = Some (slice 0 4 t) /\
  dict_get "MONTH" d = Some (slice 4 6 t) /\
  dict_get "DAY" d = Some (slice 6 8 t) /\
  dict_get "HOUR" d = Some (slice 8 10 t) /\
  dict_get "MINUTE" d = Some (slice 10 12 t).
Proof.
  intros Hne. cbv zeta. unfold parse_timestamp2_on.
  apply String.eqb_neq in Hne. rewrite Hne. cbn [negb].
  repeat split;
    repeat first [ apply dict_get_set_eq
                 | rewrite dict_get_set_ne by discriminate ].
Qed.

(** X1. For a timestamp that is not empty, the fields YEAR, MONTH, DAY, HOUR
    and MINUTE written into the dictionary are consecutive pieces of the
    field TIMESTAMP: put together they are TIMESTAMP, which is the first
    twelve word characters of the timestamp, or all of them when there are
    fewer. Every other key of the dictionary is left as it was. *)
Theorem parse_timestamp2_fields (timestamp : string) (result default : Dict) :
  timestamp <> "" ->
  exists d stamp year month day hour minute,
    parse_timestamp2 timestamp (Some result) default = (d, default) /\
    dict_get "TIMESTAMP" d = Some stamp /\
    dict_get "YEAR" d = Some year /\
    dict_get "MONTH" d = Some month /\
    dict_get "DAY" d = Some day /\
    dict_get "HOUR" d = Some hour /\
    dict_get "MINUTE" d = Some minute /\
    year ++ month ++ day ++ hour ++ minute = stamp /\
    stamp = String.substring 0 12 (PyRe.sub_nonword timestamp) /\
    (String.length stamp <= 12)%nat /\
    PyRe.sub_nonword stamp = stamp /\
    (forall k, ~ In k ["TIMESTAMP"; "YEAR"; "MONTH"; "DAY"; "HOUR"; "MINUTE"] ->
               dict_get k d = dict_get k result).
Proof.
  intros Hne.
  destruct (parse_timestamp2_on_get timestamp result Hne)
    as [Hstamp [Hyear [Hmonth [Hday [Hhour Hminute]]]]].
  set (t := PyRe.sub_nonword timestamp) in *.
  exists (parse_timestamp2_on timestamp result), (slice 0 12 t), (slice 0 4 t),
    (slice 4 6 t), (slice 6 8 t), (slice 8 10 t), (slice 10 12 t).
  split; [reflexivity |].
  repeat (split; [assumption |]).
  split.
  { unfold slice. cbn [Nat.sub].
    rewrite (substring_append_more 4 2). cbn [Nat.add].
    rewrite (substring_append_more 6 2). cbn [Nat.add].
    rewrite (substring_append_more 8 2). cbn [Nat.add].
    apply (substring_append 10 2). }
  split; [reflexivity |].
  split; [apply substring_length_le |].
  split; [apply sub_nonword_substring; apply sub_nonword_idempotent |].
  intros k Hk. unfold parse_timestamp2_on.
  apply String.eqb_neq in Hne. rewrite Hne. cbn [negb]. cbv zeta.
  rewrite !dict_get_set_ne; [reflexivity | | | | | |];
    intros ->; apply Hk; cbn; tauto.
Qed.

Lemma parse_timestamp2_fields_witness :
  exists d,
    parse_timestamp2 "2017-08-12 15:00" (Some [("SITE", "fiika")]) [] = (d, []) /\
    dict_get "TIMESTAMP" d = Some "201708121500" /\
    dict_get "SITE" d = Some "fiika".
Proof.
  destruct (parse_timestamp2_fields "2017-08-12 15:00" [("SITE", "fiika")] [])
    as (d & stamp & y & mo & da & h & mi & Hrun & Hstamp & _ & _ & _ & _ & _
        & _ & Heq & _ & _ & Hrest); [discriminate |].
  exists d. split; [exact Hrun |]. split.
  - rewrite Hstamp, Heq. reflexivity.
  - rewrite Hrest; [reflexivity |].
    cbn. intros [H | [H | [H | [H | [H | [H | []]]]]]]; discriminate.
Defined.

(** X2. The field TIMESTAMP is a fixed point: when it is not empty, passing
    it back with the dictionary it came from changes nothing. *)
Theorem parse_timestamp2_again (timestamp : string) (result default : Dict) :
  timestamp <> "" ->
  String.substring 0 12 (PyRe.sub_nonword timestamp) <> "" ->
  let d := fst (parse_timestamp2 timestamp (Some result) default) in
  dict_get "TIMESTAMP" d = Some (String.substring 0 12 (PyRe.sub_nonword timestamp)) /\
  parse_timestamp2 (String.substring 0 12 (PyRe.sub_nonword timestamp)) (Some d) default
  = (d, default).
Proof.
  intros Hne Hstamp. cbv zeta. cbn [parse_timestamp2 fst].
  destruct (parse_timestamp2_on_get timestamp result Hne)
    as [Hs [Hyear [Hmonth [Hday [Hhour Hminute]]]]].
  split; [exact Hs |]. f_equal.
  set (t := PyRe.sub_nonword timestamp) in *.
  set (d := parse_timestamp2_on timestamp result) in *.
  unfold parse_timestamp2_on at 1.
  apply String.eqb_neq in Hstamp. rewrite Hstamp. cbn [negb]. cbv zeta.
  assert (Hword : PyRe.sub_nonword (String.substring 0 12 t) = String.substring 0 12 t)
    by (apply sub_nonword_substring; apply sub_nonword_idempotent).
  rewrite Hword. unfold slice in *. cbn [Nat.sub] in *.
  rewrite !substring_of_prefix by lia.
  rewrite (dict_set_same "TIMESTAMP" _ d Hs).
  rewrite (dict_set_same "YEAR" _ d Hyear).
  rewrite (dict_set_same "MONTH" _ d Hmonth).
  rewrite (dict_set_same "DAY" _ d Hday).
  rewrite (dict_set_same "HOUR" _ d Hhour).
  rewrite (dict_set_same "MINUTE" _ d Hminute).
  reflexivity.
Qed.

Lemma parse_timestamp2_again_witness :
  parse_timestamp2 "201708121500"
    (Some (fst (parse_timestamp2 "2017-08-12 15:00" (Some []) []))) []
  = (fst (parse_timestamp2 "2017-08-12 15:00" (Some []) []), []).
Proof.
  apply (parse_timestamp2_again "2017-08-12 15:00" [] []); discriminate.
Defined.

(** X3. The default [result] is shared between the calls: after a call with
    a timestamp and no [result], a call with an empty timestamp and no
    [result] returns the fields of the first call instead of an empty
    dictionary, whereas an empty dictionary passed along comes back empty. *)
Theorem parse_timestamp2_shared_default (timestamp : string) (default : Dict) :
  timestamp <> "" ->
  let first := parse_timestamp2 timestamp None default in
  let second := parse_timestamp2 "" None (snd first) in
  fst second = fst first /\
  snd second = fst first /\
  dict_get "YEAR" (fst second) = Some (slice 0 4 (PyRe.sub_nonword timestamp)) /\
  parse_timestamp2 "" (Some []) (snd first) = ([], fst first).
Proof.
  intros Hne. cbv zeta. cbn [parse_timestamp2 fst snd].
  change (parse_timestamp2_on "" (parse_timestamp2_on timestamp default))
    with (parse_timestamp2_on timestamp default).
  repeat split.
  apply (parse_timestamp2_on_get timestamp default Hne).
Qed.

Lemma parse_timestamp2_shared_default_witness :
  fst (parse_timestamp2 "" None (snd (parse_timestamp2 "201708121500" None [])))
  = [("TIMESTAMP", "201708121500"); ("YEAR", "2017"); ("MONTH", "08");
     ("DAY", "12"); ("HOUR", "15"); ("MINUTE", "00")].
Proof.
  destruct (parse_timestamp2_shared_default "201708121500" []) as [H _];
    [discriminate |].
  cbv zeta in H. rewrite H. reflexivity.
Defined.

(** ** The paths of a request

    [Path.join2] keeps the text of its segments: [pathlib] also drops a
    segment [.] and repeated separators. Where that matters the file name is
    taken to be one component other than [.]. *)

Lemma split_nonempty (sep : ascii) (s : string) : PyStr.split sep s <> [].
Proof.
  destruct s as [| c s]; cbn; [discriminate |].
  destruct (Ascii.eqb c sep); [discriminate |].
  destruct (PyStr.split sep s); discriminate.
Qed.

Lemma split_app (sep : ascii) (a b : string) :
  PyStr.split sep (a ++ String sep b) = (PyStr.split sep a ++ PyStr.split sep b)%list.
Proof.
  induction a as [| c a IH].
  - change ("" ++ String sep b) with (String sep b). cbn.
    rewrite Ascii.eqb_refl. reflexivity.
  - change (String c a ++ String sep b) with (String c (a ++ String sep b)).
    cbn [PyStr.split]. destruct (Ascii.eqb c sep).
    + rewrite IH. reflexivity.
    + rewrite IH. destruct (PyStr.split sep a) as [| w ws] eqn:Hsplit.
      * exfalso. exact (split_nonempty sep a Hsplit).
      * reflexivity.
Qed.

Lemma split_slash_free (f : string) : slash_free f = true -> PyStr.split "/" f = [f].
Proof.
  induction f as [| c f IH]; [reflexivity |].
  cbn. intros H. apply andb_prop in H as [Hc Hf].
  destruct (Ascii.eqb c "/"); [discriminate |].
  rewrite (IH Hf). reflexivity.
Qed.

Lemma join_cons_char (sep : string) (c : ascii) (w : string) (ws : list string) :
  PyStr.join sep (String c w :: ws) = String c (PyStr.join sep (w :: ws)).
Proof. destruct ws; reflexivity. Qed.

(** Splitting at [/] and joining with [/] gives the string back. *)
Lemma join_split (a : string) : PyStr.join "/" (PyStr.split "/" a) = a.
Proof.
  induction a as [| c a IH]; [reflexivity |].
  cbn [PyStr.split]. destruct (Ascii.eqb c "/") eqn:Hc.
  - apply Ascii.eqb_eq in Hc. subst c.
    destruct (PyStr.split "/" a) as [| w ws] eqn:Hsplit.
    + exfalso. exact (split_nonempty _ a Hsplit).
    + change (PyStr.join "/" ("" :: w :: ws))
        with ("" ++ "/" ++ PyStr.join "/" (w :: ws)).
      rewrite IH. reflexivity.
  - destruct (PyStr.split "/" a) as [| w ws] eqn:Hsplit.
    + exfalso. exact (split_nonempty _ a Hsplit).
    + rewrite join_cons_char, IH. reflexivity.
Qed.

Lemma name_of_child (dir f : string) :
  slash_free f = true -> Path.name (dir ++ "/" ++ f) = f.
Proof.
  intros Hf. unfold Path.name.
  change (dir ++ "/" ++ f) with (dir ++ String "/" f).
  rewrite split_app, (split_slash_free f Hf). apply List.last_last.
Qed.

Lemma parent_of_child (dir f : string) :
  slash_free f = true -> Path.parent (dir ++ "/" ++ f) = dir.
Proof.
  intros Hf. unfold Path.parent.
  change (dir ++ "/" ++ f) with (dir ++ String "/" f).
  rewrite split_app, (split_slash_free f Hf), List.removelast_last.
  apply join_split.
Qed.

Lemma slash_free_relative (f : string) : slash_free f = true -> Path.is_absolute f = false.
Proof.
  destruct f as [| c f]; [reflexivity |]. cbn.
  intros H. apply andb_prop in H as [Hc _].
  destruct (Ascii.eqb c "/") eqn:Heq; [discriminate |].
  apply Ascii.eqb_neq in Heq.
  destruct c as [[] [] [] [] [] [] [] []]; try reflexivity. congruence.
Qed.

(** A relative, non-empty component under a non-empty directory. *)
Lemma join2_child (dir f : string) :
  dir <> "" -> f <> "" -> Path.is_absolute f = false ->
  Path.join2 dir f = dir ++ "/" ++ f.
Proof.
  intros Hdir Hf Habs. unfold Path.join2.
  apply String.eqb_neq in Hdir, Hf. rewrite Hf, Habs, Hdir. reflexivity.
Qed.

Lemma join2_tmp_nonempty (dir : string) : Path.join2 dir "tmp" <> "".
Proof.
  unfold Path.join2. cbn. destruct (String.eqb dir ""); [discriminate |].
  intros H. apply (f_equal String.length) in H.
  rewrite !length_append in H. cbn in H. lia.
Qed.

Lemma join2_length (dir f : string) :
  Path.is_absolute f = false ->
  String.length (Path.join2 dir f)
  = if String.eqb f "" then String.length dir
    else if String.eqb dir "" then String.length f
         else (String.length dir + 1 + String.length f)%nat.
Proof.
  intros Habs. unfold Path.join2. rewrite Habs.
  destruct (String.eqb f ""); [reflexivity |].
  destruct (String.eqb dir ""); [reflexivity |].
  rewrite !length_append. cbn. lia.
Qed.

(** What [__init__] puts into the request it builds. *)
Lemma ProductRequest_init_fields (host : Host) (self : ProductServer)
    (product_info : ProductInfo) (actions directives : list string)
    (s s' : State) (r : ProductRequest.t) :
  ProductRequest_init host self product_info actions directives s = (Returned r, s') ->
  let cache_root := Path.absolute (cwd host) (CACHE_ROOT self) in
  let time_dir := get_time_dir host product_info in
  let prod_dir := get_product_dir product_info in
  ProductRequest.path r = Some (final_path host self product_info) /\
  ProductRequest.path_tmp r
  = Path.join [cache_root; time_dir; prod_dir; "tmp"; filename product_info] /\
  ProductRequest.path_static r = Path.join [cache_root; prod_dir; filename product_info] /\
  ProductRequest.actions r = actions /\
  ProductRequest.directives r = directives /\
  ProductRequest.product_info r = product_info /\
  ProductRequest.status r = HTTPStatus.NO_CONTENT /\
  ProductRequest.product r = NoProduct /\
  s' = with_event (EvRequest (counter s)) s.
Proof.
  unfold ProductRequest_init, bind, get_counter, emit, ret, unary_plus. cbv zeta.
  intros H. injection H as <- <-. repeat split.
Qed.

(** X4. A request for a descriptor without timestamp, or with the timestamp
    LATEST, has no time directory: the path of its artifact is the path of
    its static alias. *)
Theorem static_path_is_path (host : Host) (self : ProductServer)
    (product_info : ProductInfo) (actions directives : list string)
    (s s' : State) (r : ProductRequest.t) :
  TIMESTAMP product_info = "" \/ TIMESTAMP product_info = "LATEST" ->
  ProductRequest_init host self product_info actions directives s = (Returned r, s') ->
  get_time_dir host product_info = "" /\
  ProductRequest.path r = Some (ProductRequest.path_static r).
Proof.
  intros Hts Hinit.
  assert (Htime : get_time_dir host product_info = "").
  { unfold get_time_dir. destruct Hts as [-> | ->]; reflexivity. }
  split; [exact Htime |].
  destruct (ProductRequest_init_fields _ _ _ _ _ _ _ _ Hinit)
    as [Hpath [_ [Hstatic _]]].
  rewrite Hpath, Hstatic. unfold final_path. rewrite Htime. reflexivity.
Qed.

Lemma static_path_is_path_witness :
  exists r s',
    ProductRequest_init Demo.host Demo.server (Demo.info "test.gen") ["MAKE"] ["LINK"]
      (Demo.start Demo.installed) = (Returned r, s') /\
    ProductRequest.path r = Some (ProductRequest.path_static r).
Proof.
  destruct (ProductRequest_init_run Demo.host Demo.server (Demo.info "test.gen")
              ["MAKE"] ["LINK"] (Demo.start Demo.installed)) as [r [Hrun _]].
  exists r. eexists. split; [exact Hrun |].
  apply (static_path_is_path Demo.host Demo.server (Demo.info "test.gen")
           ["MAKE"] ["LINK"] _ _ r (or_introl eq_refl) Hrun).
Defined.

(** X5. When the file name of the descriptor is not an absolute path, the
    temporary path of the request differs from the path of its artifact:
    what the generator writes is never the placeholder. *)
Theorem temp_path_apart (host : Host) (self : ProductServer)
    (product_info : ProductInfo) (actions directives : list string)
    (s s' : State) (r : ProductRequest.t) :
  Path.is_absolute (filename product_info) = false ->
  ProductRequest_init host self product_info actions directives s = (Returned r, s') ->
  ProductRequest.path r <> Some (ProductRequest.path_tmp r).
Proof.
  intros Habs Hinit.
  destruct (ProductRequest_init_fields _ _ _ _ _ _ _ _ Hinit) as [Hpath [Htmp _]].
  rewrite Hpath, Htmp. unfold final_path, Path.join. cbn [fold_left].
  set (dir := Path.join2 (Path.join2 (Path.join2 "" _) _) _).
  intros H. injection H as H. apply (f_equal String.length) in H.
  rewrite !(join2_length _ _ Habs) in H.
  pose proof (join2_tmp_nonempty dir) as Htmpdir.
  pose proof (join2_length dir "tmp" eq_refl) as Hlen. cbn [String.eqb Ascii.eqb Bool.eqb] in Hlen.
  apply String.eqb_neq in Htmpdir. rewrite Htmpdir in H.
  rewrite Hlen in H. clear Hlen Htmpdir. clearbody dir. revert H.
  destruct (String.eqb (filename product_info) "");
    destruct (String.eqb dir "") eqn:Hdir;
    try (apply String.eqb_eq in Hdir; subst dir); cbn; lia.
Qed.

Lemma temp_path_apart_witness :
  exists r s',
    ProductRequest_init Demo.host Demo.server (Demo.info "test.gen") ["MAKE"] []
      (Demo.start Demo.installed) = (Returned r, s') /\
    ProductRequest.path r <> Some (ProductRequest.path_tmp r).
Proof.
  destruct (ProductRequest_init_run Demo.host Demo.server (Demo.info "test.gen")
              ["MAKE"] [] (Demo.start Demo.installed)) as [r [Hrun _]].
  exists r. eexists. split; [exact Hrun |].
  apply (temp_path_apart Demo.host Demo.server (Demo.info "test.gen")
           ["MAKE"] [] _ _ r eq_refl Hrun).
Defined.

Lemma name_of_join2 (dir f : string) :
  f <> "" -> slash_free f = true -> Path.name (Path.join2 dir f) = f.
Proof.
  intros Hf Hfree.
  destruct (String.eqb dir "") eqn:Hdir.
  - unfold Path.join2. rewrite (slash_free_relative f Hfree), Hdir.
    apply String.eqb_neq in Hf. rewrite Hf.
    unfold Path.name. rewrite (split_slash_free f Hfree). reflexivity.
  - apply String.eqb_neq in Hdir.
    rewrite (join2_child dir f Hdir Hf (slash_free_relative f Hfree)).
    apply name_of_child. exact Hfree.
Qed.

(** X6. For a MAKE request built for a descriptor whose file name is one
    path component (no [/] in it, and not [.], which [pathlib] drops), the
    block that prepares the generation leaves a file at
    the path of the artifact, empty if there was none, starts no process,
    and sets OUTDIR and OUTFILE so that OUTDIR/OUTFILE, where the generator
    is to write, is the temporary path the engine reads afterwards. *)
Theorem generator_output_is_temp_path (host : Host) (self : ProductServer)
    (product_info : ProductInfo) (actions directives : list string)
    (s s' : State) (r : ProductRequest.t) :
  ProductRequest_init host self product_info actions directives s = (Returned r, s') ->
  filename product_info <> "" ->
  filename product_info <> "." ->
  slash_free (filename product_info) = true ->
  has "MAKE" actions = true ->
  let path := final_path host self product_info in
  ProductRequest.path r = Some path /\
  forall st,
    exists params st' outdir,
      prepare r path st = (Returned params, st') /\
      params !! "OUTDIR" = Some outdir /\
      params !! "OUTFILE" = Some (filename product_info) /\
      Path.join2 outdir (filename product_info) = ProductRequest.path_tmp r /\
      is_Some (fs st' !! path) /\
      (fs st !! path = None -> fs st' !! path = Some "") /\
      trace st' = trace st.
Proof.
  intros Hinit Hf _ Hfree Hmake path.
  destruct (ProductRequest_init_fields _ _ _ _ _ _ _ _ Hinit)
    as [Hpath [Htmp [_ [Hact _]]]].
  split; [exact Hpath |]. intros st.
  assert (Hname : Path.name path = filename product_info).
  { unfold path, final_path, Path.join. cbn [fold_left].
    apply name_of_join2; assumption. }
  assert (Hparent : Path.join2 (Path.parent (ProductRequest.path_tmp r))
                      (filename product_info) = ProductRequest.path_tmp r).
  { rewrite Htmp. unfold Path.join. cbn [fold_left].
    set (dir := Path.join2 _ "tmp").
    assert (Hdir : dir <> "") by apply join2_tmp_nonempty.
    rewrite (join2_child dir _ Hdir Hf (slash_free_relative _ Hfree)).
    rewrite (parent_of_child dir _ Hfree).
    apply (join2_child dir _ Hdir Hf (slash_free_relative _ Hfree)). }
  unfold prepare. rewrite Hact, Hmake.
  unfold ensure_output_dir, Path_touch, bind, ret, get_fs, put_fs. cbn [fs].
  destruct (fs st !! path) as [text |] eqn:Hfile.
  - do 3 eexists. split; [reflexivity |].
    split; [rewrite lookup_insert_ne by discriminate; apply lookup_insert_eq |].
    split; [rewrite Hname; apply lookup_insert_eq |].
    split; [exact Hparent |].
    split; [rewrite Hfile; eauto |].
    split; [intros H; discriminate | reflexivity].
  - do 3 eexists. split; [reflexivity |].
    split; [rewrite lookup_insert_ne by discriminate; apply lookup_insert_eq |].
    split; [rewrite Hname; apply lookup_insert_eq |].
    split; [exact Hparent |]. cbn [fs trace].
    split; [rewrite lookup_insert_eq; eauto |].
    split; [intros _; apply lookup_insert_eq | reflexivity].
Qed.

Lemma generator_output_is_temp_path_witness :
  exists r params st',
    prepare r Demo.gen_artifact (Demo.start Demo.installed) = (Returned params, st') /\
    ProductRequest.path r = Some Demo.gen_artifact /\
    params !! "OUTFILE" = Some "test.gen.txt" /\
    fs st' !! Demo.gen_artifact = Some "".
Proof.
  destruct (ProductRequest_init_run Demo.host Demo.server (Demo.info "test.gen")
              ["MAKE"] [] (Demo.start ∅)) as [r [Hrun _]].
  destruct (generator_output_is_temp_path Demo.host Demo.server (Demo.info "test.gen")
              ["MAKE"] [] _ _ r Hrun) as [Hpath Hprepare];
    [discriminate | discriminate | reflexivity | reflexivity |].
  destruct (Hprepare (Demo.start Demo.installed))
    as (params & st' & outdir & Hprep & _ & Hfile & _ & _ & Hfresh & _).
  exists r, params, st'. split; [exact Hprep |]. split; [exact Hpath |].
  split; [exact Hfile |]. apply Hfresh. vm_compute. reflexivity.
Defined.

(** ** The handler, block by block *)

Lemma Path_exists_missing (p : string) (s : State) :
  fs s !! p = None -> Path_exists p s = (Returned false, s).
Proof.
  intros Hp. rewrite Path_exists_run, Hp.
  rewrite bool_decide_eq_false_2; [reflexivity |].
  intros [x Hx]. discriminate.
Qed.

Lemma check_cache_miss (pr : ProductRequest.t) (s : State) (path : string) :
  ProductRequest.path pr = Some path ->
  fs s !! path = None ->
  check_cache pr s = (Returned (Next (pr, path)), s).
Proof.
  intros Hpath Hfile. unfold check_cache. rewrite Hpath.
  rewrite (bind_returned _ _ _ _ _ (Path_exists_missing _ _ Hfile)). reflexivity.
Qed.

(** Without DELETE and MAKE the cache is looked at and nothing more. *)
Lemma check_cache_ignored (pr : ProductRequest.t) (s : State) (path : string) :
  ProductRequest.path pr = Some path ->
  has "MAKE" (ProductRequest.actions pr) = false ->
  has "DELETE" (ProductRequest.actions pr) = false \/ fs s !! path = None ->
  check_cache pr s = (Returned (Next (pr, path)), s).
Proof.
  intros Hpath Hmake Hdelete.
  destruct (fs s !! path) as [text |] eqn:Hfile;
    [| apply check_cache_miss; assumption].
  destruct Hdelete as [Hdelete | Hnone]; [| discriminate].
  unfold check_cache. rewrite Hpath.
  rewrite (bind_returned _ _ _ _ _ (Path_exists_some _ _ _ Hfile)).
  rewrite Hdelete, Hmake. reflexivity.
Qed.

Lemma check_generator_found (pr : ProductRequest.t) (s : State) :
  is_Some (fs s !! ProductRequest.generator_path pr) ->
  check_generator pr s = (Returned (Next pr), s).
Proof.
  intros [script Hgen]. unfold check_generator.
  rewrite (bind_returned _ _ _ _ _ (Path_exists_some _ _ _ Hgen)). reflexivity.
Qed.

Lemma check_generator_missing (pr : ProductRequest.t) (s : State) :
  fs s !! ProductRequest.generator_path pr = None ->
  check_generator pr s
  = (Returned (Return (ProductRequest.set_status HTTPStatus.NOT_IMPLEMENTED
                         (ProductRequest.with_path None pr))), s).
Proof.
  intros Hgen. unfold check_generator.
  rewrite (bind_returned _ _ _ _ _ (Path_exists_missing _ _ Hgen)). reflexivity.
Qed.

(** The blocks up to the listing, one after the other. *)
Lemma listed_steps (host : Host) (self : ProductServer)
    (pr pr1 : ProductRequest.t) (path : string) (params : Env)
    (s s1 s2 s3 : State) (flow : Flow ProductRequest.t) :
  check_cache pr s = (Returned (Next (pr1, path)), s1) ->
  check_generator pr1 s1 = (Returned (Next pr1), s1) ->
  prepare pr1 path s1 = (Returned params, s2) ->
  list_inputs host self pr1 path s2 = (Returned flow, s3) ->
  listed host self pr s
  = (Returned match flow with
              | Return r => Return r
              | Next pr3 => Next (pr3, path, params)
              end, s3).
Proof.
  intros Hcache Hgen Hprep Hlist. unfold listed, and_then.
  rewrite (bind_returned _ _ _ _ _ Hcache). cbv beta iota delta [fst snd].
  rewrite (bind_returned _ _ _ _ _ Hgen). cbv beta iota.
  rewrite (bind_returned _ _ _ _ _ Hprep).
  rewrite (bind_returned _ _ _ _ _ Hlist).
  destruct flow; reflexivity.
Qed.

Lemma handle_request_returns_listed (host : Host) (self : ProductServer) (fuel : nat)
    (pr r : ProductRequest.t) (s s' : State) :
  listed host self pr s = (Returned (Return r), s') ->
  handle_request host self fuel pr s = (Returned r, s').
Proof.
  intros Hl. rewrite handle_request_unfold.
  unfold handle_request_body, resolve, and_then.
  rewrite (bind_returned _ _ _ _ _ (bind_returned _ _ _ _ _ Hl)). reflexivity.
Qed.

Lemma resolve_steps (host : Host) (self : ProductServer)
    (mk : ProductInfo -> list string -> list string -> M ProductRequest.t)
    (pr pr0 pr1 : ProductRequest.t) (path : string) (params env : Env)
    (s s0 s1 : State) :
  listed host self pr s = (Returned (Next (pr0, path, params)), s0) ->
  retrieve host mk pr0 params s0 = (Returned (pr1, env), s1) ->
  resolve host self mk pr s = (Returned (Next (pr1, path, env)), s1).
Proof.
  intros Hl Hr. unfold resolve, and_then.
  rewrite (bind_returned _ _ _ _ _ Hl). cbv beta iota delta [fst snd].
  rewrite (bind_returned _ _ _ _ _ Hr). reflexivity.
Qed.

Lemma prepare_skipped (pr : ProductRequest.t) (path : string) (s : State) :
  has "MAKE" (ProductRequest.actions pr) = false ->
  prepare pr path s = (Returned ∅, s).
Proof. intros Hmake. unfold prepare. rewrite Hmake. reflexivity. Qed.

Lemma retrieve_skipped (host : Host)
    (mk : ProductInfo -> list string -> list string -> M ProductRequest.t)
    (pr : ProductRequest.t) (params : Env) (s : State) :
  has "MAKE" (ProductRequest.actions pr) = false ->
  retrieve host mk pr params s = (Returned (pr, params), s).
Proof. intros Hmake. unfold retrieve. rewrite Hmake. reflexivity. Qed.

Lemma generate_skipped (host : Host) (pr : ProductRequest.t) (path : string)
    (params : Env) (s : State) :
  has "MAKE" (ProductRequest.actions pr) = false ->
  generate host pr path params s = (Returned pr, s).
Proof. intros Hmake. unfold generate. rewrite Hmake. reflexivity. Qed.

(** X7. A request that finds neither a file at its path nor a generator
    script comes back with status Not Implemented (501) and its path
    replaced by the empty string, whatever its actions; nothing is created
    and no process is started. The request that comes back cannot be handled
    again: the empty string has no [exists]. *)
Theorem no_generator_not_implemented (host : Host) (self : ProductServer)
    (fuel : nat) (pr : ProductRequest.t) (s : State) (path : string) :
  ProductRequest.path pr = Some path ->
  fs s !! path = None ->
  fs s !! ProductRequest.generator_path pr = None ->
  exists r,
    handle_request host self fuel pr s = (Returned r, s) /\
    ProductRequest.status r = 501 /\
    ProductRequest.path r = None /\
    ProductRequest.product r = ProductRequest.product pr /\
    forall fuel' s',
      handle_request host self fuel' r s' = (Raised (AttributeError "exists"), s').
Proof.
  intros Hpath Hfile Hgen. eexists. split; [| split; [| split; [| split]]].
  - rewrite handle_request_unfold.
    unfold handle_request_body, resolve, listed, and_then, bind.
    rewrite (check_cache_miss _ _ _ Hpath Hfile). cbv beta iota delta [fst snd].
    rewrite (check_generator_missing _ _ Hgen). reflexivity.
  - reflexivity.
  - reflexivity.
  - reflexivity.
  - intros fuel' s'. rewrite handle_request_unfold. reflexivity.
Qed.

Lemma no_generator_not_implemented_witness :
  exists r,
    handle_request Demo.host Demo.server 100 (Demo.request "test.none" ["MAKE"])
      (Demo.start Demo.installed) = (Returned r, Demo.start Demo.installed) /\
    ProductRequest.status r = 501 /\
    ProductRequest.path r = None.
Proof.
  destruct (no_generator_not_implemented Demo.host Demo.server 100
              (Demo.request "test.none" ["MAKE"]) (Demo.start Demo.installed)
              "/srv/cache/test/none/test.none.txt")
    as (r & Hrun & Hstatus & Hpath & _);
    [reflexivity | vm_compute; reflexivity | vm_compute; reflexivity |].
  exists r. auto.
Defined.

Lemma list_inputs_skipped (host : Host) (self : ProductServer)
    (pr : ProductRequest.t) (path : string) (s : State) :
  has "MAKE" (ProductRequest.actions pr) = false ->
  has "INPUTS" (ProductRequest.actions pr) = false ->
  list_inputs host self pr path s = (Returned (Next pr), s).
Proof. intros Hmake Hinputs. unfold list_inputs. rewrite Hmake, Hinputs. reflexivity. Qed.

Lemma handle_request_without_make (host : Host) (self : ProductServer) (fuel : nat)
    (pr pr0 : ProductRequest.t) (path : string) (params : Env) (s s0 : State) :
  has "MAKE" (ProductRequest.actions pr0) = false ->
  listed host self pr s = (Returned (Next (pr0, path, params)), s0) ->
  handle_request host self fuel pr s = (Returned pr0, s0).
Proof.
  intros Hmake Hl.
  rewrite (handle_request_generates host self fuel pr pr0 path params s s0).
  - apply generate_skipped. exact Hmake.
  - apply (resolve_steps _ _ _ _ _ _ _ _ _ _ _ _ Hl).
    apply retrieve_skipped. exact Hmake.
Qed.

(** X8. A request with neither MAKE nor INPUTS among its actions, and either
    without DELETE or with no file at its path, whose generator script is in
    place, comes back exactly as it was given, status included, and the
    state is left as found: DELETE of a file that is not there deletes
    nothing, raises nothing and reports nothing. *)
Theorem nothing_to_do (host : Host) (self : ProductServer) (fuel : nat)
    (pr : ProductRequest.t) (s : State) (path : string) :
  ProductRequest.path pr = Some path ->
  has "MAKE" (ProductRequest.actions pr) = false ->
  has "INPUTS" (ProductRequest.actions pr) = false ->
  has "DELETE" (ProductRequest.actions pr) = false \/ fs s !! path = None ->
  is_Some (fs s !! ProductRequest.generator_path pr) ->
  handle_request host self fuel pr s = (Returned pr, s).
Proof.
  intros Hpath Hmake Hinputs Hdelete Hgen.
  apply (handle_request_without_make host self fuel pr pr path ∅ s s Hmake).
  apply (listed_steps host self pr pr path ∅ s s s s (Next pr)).
  - apply check_cache_ignored; assumption.
  - apply check_generator_found. exact Hgen.
  - apply prepare_skipped. exact Hmake.
  - apply list_inputs_skipped; assumption.
Qed.

Lemma nothing_to_do_witness :
  handle_request Demo.host Demo.server 100 Demo.delete_request
    (Demo.start Demo.installed)
  = (Returned Demo.delete_request, Demo.start Demo.installed) /\
  ProductRequest.status Demo.delete_request = 204.
Proof.
  split; [| reflexivity].
  apply (nothing_to_do Demo.host Demo.server 100 Demo.delete_request
           (Demo.start Demo.installed) Demo.gen_artifact);
    [reflexivity | reflexivity | reflexivity
    | right; vm_compute; reflexivity | vm_compute; eauto].
Defined.

(** X9. A request for INPUTS alone, whose generator script is in place and
    whose listing comes back with exit code 0, returns with the listing as
    its inputs and its status as it was; no placeholder is made, no
    generator started: the state is the one the listing left. *)
Theorem inputs_only_lists (host : Host) (self : ProductServer) (fuel : nat)
    (pr : ProductRequest.t) (s s1 : State) (path : string) (input_info : InputInfo.t) :
  ProductRequest.path pr = Some path ->
  has "MAKE" (ProductRequest.actions pr) = false ->
  has "DELETE" (ProductRequest.actions pr) = false ->
  has "INPUTS" (ProductRequest.actions pr) = true ->
  is_Some (fs s !! ProductRequest.generator_path pr) ->
  get_input_list host self (ProductRequest.product_info pr)
    (ProductRequest.directives pr) s = (Returned input_info, s1) ->
  InputInfo.returncode input_info = 0 ->
  handle_request host self fuel pr s
  = (Returned (ProductRequest.with_inputs (InputInfo.inputs input_info) pr), s1) /\
  ProductRequest.status (ProductRequest.with_inputs (InputInfo.inputs input_info) pr)
  = ProductRequest.status pr.
Proof.
  intros Hpath Hmake Hdelete Hinputs Hgen Hlist Hcode. split; [| reflexivity].
  apply (handle_request_without_make host self fuel pr _ path ∅ s s1); [exact Hmake |].
  apply (listed_steps host self pr pr path ∅ s s s s1
           (Next (ProductRequest.with_inputs (InputInfo.inputs input_info) pr))).
  - apply check_cache_ignored; auto.
  - apply check_generator_found. exact Hgen.
  - apply prepare_skipped. exact Hmake.
  - unfold list_inputs. rewrite Hmake, Hinputs. cbn [orb].
    rewrite (bind_returned _ _ _ _ _ Hlist). rewrite Hcode. reflexivity.
Qed.

Lemma inputs_only_lists_witness :
  handle_request Demo.host Demo.server 100 Demo2.mix_inputs_request
    (Demo.start Demo.installed)
  = (Returned (ProductRequest.with_inputs (InputInfo.inputs Demo2.mix_info)
                 Demo2.mix_inputs_request), Demo2.mix_listed) /\
  InputInfo.inputs Demo2.mix_info = [("a", "test.gen"); ("b", "test.none")] /\
  fs Demo2.mix_listed = Demo.installed.
Proof.
  split; [| split; vm_refl].
  apply (inputs_only_lists Demo.host Demo.server 100 Demo2.mix_inputs_request
           (Demo.start Demo.installed) Demo2.mix_listed
           "/srv/cache/test/mix/test.mix.txt" Demo2.mix_info);
    [reflexivity | reflexivity | reflexivity | reflexivity
    | vm_compute; eauto | vm_refl | reflexivity].
Defined.

(** X10. A request for INPUTS alone whose listing is reported as failed
    unlinks the file at its path although it never made a placeholder: an
    artifact in the cache is deleted and the request comes back with status
    Conflict (409); with no file there, FileNotFoundError escapes. *)
Theorem inputs_only_failure_unlinks (host : Host) (self : ProductServer) (fuel : nat)
    (pr : ProductRequest.t) (s s1 : State) (path : string) (input_info : InputInfo.t) :
  ProductRequest.path pr = Some path ->
  has "MAKE" (ProductRequest.actions pr) = false ->
  has "DELETE" (ProductRequest.actions pr) = false ->
  has "INPUTS" (ProductRequest.actions pr) = true ->
  is_Some (fs s !! ProductRequest.generator_path pr) ->
  get_input_list host self (ProductRequest.product_info pr)
    (ProductRequest.directives pr) s = (Returned input_info, s1) ->
  InputInfo.returncode input_info <> 0 ->
  (forall text, fs s1 !! path = Some text ->
     handle_request host self fuel pr s
     = (Returned (ProductRequest.set_status HTTPStatus.CONFLICT pr),
        without_file path s1) /\
     fs (without_file path s1) !! path = None) /\
  (fs s1 !! path = None ->
     handle_request host self fuel pr s = (Raised (FileNotFoundError path), s1)).
Proof.
  intros Hpath Hmake Hdelete Hinputs Hgen Hlist Hcode.
  assert (Hcache : check_cache pr s = (Returned (Next (pr, path)), s))
    by (apply check_cache_ignored; auto).
  pose proof (check_generator_found pr s Hgen) as Hfound.
  pose proof (prepare_skipped pr path s Hmake) as Hprep.
  split.
  - intros text Hfile. split; [| apply lookup_delete_eq].
    apply handle_request_returns_listed.
    apply (listed_steps host self pr pr path ∅ s s s _
             (Return (ProductRequest.set_status HTTPStatus.CONFLICT pr))
             Hcache Hfound Hprep).
    apply (list_inputs_failed host self pr path text s s1 input_info);
      [rewrite Hinputs; apply orb_true_r | exact Hlist | exact Hcode | exact Hfile].
  - intros Hfile. rewrite handle_request_unfold.
    unfold handle_request_body, resolve, listed, and_then, bind.
    rewrite Hcache. cbv beta iota delta [fst snd].
    rewrite Hfound, Hprep.
    unfold list_inputs, bind. rewrite Hmake, Hinputs. cbn [orb].
    rewrite Hlist. apply Z.eqb_neq in Hcode. rewrite Hcode.
    unfold Path_unlink, bind, get_fs. rewrite Hfile. reflexivity.
Qed.

Lemma inputs_only_failure_unlinks_witness :
  handle_request Demo.host Demo.server 100 Demo2.gone_inputs_request Demo2.gone_state
  = (Returned (ProductRequest.set_status HTTPStatus.CONFLICT Demo2.gone_inputs_request),
     without_file Demo2.gone_artifact Demo2.gone_listed) /\
  fs (without_file Demo2.gone_artifact Demo2.gone_listed) !! Demo2.gone_artifact = None.
Proof.
  destruct (inputs_only_failure_unlinks Demo.host Demo.server 100
              Demo2.gone_inputs_request Demo2.gone_state Demo2.gone_listed
              Demo2.gone_artifact Demo2.gone_info) as [Hthere _];
    [reflexivity | reflexivity | reflexivity | reflexivity
    | vm_compute; eauto | vm_refl | discriminate |].
  apply (Hthere "old"). vm_compute. reflexivity.
Defined.

(** ** The listing, again *)

(** X11. A listing script that exits with 0 and has written nothing to its
    standard output makes [get_input_list] raise TypeError: the output is
    still the empty [bytes] object, which [split] with a [str] separator
    refuses. The script has run; nothing is returned. What it wrote to its
    standard error, when that is captured, is taken to be ASCII text. *)
Theorem silent_listing_raises (host : Host) (self : ProductServer)
    (product_info : ProductInfo) (directives : list string) (s : State)
    (e : Exit) (f2 : FS) :
  is_Some (fs s !! InputInfo.script (InputInfo_new host self product_info)) ->
  shell host (listing_cmd host self product_info) (fs s) = (e, f2) ->
  exit_code e = 0 ->
  exit_out e = "" ->
  (server_stderr self = PIPE -> Utf8.is_ascii (exit_err e) = true) ->
  get_input_list host self product_info directives s
  = (Raised TypeError, after_child (listing_cmd host self product_info) f2 s).
Proof.
  intros [script Hscript] Hsh Hcode Hout Herr. unfold get_input_list.
  rewrite (bind_returned _ _ _ _ _ (Path_exists_some _ _ _ Hscript)). cbn [negb].
  fold (listing_cmd host self product_info).
  rewrite (bind_returned _ _ _ _ _ (subprocess_Popen_run _ _ _ _ _ Hsh)).
  assert (Hstderr :
            forall st,
              decode_if_any (p_stderr (finished (listing_cmd host self product_info) e)) st
              = (Returned
                   match p_stderr (finished (listing_cmd host self product_info) e) with
                   | Some b => if negb (String.eqb b "") then PyStr b else PyBytes b
                   | None => PyNone
                   end, st)).
  { intros st. apply decode_if_any_valid.
    cbn [finished p_stderr listing_cmd cmd_stderr].
    destruct (server_stderr self); try exact I.
    apply is_ascii_valid. apply Herr. reflexivity. }
  unfold run_process, bind, ret. cbn [finished p_stdout p_returncode].
  rewrite Hout, Hcode. cbn [String.eqb negb]. rewrite Hstderr. reflexivity.
Qed.

Lemma silent_listing_raises_witness :
  get_input_list Demo2.host Demo.server (Demo.info "test.mute") []
    (Demo.start Demo2.installed)
  = (Raised TypeError,
     after_child (listing_cmd Demo2.host Demo.server (Demo.info "test.mute"))
       Demo2.installed (Demo.start Demo2.installed)).
Proof.
  apply (silent_listing_raises Demo2.host Demo.server (Demo.info "test.mute") []
           (Demo.start Demo2.installed) (Demo.exits 0 "") Demo2.installed);
    [vm_compute; eauto | vm_refl | reflexivity | reflexivity
    | intros _; reflexivity].
Defined.

(** When there is no listing script, the listing is empty and nothing is
    run. *)
Lemma get_input_list_no_script (host : Host) (self : ProductServer)
    (product_info : ProductInfo) (directives : list string) (s : State) :
  fs s !! InputInfo.script (InputInfo_new host self product_info) = None ->
  get_input_list host self product_info directives s
  = (Returned (InputInfo_new host self product_info), s).
Proof.
  intros Hscript. unfold get_input_list.
  rewrite (bind_returned _ _ _ _ _ (Path_exists_missing _ _ Hscript)). reflexivity.
Qed.

Lemma Path_touch_missing (p : string) (s : State) :
  fs s !! p = None -> Path_touch p s = (Returned tt, with_fs (<[p := ""]> (fs s)) s).
Proof. intros Hp. unfold Path_touch, bind, get_fs. rewrite Hp. reflexivity. Qed.

(** X12. A MAKE request that finds no file at its path, has a generator
    script and no listing script: the handler makes the empty placeholder,
    starts no process before the generator, and runs the generation with an
    empty input map and an environment that is the parameters of the
    descriptor with OUTDIR, OUTFILE and an empty INPUTKEYS. *)
Theorem make_without_listing (host : Host) (self : ProductServer) (fuel : nat)
    (pr : ProductRequest.t) (s : State) (path : string) :
  ProductRequest.path pr = Some path ->
  fs s !! path = None ->
  has "MAKE" (ProductRequest.actions pr) = true ->
  is_Some (fs s !! ProductRequest.generator_path pr) ->
  fs s !! InputInfo.script (InputInfo_new host self (ProductRequest.product_info pr))
  = None ->
  InputInfo.script (InputInfo_new host self (ProductRequest.product_info pr)) <> path ->
  let s1 := with_fs (<[path := ""]> (fs s)) s in
  handle_request host self fuel pr s
  = generate host (ProductRequest.with_inputs [] pr) path (bare_env pr path) s1 /\
  fs s1 !! path = Some "" /\
  trace s1 = trace s.
Proof.
  intros Hpath Hfile Hmake Hgen Hscript Hne s1.
  split; [| split; [apply lookup_insert_eq | reflexivity]].
  apply handle_request_generates.
  apply (resolve_steps host self _ pr (ProductRequest.with_inputs [] pr) _ path
           (<["OUTFILE" := Path.name path]>
              (<["OUTDIR" := Path.parent (ProductRequest.path_tmp pr)]>
                 (get_param_env (ProductRequest.product_info pr)))) _ s s1 s1).
  - apply (listed_steps host self pr pr path _ s s s1 s1
             (Next (ProductRequest.with_inputs [] pr))).
    + apply check_cache_miss; assumption.
    + apply check_generator_found. exact Hgen.
    + unfold prepare. rewrite Hmake. unfold ensure_output_dir.
      unfold bind at 1 2. unfold ret at 1 2.
      rewrite (bind_returned _ _ _ _ _ (Path_touch_missing _ _ Hfile)). reflexivity.
    + assert (Hscript1 : fs s1 !! InputInfo.script
                             (InputInfo_new host self (ProductRequest.product_info pr))
                         = None).
      { unfold s1. cbn [fs with_fs]. rewrite lookup_insert_ne; [exact Hscript |].
        intros Heq. apply Hne. symmetry. exact Heq. }
      unfold list_inputs. rewrite Hmake. cbn [orb].
      rewrite (bind_returned _ _ _ _ _
                 (get_input_list_no_script host self _ _ s1 Hscript1)).
      reflexivity.
  - unfold retrieve. cbn [ProductRequest.actions ProductRequest.with_inputs].
    rewrite Hmake. reflexivity.
Qed.

Lemma make_without_listing_witness :
  handle_request Demo.host Demo.server 100 Demo.gen_request (Demo.start Demo.installed)
  = generate Demo.host (ProductRequest.with_inputs [] Demo.gen_request)
      Demo.gen_artifact (bare_env Demo.gen_request Demo.gen_artifact)
      (with_fs (<[Demo.gen_artifact := ""]> (fs (Demo.start Demo.installed)))
         (Demo.start Demo.installed)).
Proof.
  apply (make_without_listing Demo.host Demo.server 100 Demo.gen_request
           (Demo.start Demo.installed) Demo.gen_artifact);
    [reflexivity | vm_compute; reflexivity | reflexivity | vm_compute; eauto
    | vm_compute; reflexivity | vm_compute; discriminate].
Defined.

(** ** A generation that succeeds *)

(** [run_process] on a request, for a child that exited with 0 and whose
    output decodes. *)
Lemma run_process_request_ok (host : Host) (p : Popen) (pr : ProductRequest.t)
    (s : State) :
  p_returncode p = 0 ->
  decodes p ->
  run_process host (Some p) pr s
  = (Returned
       (ProductRequest.with_stderr
          match p_stderr p with
          | Some b => if negb (String.eqb b "") then PyStr b else PyBytes b
          | None => PyNone
          end
          (ProductRequest.with_stdout
             (if negb (String.eqb (p_stdout p) "") then PyStr (p_stdout p)
              else PyBytes (p_stdout p))
             (ProductRequest.with_returncode 0 pr))), s).
Proof.
  intros Hcode [Hout Herr].
  pose proof (fun st => decode_if_any_valid (p_stderr p) st Herr) as Hstderr.
  unfold run_process, decode, bind, ret.
  cbn [task_set_returncode task_set_stdout task_set_stderr ProductRequest_Task].
  rewrite Hcode, Hout. cbn [Z.eqb negb].
  destruct (negb (String.eqb (p_stdout p) "")); rewrite Hstderr; reflexivity.
Qed.

(** Up to the move of the temporary file. *)
Lemma generate_publishes (host : Host) (pr : ProductRequest.t) (path : string)
    (params : Env) (s : State) (e : Exit) (f2 : FS) (text : string) :
  has "MAKE" (ProductRequest.actions pr) = true ->
  shell host (generator_cmd pr params) (fs s) = (e, f2) ->
  exit_code e = 0 ->
  Utf8.valid (exit_out e) = true ->
  f2 !! ProductRequest.path_tmp pr = Some text ->
  text <> "" ->
  let r := ProductRequest.set_status HTTPStatus.OK (generated host pr params e) in
  generate host pr path params s
  = (do! apply_links host r path in do! save_log r path in ret r)
      (after_child (generator_cmd pr params)
         (published path (ProductRequest.path_tmp pr) text f2) s).
Proof.
  intros Hmake Hsh Hcode Hvalid Htmp Hne r.
  assert (Hsize : (Z.of_nat (String.length text) =? 0) = false).
  { apply Z.eqb_neq. destruct text; [congruence | cbn; lia]. }
  assert (Hmove : Path_replace (ProductRequest.path_tmp pr) path
                    (after_child (generator_cmd pr params) f2 s)
                  = (Returned tt,
                     after_child (generator_cmd pr params)
                       (published path (ProductRequest.path_tmp pr) text f2) s)).
  { unfold Path_replace, bind, get_fs. cbn [fs after_child]. rewrite Htmp. reflexivity. }
  assert (Hgen : run_generator host pr path params s
                 = (Returned (generated host pr params e, 0),
                    after_child (generator_cmd pr params) f2 s)).
  { unfold run_generator, bind.
    rewrite (subprocess_Popen_run _ _ _ _ _ Hsh).
    rewrite (run_process_request_ok host (finished (generator_cmd pr params) e) pr _
               Hcode (generator_decodes pr params e Hvalid)).
    cbn [finished p_returncode]. rewrite Hcode. reflexivity. }
  unfold generate. rewrite Hmake.
  rewrite (bind_returned _ _ _ _ _ Hgen). cbn [fst].
  change (ProductRequest.returncode (generated host pr params e)) with 0.
  cbn [Z.eqb negb].
  change (ProductRequest.path_tmp (generated host pr params e))
    with (ProductRequest.path_tmp pr).
  rewrite (bind_returned _ _ _ _ _
             (Path_st_size_some (ProductRequest.path_tmp pr) text
                (after_child (generator_cmd pr params) f2 s) Htmp)).
  rewrite Hsize.
  rewrite (bind_returned _ _ _ _ _ Hmove). reflexivity.
Qed.

Lemma with_fs_same (s : State) : with_fs (fs s) s = s.
Proof. destruct s. reflexivity. Qed.

(** The directives end without an exception, whatever [nutils.symlink]
    does, and touch the store only. *)
Lemma apply_links_returns (host : Host) (pr : ProductRequest.t) (path : string)
    (s : State) :
  exists f, apply_links host pr path s = (Returned tt, with_fs f s).
Proof.
  unfold apply_links, call_symlink, ensure_output_dir, bind, ret, get_fs, put_fs,
    with_fs.
  destruct s as [f0 n tr].
  destruct (has "LINK" (ProductRequest.directives pr)); cbn [fs counter trace].
  - destruct (symlink host (ProductRequest.path_static pr) path None f0)
      as [f1 linked]. cbn [fs counter trace].
    destruct linked; cbn [fs counter trace].
    + destruct (has "LATEST" (ProductRequest.directives pr)); cbn [fs counter trace].
      * destruct (symlink host (ProductRequest.path_latest pr) path (Some true) f1)
          as [f2 latest]. exists f2. reflexivity.
      * exists f1. reflexivity.
    + exists f1. reflexivity.
  - destruct (has "LATEST" (ProductRequest.directives pr)); cbn [fs counter trace].
    + destruct (symlink host (ProductRequest.path_latest pr) path (Some true) f0)
        as [f2 latest]. exists f2. reflexivity.
    + exists f0. reflexivity.
Qed.

Lemma save_log_returns (pr : ProductRequest.t) (path : string) (s : State) :
  exists f, save_log pr path s = (Returned tt, with_fs f s).
Proof.
  unfold save_log, Path_write_text, bind, ret, get_fs, put_fs.
  destruct (has "DEBUG" _ || has "LOG" _).
  - destruct (ProductRequest.stdout pr); eexists; try reflexivity;
      rewrite with_fs_same; reflexivity.
  - exists (fs s). rewrite with_fs_same. reflexivity.
Qed.

(** X13. When the generator exits with 0, having written ASCII text or
    nothing to its output, and leaves a temporary file that is not empty,
    the request comes back with status OK (200) and return code 0 whatever
    its directives are and whether or not linking raised: the directives
    cannot fail a request. One process was started, the
    generator. The product of the request is not set: it stays as it was. *)
Theorem directives_are_advisory (host : Host) (pr : ProductRequest.t) (path : string)
    (params : Env) (s : State) (e : Exit) (f2 : FS) (text : string) :
  has "MAKE" (ProductRequest.actions pr) = true ->
  shell host (generator_cmd pr params) (fs s) = (e, f2) ->
  exit_code e = 0 ->
  Utf8.is_ascii (exit_out e) = true ->
  f2 !! ProductRequest.path_tmp pr = Some text ->
  text <> "" ->
  exists r s2,
    generate host pr path params s = (Returned r, s2) /\
    ProductRequest.status r = 200 /\
    ProductRequest.returncode r = 0 /\
    ProductRequest.product r = ProductRequest.product pr /\
    ProductRequest.path r = ProductRequest.path pr /\
    trace s2 = (trace s ++ [EvPopen (generator_cmd pr params)])%list /\
    counter s2 = counter s.
Proof.
  intros Hmake Hsh Hcode Hascii Htmp Hne.
  rewrite (generate_publishes host pr path params s e f2 text Hmake Hsh Hcode
             (is_ascii_valid _ Hascii) Htmp Hne).
  set (r := ProductRequest.set_status HTTPStatus.OK (generated host pr params e)).
  set (s1 := after_child _ _ s).
  destruct (apply_links_returns host r path s1) as [f3 Hlinks].
  destruct (save_log_returns r path (with_fs f3 s1)) as [f4 Hlog].
  rewrite (bind_returned _ _ _ _ _ Hlinks).
  rewrite (bind_returned _ _ _ _ _ Hlog).
  exists r. eexists. split; [reflexivity |]. repeat split.
Qed.

Lemma directives_are_advisory_witness :
  exists r s2,
    generate Demo2.no_links Demo2.linked_request Demo.gen_artifact Demo2.gen_env
      Demo2.gen_placed = (Returned r, s2) /\
    ProductRequest.status r = 200 /\
    ProductRequest.returncode r = 0.
Proof.
  destruct (directives_are_advisory Demo2.no_links Demo2.linked_request
              Demo.gen_artifact Demo2.gen_env Demo2.gen_placed (Demo.exits 0 "")
              Demo2.gen_written "hello")
    as (r & s2 & Hrun & Hstatus & Hcode & _);
    [reflexivity | vm_refl | reflexivity | reflexivity | vm_compute; reflexivity
    | discriminate |].
  exists r, s2. auto.
Defined.

(** X14. The same generation (exit code 0, ASCII text or nothing written
    to the output, a temporary file that is not empty) for a request without
    LINK, LATEST, DEBUG and LOG, whose temporary path is not its path: the
    temporary file replaces the file at the path, which then holds what the
    generator wrote, and is gone itself; nothing else in the store the
    generator left is changed. *)
Theorem publish_on_success (host : Host) (pr : ProductRequest.t) (path : string)
    (params : Env) (s : State) (e : Exit) (f2 : FS) (text : string) :
  has "MAKE" (ProductRequest.actions pr) = true ->
  shell host (generator_cmd pr params) (fs s) = (e, f2) ->
  exit_code e = 0 ->
  Utf8.is_ascii (exit_out e) = true ->
  f2 !! ProductRequest.path_tmp pr = Some text ->
  text <> "" ->
  path <> ProductRequest.path_tmp pr ->
  has "LINK" (ProductRequest.directives pr) = false ->
  has "LATEST" (ProductRequest.directives pr) = false ->
  has "DEBUG" (ProductRequest.directives pr) = false ->
  has "LOG" (ProductRequest.directives pr) = false ->
  exists r s2,
    generate host pr path params s = (Returned r, s2) /\
    ProductRequest.status r = 200 /\
    fs s2 = published path (ProductRequest.path_tmp pr) text f2 /\
    fs s2 !! path = Some text /\
    fs s2 !! ProductRequest.path_tmp pr = None /\
    (forall p, p <> path -> p <> ProductRequest.path_tmp pr -> fs s2 !! p = f2 !! p).
Proof.
  intros Hmake Hsh Hcode Hascii Htmp Hne Hapart Hlink Hlatest Hdebug Hlog.
  rewrite (generate_publishes host pr path params s e f2 text Hmake Hsh Hcode
             (is_ascii_valid _ Hascii) Htmp Hne).
  unfold apply_links, save_log.
  cbn [ProductRequest.directives ProductRequest.set_status generated
       ProductRequest.with_stderr ProductRequest.with_stdout
       ProductRequest.with_returncode].
  rewrite Hlink, Hlatest, Hdebug, Hlog.
  do 2 eexists. split; [reflexivity |]. split; [reflexivity |].
  cbn [fs after_child]. split; [reflexivity |]. unfold published.
  split; [apply lookup_insert_eq |]. split.
  - rewrite lookup_insert_ne by exact Hapart. apply lookup_delete_eq.
  - intros p Hp Htmp'. rewrite lookup_insert_ne by congruence.
    apply lookup_delete_ne. congruence.
Qed.

Lemma publish_on_success_witness :
  exists r s2,
    generate Demo2.host Demo.gen_request Demo.gen_artifact Demo2.gen_env
      Demo2.gen_placed = (Returned r, s2) /\
    ProductRequest.status r = 200 /\
    fs s2 !! Demo.gen_artifact = Some "hello" /\
    fs s2 !! ProductRequest.path_tmp Demo.gen_request = None.
Proof.
  destruct (publish_on_success Demo2.host Demo.gen_request Demo.gen_artifact
              Demo2.gen_env Demo2.gen_placed (Demo.exits 0 "") Demo2.gen_written
              "hello")
    as (r & s2 & Hrun & Hstatus & _ & Hfile & Htmp & _);
    [reflexivity | vm_refl | reflexivity | reflexivity | vm_compute; reflexivity
    | discriminate | discriminate | reflexivity | reflexivity | reflexivity | reflexivity |].
  exists r, s2. auto.
Defined.

(** X15. After a generation that succeeded (exit code 0, ASCII text or
    nothing written to the output, a temporary file that is not empty), both
    links are made inside one [try]: when the link for LINK raises, the link
    for LATEST is not attempted even if it is asked for, and the request
    still comes back with status OK; when it returns, the link for LATEST is
    made on the store the first left. *)
Theorem link_failure_skips_latest (host : Host) (pr : ProductRequest.t) (path : string)
    (params : Env) (s : State) (e : Exit) (f2 f3 : FS) (text : string) (linked : bool) :
  has "MAKE" (ProductRequest.actions pr) = true ->
  shell host (generator_cmd pr params) (fs s) = (e, f2) ->
  exit_code e = 0 ->
  Utf8.is_ascii (exit_out e) = true ->
  f2 !! ProductRequest.path_tmp pr = Some text ->
  text <> "" ->
  has "LINK" (ProductRequest.directives pr) = true ->
  has "LATEST" (ProductRequest.directives pr) = true ->
  has "DEBUG" (ProductRequest.directives pr) = false ->
  has "LOG" (ProductRequest.directives pr) = false ->
  symlink host (ProductRequest.path_static pr) path None
    (published path (ProductRequest.path_tmp pr) text f2) = (f3, linked) ->
  exists r s2,
    generate host pr path params s = (Returned r, s2) /\
    ProductRequest.status r = 200 /\
    fs s2 = if linked
            then fst (symlink host (ProductRequest.path_latest pr) path (Some true) f3)
            else f3.
Proof.
  intros Hmake Hsh Hcode Hascii Htmp Hne Hlink Hlatest Hdebug Hlog Hsym.
  rewrite (generate_publishes host pr path params s e f2 text Hmake Hsh Hcode
             (is_ascii_valid _ Hascii) Htmp Hne).
  unfold apply_links, save_log, call_symlink, ensure_output_dir, bind, ret,
    get_fs, put_fs, after_child.
  cbn [ProductRequest.directives ProductRequest.set_status generated
       ProductRequest.with_stderr ProductRequest.with_stdout
       ProductRequest.with_returncode ProductRequest.path_static
       ProductRequest.path_latest fs counter trace].
  rewrite Hlink, Hlatest, Hdebug, Hlog. cbn [fs counter trace orb].
  rewrite Hsym. cbn [fs counter trace].
  destruct linked; cbn [fs counter trace].
  - destruct (symlink host (ProductRequest.path_latest pr) path (Some true) f3)
      as [f4 latest]. do 2 eexists. split; [reflexivity |]. split; reflexivity.
  - do 2 eexists. split; [reflexivity |]. split; reflexivity.
Qed.

Lemma link_failure_skips_latest_witness :
  exists r s2,
    generate Demo2.no_links (Demo2.request "test.gen" ["MAKE"] ["LINK"; "LATEST"])
      Demo.gen_artifact Demo2.gen_env Demo2.gen_placed = (Returned r, s2) /\
    ProductRequest.status r = 200 /\
    fs s2 = Demo2.gen_published.
Proof.
  destruct (link_failure_skips_latest Demo2.no_links
              (Demo2.request "test.gen" ["MAKE"] ["LINK"; "LATEST"])
              Demo.gen_artifact Demo2.gen_env Demo2.gen_placed (Demo.exits 0 "")
              Demo2.gen_written Demo2.gen_published "hello" false)
    as (r & s2 & Hrun & Hstatus & Hfs);
    [reflexivity | vm_refl | reflexivity | reflexivity | vm_compute; reflexivity
    | discriminate | reflexivity | reflexivity | reflexivity | reflexivity | vm_refl |].
  exists r, s2. auto.
Defined.

(** ** Requests that make nothing *)

Lemma without_file_missing (path : string) (s : State) :
  fs s !! path = None -> without_file path s = s.
Proof.
  intros Hfile. destruct s as [f n tr]. unfold without_file. cbn [fs counter trace] in *.
  rewrite (delete_id f path Hfile). reflexivity.
Qed.

(** After the look at the cache, a request with neither MAKE nor INPUTS has
    only the check for the generator left. *)
Lemma handle_request_after_cache (host : Host) (self : ProductServer) (fuel : nat)
    (pr pr1 : ProductRequest.t) (path : string) (s s1 : State) :
  check_cache pr s = (Returned (Next (pr1, path)), s1) ->
  has "MAKE" (ProductRequest.actions pr1) = false ->
  has "INPUTS" (ProductRequest.actions pr1) = false ->
  handle_request host self fuel pr s
  = (Returned (if bool_decide (is_Some (fs s1 !! ProductRequest.generator_path pr1))
               then pr1
               else ProductRequest.set_status HTTPStatus.NOT_IMPLEMENTED
                      (ProductRequest.with_path None pr1)), s1).
Proof.
  intros Hcache Hmake Hinputs.
  destruct (fs s1 !! ProductRequest.generator_path pr1) as [script |] eqn:Hgen.
  - rewrite bool_decide_eq_true_2 by eauto.
    apply (handle_request_without_make host self fuel pr pr1 path ∅ s s1 Hmake).
    apply (listed_steps host self pr pr1 path ∅ s s1 s1 s1 (Next pr1) Hcache).
    + apply check_generator_found. eauto.
    + apply prepare_skipped. exact Hmake.
    + apply list_inputs_skipped; assumption.
  - rewrite bool_decide_eq_false_2 by (intros [x Hx]; discriminate).
    rewrite handle_request_unfold.
    unfold handle_request_body, resolve, listed, and_then, bind.
    rewrite Hcache. cbv beta iota delta [fst snd].
    rewrite (check_generator_missing _ _ Hgen). reflexivity.
Qed.

(** X16. A request with neither MAKE nor INPUTS among its actions always
    returns: it raises nothing, starts no process and builds no request,
    whether or not there is a file at its path or a generator script. With
    DELETE the store it leaves is the store it found without the file at its
    path, else the store it found. Its status is Not Implemented (501) when
    the generator script is missing (checked after the deletion), else
    Accepted (202) when a file was deleted, else as it was. *)
Theorem delete_alone_always_returns (host : Host) (self : ProductServer) (fuel : nat)
    (pr : ProductRequest.t) (s : State) (path : string) :
  ProductRequest.path pr = Some path ->
  has "MAKE" (ProductRequest.actions pr) = false ->
  has "INPUTS" (ProductRequest.actions pr) = false ->
  let s' := if has "DELETE" (ProductRequest.actions pr) then without_file path s else s in
  exists r,
    handle_request host self fuel pr s = (Returned r, s') /\
    trace s' = trace s /\
    counter s' = counter s /\
    (forall p, p <> path -> fs s' !! p = fs s !! p) /\
    (has "DELETE" (ProductRequest.actions pr) = true -> fs s' !! path = None) /\
    ProductRequest.status r
    = if bool_decide (is_Some (fs s' !! ProductRequest.generator_path pr))
      then if has "DELETE" (ProductRequest.actions pr)
                && bool_decide (is_Some (fs s !! path))
           then HTTPStatus.ACCEPTED
           else ProductRequest.status pr
      else HTTPStatus.NOT_IMPLEMENTED.
Proof.
  intros Hpath Hmake Hinputs s'.
  assert (Hframe : trace s' = trace s /\ counter s' = counter s /\
                   (forall p, p <> path -> fs s' !! p = fs s !! p) /\
                   (has "DELETE" (ProductRequest.actions pr) = true ->
                    fs s' !! path = None)).
  { unfold s'. destruct (has "DELETE" (ProductRequest.actions pr)).
    - split; [reflexivity |]. split; [reflexivity |]. split.
      + intros p Hp. cbn [fs without_file]. apply lookup_delete_ne. congruence.
      + intros _. apply lookup_delete_eq.
    - split; [reflexivity |]. split; [reflexivity |]. split; [reflexivity |].
      discriminate. }
  destruct Hframe as (Htrace & Hcounter & Hothers & Hgone).
  assert (Hrun : exists pr1,
             handle_request host self fuel pr s
             = (Returned (if bool_decide
                               (is_Some (fs s' !! ProductRequest.generator_path pr1))
                          then pr1
                          else ProductRequest.set_status HTTPStatus.NOT_IMPLEMENTED
                                 (ProductRequest.with_path None pr1)), s') /\
             ProductRequest.generator_path pr1 = ProductRequest.generator_path pr /\
             ProductRequest.status pr1
             = if has "DELETE" (ProductRequest.actions pr)
                  && bool_decide (is_Some (fs s !! path))
               then HTTPStatus.ACCEPTED
               else ProductRequest.status pr).
  { destruct (fs s !! path) as [text |] eqn:Hfile.
    - destruct (has "DELETE" (ProductRequest.actions pr)) eqn:Hdelete.
      + exists (ProductRequest.set_status HTTPStatus.ACCEPTED pr).
        split; [| split; [reflexivity |]].
        * apply (handle_request_after_cache host self fuel pr
                   (ProductRequest.set_status HTTPStatus.ACCEPTED pr) path s s');
            [apply (check_cache_delete pr s path text); assumption
            | exact Hmake | exact Hinputs].
        * rewrite bool_decide_eq_true_2 by eauto. reflexivity.
      + exists pr. split; [| split; reflexivity].
        apply (handle_request_after_cache host self fuel pr pr path s s');
          [apply check_cache_ignored; auto | exact Hmake | exact Hinputs].
    - assert (Hsame : s' = s).
      { unfold s'. destruct (has "DELETE" (ProductRequest.actions pr));
          [apply without_file_missing; exact Hfile | reflexivity]. }
      exists pr. split; [| split; [reflexivity |]].
      + rewrite Hsame.
        apply (handle_request_after_cache host self fuel pr pr path s s);
          [apply check_cache_miss; assumption | exact Hmake | exact Hinputs].
      + rewrite bool_decide_eq_false_2 by (intros [x Hx]; discriminate).
        rewrite andb_false_r. reflexivity. }
  destruct Hrun as (pr1 & Hrun & Hgen & Hstatus).
  eexists. split; [exact Hrun |].
  split; [exact Htrace |]. split; [exact Hcounter |].
  split; [exact Hothers |]. split; [exact Hgone |].
  rewrite Hgen.
  destruct (bool_decide (is_Some (fs s' !! ProductRequest.generator_path pr)));
    [exact Hstatus | reflexivity].
Qed.

Lemma delete_alone_always_returns_witness :
  exists r,
    handle_request Demo.host Demo.server 100 Demo.delete_request Demo.stale_state
    = (Returned r, without_file Demo.gen_artifact Demo.stale_state) /\
    ProductRequest.status r = 202.
Proof.
  destruct (delete_alone_always_returns Demo.host Demo.server 100 Demo.delete_request
              Demo.stale_state Demo.gen_artifact)
    as (r & Hrun & _ & _ & _ & _ & Hstatus); [reflexivity | reflexivity | reflexivity |].
  exists r. split; [exact Hrun |]. rewrite Hstatus. vm_compute. reflexivity.
Defined.

(** How a sequence ends: its first part raised, or returned and the rest
    ran. *)
Lemma bind_cases {A B} (m : M A) (k : A -> M B) (s s' : State) (o : Outcome B) :
  bind m k s = (o, s') ->
  (exists a s1, m s = (Returned a, s1) /\ k a s1 = (o, s')) \/
  (exists e, m s = (Raised e, s') /\ o = Raised e).
Proof.
  unfold bind. destruct (m s) as [[a | e] s1]; intros H.
  - left. eauto.
  - right. injection H as <- <-. eauto.
Qed.

(** The listing starts at most one process, its script. *)
Lemma get_input_list_trace (host : Host) (self : ProductServer)
    (product_info : ProductInfo) (directives : list string) (s s' : State)
    (o : Outcome InputInfo.t) :
  get_input_list host self product_info directives s = (o, s') ->
  trace s' = trace s \/
  trace s' = (trace s ++ [EvPopen (listing_cmd host self product_info)])%list.
Proof.
  unfold get_input_list. fold (listing_cmd host self product_info). intros H.
  apply bind_cases in H as [(found & s1 & Hex & H) | (e & Hex & _)];
    rewrite Path_exists_run in Hex; [| discriminate].
  injection Hex as <- <-.
  destruct (bool_decide (is_Some (fs s !! _))); cbn [negb] in H.
  - destruct (shell host (listing_cmd host self product_info) (fs s)) as [ex f] eqn:Hsh.
    apply bind_cases in H as [(p & s1 & Hp & H) | (e & Hp & _)];
      rewrite (subprocess_Popen_run _ _ _ _ _ Hsh) in Hp; [| discriminate].
    injection Hp as <- <-. right.
    apply bind_cases in H as [(info & s2 & Hrun & H) | (e & Hrun & _)].
    + assert (Hs2 : s2 = after_child (listing_cmd host self product_info) f s)
        by exact (preserves_run_process (fun st => st = after_child _ f s)
                    host _ _ _ _ _ eq_refl Hrun).
      subst s2.
      destruct (InputInfo.returncode info =? 0).
      * destruct (InputInfo.stdout info); injection H as _ <-; reflexivity.
      * destruct (InputInfo.error_info info); injection H as _ <-; reflexivity.
    + assert (Hs' : s' = after_child (listing_cmd host self product_info) f s)
        by exact (preserves_run_process (fun st => st = after_child _ f s)
                    host _ _ _ _ _ eq_refl Hrun).
      subst s'. reflexivity.
  - injection H as _ <-. left. reflexivity.
Qed.

Lemma listed_trace (host : Host) (self : ProductServer) (pr : ProductRequest.t)
    (s s' : State) (o : Outcome (Flow (ProductRequest.t * string * Env))) :
  has "MAKE" (ProductRequest.actions pr) = false ->
  listed host self pr s = (o, s') ->
  trace s' = trace s \/
  trace s' = (trace s ++ [EvPopen (listing_cmd host self
                                     (ProductRequest.product_info pr))])%list.
Proof.
  intros Hmake H. unfold listed, and_then in H.
  set (c := listing_cmd host self (ProductRequest.product_info pr)).
  assert (Hfs : forall (f : FS) (st : State),
             trace st = trace s -> trace (with_fs f st) = trace s)
    by (intros f st Hst; exact Hst).
  apply bind_cases in H as [(flow & s1 & Hcache & H) | (e & Hcache & _)];
    [| left; exact (preserves_check_cache (fun st => trace st = trace s) Hfs
                      pr _ _ _ eq_refl Hcache)].
  pose proof (preserves_check_cache (fun st => trace st = trace s) Hfs
                pr _ _ _ eq_refl Hcache) as Ht1. cbv beta in Ht1.
  destruct flow as [r | [pr1 path]]; [injection H as _ <-; left; exact Ht1 |].
  destruct (check_cache_next _ _ _ _ _ Hcache) as [_ (Hact & Hdir & _ & _ & Hinfo)].
  cbv beta iota delta [fst snd] in H.
  apply bind_cases in H as [(flow & s2 & Hgen & H) | (e & Hgen & _)];
    [| left; rewrite <- Ht1;
       exact (preserves_check_generator (fun st => trace st = trace s1)
                pr1 _ _ _ eq_refl Hgen)].
  pose proof (preserves_check_generator (fun st => st = s1) pr1 _ _ _ eq_refl Hgen)
    as Hs2. cbv beta in Hs2. subst s2.
  destruct flow as [r | pr2]; [injection H as _ <-; left; exact Ht1 |].
  destruct (check_generator_next _ _ _ _ Hgen) as [-> _].
  assert (Hmake1 : has "MAKE" (ProductRequest.actions pr1) = false)
    by (rewrite <- Hact; exact Hmake).
  rewrite (bind_returned _ _ _ _ _ (prepare_skipped pr1 path s1 Hmake1)) in H.
  apply bind_cases in H as [(flow & s3 & Hlist & H) | (e & Hlist & _)].
  - assert (Ht3 : trace s3 = trace s \/ trace s3 = (trace s ++ [EvPopen c])%list).
    { revert Hlist. unfold list_inputs. rewrite Hmake1. cbn [orb].
      destruct (has "INPUTS" (ProductRequest.actions pr1));
        [| intros Hlist; injection Hlist as _ <-; left; exact Ht1].
      intros Hlist.
      apply bind_cases in Hlist as [(info & s4 & Hget & Hlist) | (e & Hget & _)];
        apply get_input_list_trace in Hget; rewrite <- Hinfo in Hget; rewrite Ht1 in Hget.
      - destruct (InputInfo.returncode info =? 0);
          [injection Hlist as _ <-; exact Hget |].
        apply bind_cases in Hlist as [(u & s5 & Hun & Hlist) | (e & Hun & _)].
        + injection Hlist as _ <-.
          exact (preserves_Path_unlink
                   (fun st => trace st = trace s \/
                              trace st = (trace s ++ [EvPopen c])%list)
                   (fun f st Hst => Hst) path _ _ _ Hget Hun).
        + exact (preserves_Path_unlink
                   (fun st => trace st = trace s \/
                              trace st = (trace s ++ [EvPopen c])%list)
                   (fun f st Hst => Hst) path _ _ _ Hget Hun).
      - exact Hget. }
    destruct flow; injection H as _ <-; exact Ht3.
  - revert Hlist. unfold list_inputs. rewrite Hmake1. cbn [orb].
    destruct (has "INPUTS" (ProductRequest.actions pr1)); [| discriminate].
    intros Hlist.
    apply bind_cases in Hlist as [(info & s4 & Hget & Hlist) | (e' & Hget & _)];
      apply get_input_list_trace in Hget; rewrite <- Hinfo in Hget; rewrite Ht1 in Hget.
    + destruct (InputInfo.returncode info =? 0); [discriminate |].
      apply bind_cases in Hlist as [(u & s5 & Hun & Hlist) | (e' & Hun & _)];
        [discriminate |].
      exact (preserves_Path_unlink
               (fun st => trace st = trace s \/
                          trace st = (trace s ++ [EvPopen c])%list)
               (fun f st Hst => Hst) path _ _ _ Hget Hun).
    + exact Hget.
Qed.

(** X17. A request without MAKE among its actions never starts a generator
    and never makes a request for an input, however it ends, by returning or
    by raising: the only process it can start is the listing script of its
    own product, once. *)
Theorem no_generation_without_make (host : Host) (self : ProductServer) (fuel : nat)
    (pr : ProductRequest.t) (s s' : State) (o : Outcome ProductRequest.t) :
  has "MAKE" (ProductRequest.actions pr) = false ->
  handle_request host self fuel pr s = (o, s') ->
  trace s' = trace s \/
  trace s' = (trace s ++ [EvPopen (listing_cmd host self
                                     (ProductRequest.product_info pr))])%list.
Proof.
  intros Hmake H. rewrite handle_request_unfold in H.
  unfold handle_request_body, resolve, and_then in H.
  destruct (listed host self pr s) as [[[r | [[pr0 path] params]] | e] s0] eqn:Hl;
    pose proof (listed_trace host self pr s s0 _ Hmake Hl) as Ht.
  - rewrite (bind_returned _ _ _ _ _ (bind_returned _ _ _ _ _ Hl)) in H.
    injection H as _ <-. exact Ht.
  - destruct (listed_next _ _ _ _ _ _ _ _ Hl) as [_ (Hact & _)].
    assert (Hmake0 : has "MAKE" (ProductRequest.actions pr0) = false)
      by (rewrite <- Hact; exact Hmake).
    unfold bind in H. rewrite Hl in H. cbv beta iota delta [fst snd] in H.
    rewrite (retrieve_skipped host _ pr0 params s0 Hmake0) in H.
    unfold ret in H. cbv beta iota delta [fst snd] in H.
    rewrite (generate_skipped host pr0 path params s0 Hmake0) in H.
    injection H as _ <-. exact Ht.
  - unfold bind in H. rewrite Hl in H. injection H as _ <-. exact Ht.
Qed.

Lemma no_generation_without_make_witness :
  trace (snd Demo2.mix_done) = trace (Demo.start Demo.installed) \/
  trace (snd Demo2.mix_done)
  = (trace (Demo.start Demo.installed)
     ++ [EvPopen (listing_cmd Demo.host Demo.server
                    (ProductRequest.product_info Demo2.mix_inputs_request))])%list.
Proof.
  apply (no_generation_without_make Demo.host Demo.server 100 Demo2.mix_inputs_request
           (Demo.start Demo.installed) (snd Demo2.mix_done) (fst Demo2.mix_done));
    [reflexivity | vm_refl].
Defined.

(** ** From an empty cache to a cache hit *)

(** A MAKE request without listing script, up to the generation. *)
Lemma handle_request_make_unlisted (host : Host) (self : ProductServer) (fuel : nat)
    (pr : ProductRequest.t) (s : State) (path : string) :
  ProductRequest.path pr = Some path ->
  fs s !! path = None ->
  has "MAKE" (ProductRequest.actions pr) = true ->
  is_Some (fs s !! ProductRequest.generator_path pr) ->
  fs s !! InputInfo.script (InputInfo_new host self (ProductRequest.product_info pr))
  = None ->
  InputInfo.script (InputInfo_new host self (ProductRequest.product_info pr)) <> path ->
  handle_request host self fuel pr s
  = generate host (ProductRequest.with_inputs [] pr) path (bare_env pr path)
      (with_fs (<[path := ""]> (fs s)) s).
Proof.
  intros Hpath Hfile Hmake Hgen Hscript Hne.
  set (s1 := with_fs (<[path := ""]> (fs s)) s).
  apply handle_request_generates.
  apply (resolve_steps host self _ pr (ProductRequest.with_inputs [] pr) _ path
           (<["OUTFILE" := Path.name path]>
              (<["OUTDIR" := Path.parent (ProductRequest.path_tmp pr)]>
                 (get_param_env (ProductRequest.product_info pr)))) _ s s1 s1).
  - apply (listed_steps host self pr pr path _ s s s1 s1
             (Next (ProductRequest.with_inputs [] pr))).
    + apply check_cache_miss; assumption.
    + apply check_generator_found. exact Hgen.
    + unfold prepare. rewrite Hmake. unfold ensure_output_dir.
      unfold bind at 1 2. unfold ret at 1 2.
      rewrite (bind_returned _ _ _ _ _ (Path_touch_missing _ _ Hfile)). reflexivity.
    + assert (Hscript1 : fs s1 !! InputInfo.script
                             (InputInfo_new host self (ProductRequest.product_info pr))
                         = None).
      { unfold s1. cbn [fs with_fs]. rewrite lookup_insert_ne; [exact Hscript |].
        intros Heq. apply Hne. symmetry. exact Heq. }
      unfold list_inputs. rewrite Hmake. cbn [orb].
      rewrite (bind_returned _ _ _ _ _
                 (get_input_list_no_script host self _ _ s1 Hscript1)).
      reflexivity.
  - unfold retrieve. cbn [ProductRequest.actions ProductRequest.with_inputs].
    rewrite Hmake. reflexivity.
Qed.

(** X18. From an empty cache to a cache hit. A MAKE request without
    directives, with no file at its path, with a generator script and no
    listing script, whose generator exits with 0, having written ASCII text
    or nothing to its output, and leaves a temporary file that is not empty:
    the request comes back with status OK (200), the file at its path holds
    what the generator wrote and the temporary file is gone, but its product
    is not set. Any later MAKE request for the same
    path (without DELETE) then stops at the cache: it starts nothing, leaves
    the state as it is, and comes back with status OK and the path as its
    product. *)
Theorem make_then_cached (host : Host) (self : ProductServer) (fuel : nat)
    (pr : ProductRequest.t) (s : State) (path : string)
    (e : Exit) (f2 : FS) (text : string) :
  ProductRequest.path pr = Some path ->
  fs s !! path = None ->
  has "MAKE" (ProductRequest.actions pr) = true ->
  ProductRequest.directives pr = [] ->
  is_Some (fs s !! ProductRequest.generator_path pr) ->
  fs s !! InputInfo.script (InputInfo_new host self (ProductRequest.product_info pr))
  = None ->
  InputInfo.script (InputInfo_new host self (ProductRequest.product_info pr)) <> path ->
  shell host (generator_cmd pr (bare_env pr path)) (<[path := ""]> (fs s)) = (e, f2) ->
  exit_code e = 0 ->
  Utf8.is_ascii (exit_out e) = true ->
  f2 !! ProductRequest.path_tmp pr = Some text ->
  text <> "" ->
  path <> ProductRequest.path_tmp pr ->
  exists r s2,
    handle_request host self fuel pr s = (Returned r, s2) /\
    ProductRequest.status r = 200 /\
    ProductRequest.product r = ProductRequest.product pr /\
    fs s2 !! path = Some text /\
    fs s2 !! ProductRequest.path_tmp pr = None /\
    trace s2 = (trace s ++ [EvPopen (generator_cmd pr (bare_env pr path))])%list /\
    forall fuel' pr',
      ProductRequest.path pr' = Some path ->
      has "MAKE" (ProductRequest.actions pr') = true ->
      has "DELETE" (ProductRequest.actions pr') = false ->
      exists r',
        handle_request host self fuel' pr' s2 = (Returned r', s2) /\
        ProductRequest.status r' = 200 /\
        ProductRequest.product r' = ProductPath path.
Proof.
  intros Hpath Hfile Hmake Hdir Hgen Hscript Hne Hsh Hcode Hascii Htmp Htext Hapart.
  rewrite (handle_request_make_unlisted host self fuel pr s path
             Hpath Hfile Hmake Hgen Hscript Hne).
  set (pr0 := ProductRequest.with_inputs [] pr).
  set (s1 := with_fs (<[path := ""]> (fs s)) s).
  rewrite (generate_publishes host pr0 path (bare_env pr path) s1 e f2 text
             Hmake Hsh Hcode (is_ascii_valid _ Hascii) Htmp Htext).
  unfold apply_links, save_log.
  cbn [ProductRequest.directives ProductRequest.set_status generated
       ProductRequest.with_stderr ProductRequest.with_stdout
       ProductRequest.with_returncode ProductRequest.with_inputs pr0].
  rewrite Hdir. cbn [has existsb orb].
  do 2 eexists. split; [reflexivity |]. split; [reflexivity |].
  split; [reflexivity |].
  assert (Hthere : published path (ProductRequest.path_tmp pr) text f2 !! path
                   = Some text) by apply lookup_insert_eq.
  split; [exact Hthere |]. split.
  { cbn [fs after_child]. unfold published.
    rewrite lookup_insert_ne by exact Hapart. apply lookup_delete_eq. }
  split; [reflexivity |].
  intros fuel' pr' Hpath' Hmake' Hdelete'.
  eexists. split.
  - apply handle_request_stops_at_cache.
    apply (check_cache_found pr'
             (after_child (generator_cmd pr (bare_env pr path))
                (published path (ProductRequest.path_tmp pr) text f2) s1)
             path text Hpath' Hthere Hmake' Hdelete').
  - assert (Hsize : (0 <? Z.of_nat (String.length text)) = true).
    { apply Z.ltb_lt. destruct text; [congruence | cbn; lia]. }
    rewrite Hsize. split; reflexivity.
Qed.

Lemma make_then_cached_witness :
  exists r s2,
    handle_request Demo2.host Demo.server 100 Demo.gen_request
      (Demo.start Demo2.installed) = (Returned r, s2) /\
    ProductRequest.status r = 200 /\
    ProductRequest.product r = NoProduct /\
    fs s2 !! Demo.gen_artifact = Some "hello" /\
    exists r',
      handle_request Demo2.host Demo.server 100 Demo.gen_request s2 = (Returned r', s2) /\
      ProductRequest.product r' = ProductPath Demo.gen_artifact.
Proof.
  destruct (make_then_cached Demo2.host Demo.server 100 Demo.gen_request
              (Demo.start Demo2.installed) Demo.gen_artifact (Demo.exits 0 "")
              Demo2.gen_written "hello")
    as (r & s2 & Hrun & Hstatus & Hproduct & Hfile & _ & _ & Hnext);
    [reflexivity | vm_compute; reflexivity | reflexivity | reflexivity
    | vm_compute; eauto | vm_compute; reflexivity | vm_compute; discriminate
    | vm_refl | reflexivity | reflexivity | vm_compute; reflexivity | discriminate
    | vm_compute; discriminate |].
  destruct (Hnext 100%nat Demo.gen_request) as (r' & Hrun' & _ & Hproduct');
    [reflexivity | reflexivity | reflexivity |].
  exists r, s2. split; [exact Hrun |]. split; [exact Hstatus |].
  split; [exact Hproduct |]. split; [exact Hfile |].
  exists r'. split; [exact Hrun' | exact Hproduct'].
Defined.

(** ** Inputs that are being made *)

Lemma make_input_request_busy (host : Host) (self : ProductServer) (fuel : nat)
    (product_info : ProductInfo) (s : State) :
  fs s !! final_path host self product_info = Some "" ->
  exists r,
    make_input_request host self (S fuel) product_info ["MAKE"] [] s
    = (Returned r, with_event (EvRequest (counter s)) s) /\
    ProductRequest.status r = HTTPStatus.ACCEPTED /\
    ProductRequest.product r = ProductEmpty /\
    ProductRequest.path r = Some (final_path host self product_info).
Proof.
  intros Hfile.
  destruct (ProductRequest_init_run host self product_info ["MAKE"] [] s)
    as [r0 [Hinit _]].
  destruct (ProductRequest_init_fields _ _ _ _ _ _ _ _ Hinit)
    as (Hpath & _ & _ & Hact & _).
  eexists. split; [| split; [| split]].
  - cbn [make_input_request]. unfold make_request.
    rewrite (bind_returned _ _ _ _ _ Hinit).
    apply handle_request_stops_at_cache.
    apply (check_cache_found r0 (with_event (EvRequest (counter s)) s)
             (final_path host self product_info) "" Hpath Hfile);
      rewrite Hact; reflexivity.
  - reflexivity.
  - reflexivity.
  - exact Hpath.
Qed.

(** X19. An input that is being made counts as made. When the path of an
    input holds an empty placeholder, the request made for it comes back at
    once with status Accepted (202), the empty product and its path still
    set, so the loop over the inputs records that path for the input and
    goes on: the generator is handed the path of an empty file. So it is
    for a product that lists itself as an input, whose placeholder has just
    been made. *)
Theorem busy_input_is_passed_on (host : Host) (self : ProductServer) (fuel : nat)
    (i input : string) (rest inputs : Dict) (s : State) :
  let p := final_path host self (ProductInfo_parse host input) in
  fs s !! p = Some "" ->
  (exists r,
     make_input_request host self (S fuel) (ProductInfo_parse host input) ["MAKE"] [] s
     = (Returned r, with_event (EvRequest (counter s)) s) /\
     ProductRequest.status r = 202 /\
     ProductRequest.product r = ProductEmpty /\
     ProductRequest.path r = Some p) /\
  retrieve_inputs host (make_input_request host self (S fuel)) ((i, input) :: rest)
    inputs s
  = retrieve_inputs host (make_input_request host self (S fuel)) rest
      (dict_set i p inputs) (with_event (EvRequest (counter s)) s).
Proof.
  intros p Hfile.
  destruct (make_input_request_busy host self fuel (ProductInfo_parse host input) s Hfile)
    as (r & Hrun & Hstatus & Hproduct & Hpath).
  split; [exists r; auto |].
  cbn [retrieve_inputs]. rewrite (bind_returned _ _ _ _ _ Hrun).
  rewrite Hpath. reflexivity.
Qed.

Lemma busy_input_is_passed_on_witness :
  retrieve_inputs Demo2.host (make_input_request Demo2.host Demo.server 100)
    [("me", "test.loop")] [] Demo2.loop_placed
  = (Returned [("me", Demo2.loop_artifact)], with_event (EvRequest 0) Demo2.loop_placed).
Proof.
  destruct (busy_input_is_passed_on Demo2.host Demo.server 99 "me" "test.loop" [] []
              Demo2.loop_placed) as [_ Hstep]; [vm_compute; reflexivity |].
  exact Hstep.
Defined.

(** ** The command line *)

(** X20. The request the command line assembles holds INPUTS, DELETE and
    MAKE as strings only for the flags [-i], [-d] and [-m]: what [-r] names
    is appended as one nested list, in which no test ['X' in request] finds
    anything, so [-r] adds no action. It does take away the default: MAKE is
    added without [-m] only when none of [-i], [-r] and [-d] is given. *)
Theorem request_option_adds_no_action (options : Options) (x : string) :
  item_in x (main_request options)
  = (opt_INPUTS options && String.eqb x "INPUTS")
    || (opt_DELETE options && String.eqb x "DELETE")
    || ((opt_MAKE options
         || (negb (opt_INPUTS options) && String.eqb (opt_REQUEST options) ""
             && negb (opt_DELETE options)))
        && String.eqb x "MAKE").
Proof.
  destruct options as [inputs request delete make]. unfold main_request, item_in.
  cbn [opt_INPUTS opt_REQUEST opt_DELETE opt_MAKE].
  destruct inputs, delete, make, (String.eqb request "");
    cbn [negb app existsb orb andb];
    destruct (String.eqb x "INPUTS"), (String.eqb x "DELETE"), (String.eqb x "MAKE");
    reflexivity.
Qed.

(** ** Output that does not decode *)

(** X22. When the generator has written bytes to its output that are not
    well-formed UTF-8, [run_generator] raises UnicodeDecodeError as soon as
    the generator has exited, whatever its exit code: no log is written, and
    the generation of a MAKE request ends there, with nothing published,
    whatever the generator left in its temporary file; the store is the one
    the generator left. *)
Theorem undecodable_output_raises (host : Host) (pr : ProductRequest.t) (path : string)
    (params : Env) (s : State) (e : Exit) (f2 : FS) :
  shell host (generator_cmd pr params) (fs s) = (e, f2) ->
  Utf8.valid (exit_out e) = false ->
  run_generator host pr path params s
  = (Raised UnicodeDecodeError, after_child (generator_cmd pr params) f2 s) /\
  (has "MAKE" (ProductRequest.actions pr) = true ->
   generate host pr path params s
   = (Raised UnicodeDecodeError, after_child (generator_cmd pr params) f2 s)).
Proof.
  intros Hsh Hbad.
  assert (Hout : String.eqb (exit_out e) "" = false).
  { destruct (exit_out e); [discriminate | reflexivity]. }
  assert (Hrun : run_generator host pr path params s
                 = (Raised UnicodeDecodeError,
                    after_child (generator_cmd pr params) f2 s)).
  { unfold run_generator.
    rewrite (bind_returned _ _ _ _ _ (subprocess_Popen_run _ _ _ _ _ Hsh)).
    unfold run_process, bind. cbn [finished p_stdout]. rewrite Hout. cbn [negb].
    rewrite (decode_invalid _ _ Hbad). reflexivity. }
  split; [exact Hrun |].
  intros Hmake. unfold generate, bind. rewrite Hmake, Hrun. reflexivity.
Qed.

Lemma undecodable_output_raises_witness :
  generate Demo2.host Demo2.raw_request Demo2.raw_artifact Demo2.raw_env
    Demo2.raw_placed
  = (Raised UnicodeDecodeError,
     after_child (generator_cmd Demo2.raw_request Demo2.raw_env) Demo2.raw_written
       Demo2.raw_placed) /\
  Demo2.raw_written !! Demo2.raw_artifact = Some "" /\
  Demo2.raw_written !! ProductRequest.path_tmp Demo2.raw_request = Some "data".
Proof.
  destruct (undecodable_output_raises Demo2.host Demo2.raw_request Demo2.raw_artifact
              Demo2.raw_env Demo2.raw_placed (Demo.exits 0 (String "255" ""))
              Demo2.raw_written) as [_ Hgen]; [vm_refl | reflexivity |].
  split; [apply Hgen; reflexivity |].
  split; vm_compute; reflexivity.
Defined.
